(** * scripts/download_chapter.py: a shallow embedding and its properties

    The script is one procedure, [download_chapter], and a command-line
    entry point.  It talks to two collaborators it does not control: the
    network (through [requests]) and the filesystem (through [os] and
    [open]).  Both are modelled as an explicit world: the filesystem is a
    finite map from paths to nodes, the network, the filesystem faults
    and the refusals of the standard output are oracles of an environment
    [env], indexed by the time of the call, and everything the procedure
    does is recorded in a trace.  Python exceptions are the [Raise]
    results of a small state-and-error monad.

    A string is a sequence of characters with code points below 256 (the
    type [ascii] read as the first 256 code points of Unicode);
    [str.isalnum] and [str.rstrip] are Python's on these code points. *)

From Stdlib Require Import ZArith Lia List Ascii String DecimalString DecimalNat
  Sorted.
From stdpp Require Import base option list gmap strings.

Local Open Scope string_scope.
Local Open Scope list_scope.

(** ** Python values *)

(** What [response.json()] can return.  A dict keeps its insertion order,
    which the fallback on the first group key observes, so it is an
    association list.  A non-integer number is mantissa and decimal
    exponent. *)
#[warnings="-register-all"] Inductive json : Type :=
| JNull
| JBool (b : bool)
| JInt (z : Z)
| JFloat (m e : Z)
| JStr (s : string)
| JList (l : list json)
| JDict (d : list (string * json)).

(** Python's truth value, as [if x:] and [not x] test it. *)
Definition truthy (v : json) : bool :=
  match v with
  | JNull => false
  | JBool b => b
  | JInt z => negb (z =? 0)%Z
  | JFloat m _ => negb (m =? 0)%Z
  | JStr s => negb (String.eqb s "")
  | JList l => match l with [] => false | _ => true end
  | JDict d => match d with [] => false | _ => true end
  end.

(** The exceptions the script can meet.  [RequestError] is any
    [requests.RequestException] that is not a [Timeout] (HTTPError,
    ConnectionError, MissingSchema, ...); [ValueError] includes the
    UnicodeEncodeError of a [print]; [OtherError] is any other subclass
    of [Exception]. *)
Inductive exn : Type :=
| Timeout
| RequestError
| KeyError (k : string)
| IndexError
| TypeError
| AttributeError
| OSError
| ValueError
| OtherError.

(** The classes named in the script's [except] clauses. *)
Inductive exn_class : Type :=
| ClsTimeout
| ClsRequestException
| ClsKeyError
| ClsOSError
| ClsException.

(** [isinstance(e, cls)]: [Timeout] is a [RequestException], which is an
    [IOError], that is an [OSError]; everything is an [Exception]. *)
Definition isinstance (e : exn) (c : exn_class) : bool :=
  match c, e with
  | ClsException, _ => true
  | ClsTimeout, Timeout => true
  | ClsRequestException, (Timeout | RequestError) => true
  | ClsKeyError, KeyError _ => true
  | ClsOSError, (Timeout | RequestError | OSError) => true
  | _, _ => false
  end.

Inductive result (A : Type) : Type :=
| Ok (a : A)
| Raise (e : exn).
Arguments Ok {A} a.
Arguments Raise {A} e.

(** ** Strings and paths *)

Fixpoint contains (needle hay : string) : bool :=
  String.prefix needle hay ||
  match hay with
  | EmptyString => false
  | String _ hay' => contains needle hay'
  end.

Definition in_range (lo hi : nat) (c : ascii) : bool :=
  Nat.leb lo (nat_of_ascii c) && Nat.leb (nat_of_ascii c) hi.

(** [c.isalnum()] for a code point below 256: the ASCII digits and
    letters, the ordinal indicators, the superscript digits, the micro
    sign, the vulgar fractions and the accented letters (all of U+00C0 to
    U+00FF but the multiplication and the division sign). *)
Definition isalnum (c : ascii) : bool :=
  in_range 48 57 c || in_range 65 90 c || in_range 97 122 c ||
  in_range 170 170 c || in_range 178 179 c || in_range 181 181 c ||
  in_range 185 186 c || in_range 188 190 c || in_range 192 214 c ||
  in_range 216 246 c || in_range 248 255 c.

(** [c.isspace()] for a code point below 256, which is what [rstrip]
    removes: the ASCII white space and separators, next line and the
    no-break space. *)
Definition isspace (c : ascii) : bool :=
  in_range 9 13 c || in_range 28 32 c || in_range 133 133 c ||
  in_range 160 160 c.

Fixpoint filter_chars (p : ascii -> bool) (s : string) : string :=
  match s with
  | EmptyString => EmptyString
  | String c s' => if p c then String c (filter_chars p s') else filter_chars p s'
  end.

Fixpoint rstrip (s : string) : string :=
  match s with
  | EmptyString => EmptyString
  | String c s' =>
      match rstrip s' with
      | EmptyString => if isspace c then EmptyString else String c EmptyString
      | r => String c r
      end
  end.

Definition slash : ascii := "/"%char.

Fixpoint endswith_slash (s : string) : bool :=
  match s with
  | EmptyString => false
  | String c EmptyString => Ascii.eqb c slash
  | String _ s' => endswith_slash s'
  end.

Definition startswith_slash (s : string) : bool :=
  match s with
  | String c _ => Ascii.eqb c slash
  | EmptyString => false
  end.

(** A directory path with its separator: what [os.path.join] puts in front
    of a relative second component. *)
Definition dir_prefix (d : string) : string :=
  if String.eqb d "" || endswith_slash d then d else d +:+ "/".

(** [os.path.join(a, b)] of posixpath. *)
Definition path_join (a b : string) : string :=
  if startswith_slash b then b else dir_prefix a +:+ b.

(** [q] lies strictly below directory [d]. *)
Definition under (d q : string) : bool :=
  String.prefix (dir_prefix d) q &&
  Nat.ltb (String.length (dir_prefix d)) (String.length q).

(** The proper ancestors of a path that [os.makedirs] creates on the way:
    [ancestors_from acc s] walks [s], [acc] being what was read so far. *)
Fixpoint ancestors_from (acc s : string) : list string :=
  match s with
  | EmptyString => []
  | String c s' =>
      (if Ascii.eqb c slash && negb (String.eqb acc "") then [acc] else [])
      ++ ancestors_from (acc +:+ String c EmptyString) s'
  end.

Definition ancestors (p : string) : list string := ancestors_from "" p.

(** [f"{page:03d}"]: decimal, padded with zeros on the left to width 3. *)
Definition zeros (n : nat) : string :=
  Nat.iter n (String "0"%char) EmptyString.

Definition format_03d (page : nat) : string :=
  let digits := NilEmpty.string_of_uint (Nat.to_uint page) in
  zeros (3 - String.length digits) +:+ digits.

Fixpoint has_dot (s : string) : bool :=
  match s with
  | EmptyString => false
  | String c s' => Ascii.eqb c "."%char || has_dot s'
  end.

(** [f"page_{page:03d}.{extension}"]. *)
Definition page_file_name (page : nat) (extension : string) : string :=
  "page_" +:+ format_03d page +:+ "." +:+ extension.

(** The script's lines 80 to 89: the extension inferred from the
    content-type header. *)
Definition infer_extension (content_type : option string) : string :=
  match content_type with
  | Some ct =>
      if negb (String.eqb ct "") then
        if contains "jpeg" ct || contains "jpg" ct then "jpg"
        else if contains "png" ct then "png"
        else if contains "webp" ct then "webp"
        else if contains "gif" ct then "gif"
        else "png"
      else "png"
  | None => "png"
  end.

(** Line 64: the slug with everything but alphanumerics, underscore and
    hyphen removed. *)
Definition safe_slug_of (series_slug : string) : string :=
  rstrip (filter_chars
            (fun c => isalnum c || Ascii.eqb c "_"%char || Ascii.eqb c "-"%char)
            series_slug).

(** Line 65. *)
Definition chapter_dir_name (series_slug chapter_number : string) : string :=
  safe_slug_of series_slug +:+ "_Chapter_" +:+ chapter_number.

Definition chapter_dir_of (series_slug chapter_number output_dir : string) : string :=
  path_join output_dir (chapter_dir_name series_slug chapter_number).

(** ** The world: filesystem, network, trace *)

Inductive node : Type :=
| Dir
| File (content : list Byte.byte).

Inductive stream : Type := Stdout | Stderr.

(** The argument of [requests.get]: an f-string around a value, or the
    value itself (line 75 passes the page-list entry as it is). *)
Inductive url : Type :=
| FStr (prefix : string) (arg : json) (suffix : string)
| Val (v : json).

Inductive fs_op : Type :=
| Makedirs (p : string)
| OpenWrite (p : string)
| Rmdir (p : string).

(** One constructor per [print] of the script; [Text] is a line made of
    strings only.  The last three are not printed by the script itself:
    the traceback of an exception nobody caught, and what [argparse]
    writes before it ends the process. *)
Inductive msg : Type :=
| FetchingSeries (u : url)
| FetchedSeries
| ChapterNotFound
| GroupOneNotFound
| UsingFirstGroup (group_key : string)
| NoGroups
| FetchingDetails (u : url)
| FetchedDetails
| UnexpectedType
| NoPages
| FoundPages (total_pages : nat)
| OutputDirectory (p : string)
| DownloadingPage (page total_pages : nat) (proxy_url : json)
| SavedPage (page : nat) (file_path : string)
| TimeoutPage (page : nat)
| FailedPage (page : nat) (e : exn)
| Downloaded (download_count total_pages : nat) (p : string)
| FailedAllPages
| RemovedDirectory (p : string)
| CouldNotRemove (p : string) (e : exn)
| NetworkError (e : exn)
| DataStructureError (e : exn)
| UnexpectedError (e : exn)
| Text (line : string)
| Traceback (e : exn)
| ParserHelp
| ParserUsage.

Inductive event : Type :=
| EPrint (s : stream) (m : msg)
| EGet (u : url) (timeout : option Z)
| EFs (op : fs_op).

(** What the script reads of a [requests.Response]. *)
Record response : Type := {
  status_code : Z;
  content_type_header : option string;
  content : list Byte.byte;
  json_body : result json
}.

(** Why a [print] to the standard output can raise: the stream cannot
    encode the line (UnicodeEncodeError, a ValueError), or it cannot be
    written to (a closed pipe, an OSError).  The error stream escapes what
    it cannot encode and is taken to be open: printing to it always
    succeeds. *)
Inductive print_failure : Type :=
| CannotEncode
| CannotWrite.

Definition print_exn (f : print_failure) : exn :=
  match f with
  | CannotEncode => ValueError
  | CannotWrite => OSError
  end.

(** The collaborators.  [http_get t u timeout] is what [requests.get]
    does at time [t] (the number of events so far): a response, or an
    exception.  [fs_fault t op] says that the filesystem refuses [op] at
    time [t] for a reason outside the model (permissions, a full disk),
    and [fs_progress t op] how far the refused call got before: [None]
    when nothing was touched, [Some k] when [os.makedirs] had made [k]
    leading directories, or when [open] had created or truncated the file
    and [write] had stored [k] bytes.  [stdout_fault t m] says that, and
    why, the standard output refuses the line [m] at time [t]. *)
Record env : Type := {
  http_get : nat -> url -> option Z -> result response;
  fs_fault : nat -> fs_op -> bool;
  fs_progress : nat -> fs_op -> option nat;
  stdout_fault : nat -> msg -> option print_failure
}.

Record world : Type := {
  fs : gmap string node;
  trace : list event
}.

(** ** The monad of the script: state and exceptions *)

Definition M (A : Type) : Type := world -> result A * world.

Definition ret {A} (a : A) : M A := fun w => (Ok a, w).

Definition raise {A} (e : exn) : M A := fun w => (Raise e, w).

Definition bind {A B} (m : M A) (k : A -> M B) : M B :=
  fun w =>
    match m w with
    | (Ok a, w') => k a w'
    | (Raise e, w') => (Raise e, w')
    end.

(** [try: m  except ...: h]: [h e] is the body of the first clause that
    matches [e], if any. *)
Definition try_except {A} (m : M A) (h : exn -> option (M A)) : M A :=
  fun w =>
    match m w with
    | (Ok a, w') => (Ok a, w')
    | (Raise e, w') =>
        match h e with
        | Some k => k w'
        | None => (Raise e, w')
        end
    end.

Definition lift {A} (r : result A) : M A :=
  match r with
  | Ok a => ret a
  | Raise e => raise e
  end.

Declare Scope py_scope.
Delimit Scope py_scope with py.
Notation "x <- m ;; k" := (bind m (fun x => k))
  (at level 100, m at next level, right associativity) : py_scope.
Notation "m ;; k" := (bind m (fun _ => k))
  (at level 100, right associativity) : py_scope.

Definition emit (ev : event) : M unit :=
  fun w => (Ok tt, {| fs := fs w; trace := trace w ++ [ev] |}).

(** ** Python built-ins on decoded JSON *)

Fixpoint assoc (k : string) (d : list (string * json)) : option json :=
  match d with
  | [] => None
  | (k', v) :: d' => if String.eqb k k' then Some v else assoc k d'
  end.

(** [v[k]] with a string key. *)
Definition getitem (v : json) (k : string) : result json :=
  match v with
  | JDict d => match assoc k d with Some x => Ok x | None => Raise (KeyError k) end
  | _ => Raise TypeError
  end.

(** [v.get(k, default)]. *)
Definition dict_get (v : json) (k : string) (default : json) : result json :=
  match v with
  | JDict d => Ok (match assoc k d with Some x => x | None => default end)
  | _ => Raise AttributeError
  end.

(** [d.keys()]. *)
Definition dict_keys (v : json) : result (list string) :=
  match v with
  | JDict d => Ok (map fst d)
  | _ => Raise AttributeError
  end.

(** [l[0]]. *)
Definition first_item {A} (l : list A) : result A :=
  match l with
  | x :: _ => Ok x
  | [] => Raise IndexError
  end.

(** [len(v)]. *)
Definition py_len (v : json) : result nat :=
  match v with
  | JList l => Ok (length l)
  | JDict d => Ok (length d)
  | JStr s => Ok (String.length s)
  | _ => Raise TypeError
  end.

Fixpoint chars (s : string) : list json :=
  match s with
  | EmptyString => []
  | String c s' => JStr (String c EmptyString) :: chars s'
  end.

(** What iterating over [v] yields: the items of a list, the keys of a
    dict, the characters of a string. *)
Definition py_iter (v : json) : result (list json) :=
  match v with
  | JList l => Ok l
  | JDict d => Ok (map (fun kv => JStr (fst kv)) d)
  | JStr s => Ok (chars s)
  | _ => Raise TypeError
  end.

(** ** The filesystem operations *)

Definition is_file (m : gmap string node) (p : string) : bool :=
  match m !! p with
  | Some (File _) => true
  | _ => false
  end.

Definition has_entry_under (m : gmap string node) (d : string) : bool :=
  existsb (fun kv => under d (fst kv)) (map_to_list m).

(** The filesystem once [p] and its missing ancestors are directories. *)
Definition made_dirs (p : string) (m : gmap string node) : gmap string node :=
  foldr (fun q acc => <[q := Dir]> acc) m (ancestors p ++ [p]).

(** The filesystem when [os.makedirs(p)] was refused after it had made
    the first [k] directories on the way to [p]. *)
Definition partly_made (k : nat) (p : string) (m : gmap string node)
    : gmap string node :=
  foldr (fun q acc => <[q := Dir]> acc) m (take k (ancestors p)).

Definition is_fs_event (ev : event) : bool :=
  match ev with
  | EFs _ => true
  | _ => false
  end.

(** An event that neither touches the filesystem nor reports a saved
    page. *)
Definition quiet_event (ev : event) : bool :=
  match ev with
  | EFs _ => false
  | EPrint _ (SavedPage _ _) => false
  | _ => true
  end.

Section Script.

Variable E : env.

Local Open Scope py_scope.

(** [print(..., file=s)].  A line on the standard output is written
    unless the stream refuses it: its encoding cannot represent the text
    (a UnicodeEncodeError, which is a ValueError) or the write fails (an
    OSError); then nothing is written and the exception is raised.  A
    line on the error stream is always written: the interpreter opens
    that stream with the error handler backslashreplace, so no text is
    refused by its encoding, and a failing write to it is not part of
    this model. *)
Definition print (s : stream) (m : msg) : M unit :=
  fun w =>
    match s with
    | Stderr => (Ok tt, {| fs := fs w; trace := trace w ++ [EPrint Stderr m] |})
    | Stdout =>
        match stdout_fault E (length (trace w)) m with
        | Some f => (Raise (print_exn f), w)
        | None =>
            (Ok tt, {| fs := fs w; trace := trace w ++ [EPrint Stdout m] |})
        end
    end.

Definition requests_get (u : url) (timeout : option Z) : M response :=
  fun w =>
    let w' := {| fs := fs w; trace := trace w ++ [EGet u timeout] |} in
    (http_get E (length (trace w)) u timeout, w').

(** [response.raise_for_status()]: HTTPError on 4xx and 5xx. *)
Definition is_error_status (r : response) : bool :=
  ((400 <=? status_code r) && (status_code r <? 600))%Z.

Definition raise_for_status (r : response) : M unit :=
  if is_error_status r then raise RequestError else ret tt.

(** [response.json()]. *)
Definition response_json (r : response) : M json := lift (json_body r).

(** One filesystem call, recorded in the trace.  [run] is what the call
    does when nothing stops it; it is [None] when the filesystem as it is
    forbids the call, which then changes nothing.  A call that a fault
    refuses leaves what [partial] says for the progress it had made. *)
Definition fs_call (op : fs_op)
    (run : gmap string node -> option (gmap string node))
    (partial : nat -> gmap string node -> gmap string node) : M unit :=
  fun w =>
    let t := length (trace w) in
    let tr := (trace w ++ [EFs op])%list in
    match run (fs w) with
    | None => (Raise OSError, {| fs := fs w; trace := tr |})
    | Some m' =>
        if fs_fault E t op then
          (Raise OSError,
           {| fs := match fs_progress E t op with
                    | Some k => partial k (fs w)
                    | None => fs w
                    end;
              trace := tr |})
        else (Ok tt, {| fs := m'; trace := tr |})
    end.

(** [os.makedirs(p, exist_ok=True)]: the empty path and a path through a
    file are errors; every missing directory on the way is created, from
    the top, and a call that is refused on the way leaves the ones it had
    made. *)
Definition os_makedirs (p : string) : M unit :=
  fs_call (Makedirs p)
    (fun m =>
       if String.eqb p "" || existsb (is_file m) (ancestors p ++ [p]) then None
       else Some (made_dirs p m))
    (fun k m => partly_made k p m).

(** [with open(p, 'wb') as f: f.write(content)]: a directory cannot be
    opened; [open] creates or truncates the file, so a [write] that is
    refused leaves the file with the bytes that were stored. *)
Definition open_write (p : string) (data : list Byte.byte) : M unit :=
  fs_call (OpenWrite p)
    (fun m =>
       match m !! p with
       | Some Dir => None
       | _ => Some (<[p := File data]> m)
       end)
    (fun k m => <[p := File (take k data)]> m).

(** [os.rmdir(p)]: [p] must be a directory with nothing in it. *)
Definition os_rmdir (p : string) : M unit :=
  fs_call (Rmdir p)
    (fun m =>
       match m !! p with
       | Some Dir => if has_entry_under m p then None else Some (delete p m)
       | _ => None
       end)
    (fun _ m => m).

(** ** The script *)

(** Lines 26 to 36.  [None] is the early [return None]. *)
Definition select_group_url (chapter_data : json) : M (option json) :=
  groups <- lift (getitem chapter_data "groups");;
  group_url <- lift (dict_get groups "1" JNull);;
  if negb (truthy group_url) then
    print Stderr GroupOneNotFound;;
    groups <- lift (getitem chapter_data "groups");;
    if truthy groups then
      groups <- lift (getitem chapter_data "groups");;
      keys <- lift (dict_keys groups);;
      group_key <- lift (first_item keys);;
      groups <- lift (getitem chapter_data "groups");;
      group_url <- lift (getitem groups group_key);;
      print Stdout (UsingFirstGroup group_key);;
      ret (Some group_url)
    else
      print Stderr NoGroups;;
      ret None
  else ret (Some group_url).

(** Lines 47 to 53.  [None] is the early [return None]. *)
Definition get_image_urls (chapter_details : json) : M (option json) :=
  match chapter_details with
  | JList _ => ret (Some chapter_details)
  | JDict _ =>
      image_urls <- lift (dict_get chapter_details "pages" (JList []));;
      ret (Some image_urls)
  | _ =>
      print Stderr UnexpectedType;;
      ret None
  end.

(** Lines 75 to 95: the body of the per-page [try]. *)
Definition save_page (chapter_specific_dir : string) (page : nat)
    (proxy_url : json) (downloaded_files : list string) : M (list string) :=
  image_response <- requests_get (Val proxy_url) (Some 30%Z);;
  raise_for_status image_response;;
  let content_type := content_type_header image_response in
  let extension := infer_extension content_type in
  let file_path :=
    path_join chapter_specific_dir (page_file_name page extension) in
  open_write file_path (content image_response);;
  print Stdout (SavedPage page file_path);;
  ret (downloaded_files ++ [file_path]).

(** Lines 97 to 100: the per-page [except] clauses. *)
Definition page_handler (page : nat) (downloaded_files : list string)
    (e : exn) : option (M (list string)) :=
  if isinstance e ClsTimeout then
    Some (print Stderr (TimeoutPage page);; ret downloaded_files)
  else if isinstance e ClsRequestException then
    Some (print Stderr (FailedPage page e);; ret downloaded_files)
  else None.

(** Lines 72 to 100: the loop over [enumerate(image_urls, start=page)]. *)
Fixpoint download_pages (chapter_specific_dir : string) (total_pages : nat)
    (page : nat) (image_urls : list json) (downloaded_files : list string)
    : M (list string) :=
  match image_urls with
  | [] => ret downloaded_files
  | proxy_url :: rest =>
      print Stdout (DownloadingPage page total_pages proxy_url);;
      downloaded_files <-
        try_except
          (save_page chapter_specific_dir page proxy_url downloaded_files)
          (page_handler page downloaded_files);;
      download_pages chapter_specific_dir total_pages (S page) rest
        downloaded_files
  end.

(** Lines 109 to 113. *)
Definition remove_empty_dir (chapter_specific_dir : string) : M unit :=
  try_except
    (os_rmdir chapter_specific_dir;;
     print Stdout (RemovedDirectory chapter_specific_dir))
    (fun rm_err =>
       if isinstance rm_err ClsOSError then
         Some (print Stderr (CouldNotRemove chapter_specific_dir rm_err))
       else None).

(** Lines 63 to 114: from the creation of the chapter directory on. *)
Definition download_into (series_slug chapter_number output_dir : string)
    (image_urls : json) (total_pages : nat) : M (option string) :=
  let chapter_specific_dir :=
    chapter_dir_of series_slug chapter_number output_dir in
  os_makedirs chapter_specific_dir;;
  print Stdout (OutputDirectory chapter_specific_dir);;
  pages <- lift (py_iter image_urls);;
  downloaded_files <-
    download_pages chapter_specific_dir total_pages 1 pages [];;
  let download_count := length downloaded_files in
  if Nat.ltb 0 download_count then
    print Stdout (Downloaded download_count total_pages chapter_specific_dir);;
    ret (Some chapter_specific_dir)
  else
    print Stderr FailedAllPages;;
    remove_empty_dir chapter_specific_dir;;
    ret None.

(** Lines 38 to 61: the page-list document.  [None] is an early
    [return None]; otherwise the page list and its length. *)
Definition fetch_page_list (group_url : json) : M (option (json * nat)) :=
  let chapter_details_url := FStr "https://cubari.moe" group_url "" in
  print Stdout (FetchingDetails chapter_details_url);;
  response <- requests_get chapter_details_url None;;
  raise_for_status response;;
  chapter_details <- response_json response;;
  print Stdout FetchedDetails;;
  found <- get_image_urls chapter_details;;
  match found with
  | None => ret None
  | Some image_urls =>
      total_pages <- lift (py_len image_urls);;
      if Nat.eqb total_pages 0 then
        print Stdout NoPages;;
        ret None
      else
        print Stdout (FoundPages total_pages);;
        ret (Some (image_urls, total_pages))
  end.

(** Lines 26 to 61: from the chapter record to the page list. *)
Definition pages_of_chapter (chapter_data : json) : M (option (json * nat)) :=
  selected <- select_group_url chapter_data;;
  match selected with
  | None => ret None
  | Some group_url => fetch_page_list group_url
  end.

(** Lines 9 to 61: everything before the chapter directory is created. *)
Definition find_pages (series_slug chapter_number output_dir : string)
    : M (option (json * nat)) :=
  os_makedirs output_dir;;
  let series_url :=
    FStr "https://cubari.moe/read/api/weebcentral/series/"
         (JStr series_slug) "/" in
  print Stdout (FetchingSeries series_url);;
  response <- requests_get series_url None;;
  raise_for_status response;;
  series_data <- response_json response;;
  print Stdout FetchedSeries;;
  chapters <- lift (getitem series_data "chapters");;
  chapter_data <- lift (dict_get chapters chapter_number JNull);;
  if negb (truthy chapter_data) then
    print Stderr ChapterNotFound;;
    ret None
  else pages_of_chapter chapter_data.

(** Lines 9 to 114: the body of the outer [try]. *)
Definition download_chapter_body
    (series_slug chapter_number output_dir : string) : M (option string) :=
  found <- find_pages series_slug chapter_number output_dir;;
  match found with
  | None => ret None
  | Some (image_urls, total_pages) =>
      download_into series_slug chapter_number output_dir image_urls
        total_pages
  end.

(** Lines 116 to 124: the outer [except] clauses. *)
Definition outer_handler (e : exn) : option (M (option string)) :=
  if isinstance e ClsRequestException then
    Some (print Stderr (NetworkError e);; ret None)
  else if isinstance e ClsKeyError then
    Some (print Stderr (DataStructureError e);; ret None)
  else if isinstance e ClsException then
    Some (print Stderr (UnexpectedError e);; ret None)
  else None.

Definition download_chapter
    (series_slug chapter_number output_dir : string) : M (option string) :=
  try_except (download_chapter_body series_slug chapter_number output_dir)
             outer_handler.






End Script.

(** ** Reasoning about the monad *)

(** [wp m Q w]: running [m] from [w] ends in a result and a world that
    satisfy [Q]. *)
Definition wp {A} (m : M A) (Q : result A -> world -> Prop) (w : world) : Prop :=
  Q (m w).1 (m w).2.

(** The world after one more event. *)
Definition record (ev : event) (w : world) : world :=
  {| fs := fs w; trace := trace w ++ [ev] |}.

(** ** The vocabulary of the properties

    Predicates on runs and on the collaborators, the statements of the
    claims that fail as worded, and the concrete environments the
    properties are tried on. *)

(** The standard output accepts every line. *)
Definition stdout_ok (E : env) : Prop :=
  forall t m, stdout_fault E t m = None.

(** The exceptions a refused [print] raises. *)
Definition print_error (e : exn) : Prop :=
  e = ValueError \/ e = OSError.

(** What [os.makedirs(p)] does to the filesystem [m]: it makes [p] and
    what is missing on the way, or it is refused and leaves what it had
    made, which is nothing when a file is in the way. *)
Definition makedirs_effect (p : string) (m m' : gmap string node) : Prop :=
  (p <> "" /\ existsb (is_file m) (ancestors p ++ [p]) = false /\
   m' = made_dirs p m) \/
  (exists k,
      (k = 0 \/ existsb (is_file m) (ancestors p ++ [p]) = false) /\
      m' = partly_made k p m).

(** What the lines before the chapter directory do to the world: one
    [os.makedirs(output_dir)], carried out or refused on the way, then no
    filesystem call at all. *)
Definition metadata_effect (output_dir : string) (w w' : world) : Prop :=
  makedirs_effect output_dir (fs w) (fs w') /\
  exists evs,
    trace w' = trace w ++ EFs (Makedirs output_dir) :: evs /\
    forallb quiet_event evs = true.

Definition page_step E dir page proxy_url acc : M (list string) :=
  try_except (save_page E dir page proxy_url acc) (page_handler E page acc).

Definition page_path dir page (r : response) : string :=
  path_join dir (page_file_name page (infer_extension (content_type_header r))).

(** The page was fetched and written. *)
Definition page_saved E dir page proxy_url (acc : list string) w
    (res : result (list string)) w' : Prop :=
  exists r,
    http_get E (length (trace w)) (Val proxy_url) (Some 30%Z) = Ok r /\
    is_error_status r = false /\
    fs w !! page_path dir page r <> Some Dir /\
    res = Ok (acc ++ [page_path dir page r]) /\
    fs w' = <[page_path dir page r := File (content r)]> (fs w) /\
    trace w' = trace w ++ [EGet (Val proxy_url) (Some 30%Z);
                           EFs (OpenWrite (page_path dir page r));
                           EPrint Stdout (SavedPage page (page_path dir page r))].

(** The fetch timed out or failed as a request: logged, skipped. *)
Definition page_skipped E page proxy_url (acc : list string) w
    (res : result (list string)) w' : Prop :=
  res = Ok acc /\ fs w' = fs w /\
  ((exists e,
      http_get E (length (trace w)) (Val proxy_url) (Some 30%Z) = Raise e /\
      isinstance e ClsRequestException = true) \/
   (exists r,
      http_get E (length (trace w)) (Val proxy_url) (Some 30%Z) = Ok r /\
      is_error_status r = true)) /\
  exists m, (exists e, m = TimeoutPage page \/ m = FailedPage page e) /\
    trace w' = trace w ++ [EGet (Val proxy_url) (Some 30%Z); EPrint Stderr m].

(** Something else went wrong: the exception leaves the loop.  Either
    the request raised something that is no request exception; or the
    file could not be opened or written, and is left as it was or with
    the bytes that were stored; or the file was written and the line that
    reports it was refused. *)
Definition page_aborted E dir page proxy_url w
    (res : result (list string)) w' : Prop :=
  exists e,
    res = Raise e /\
    isinstance e ClsRequestException = false /\
    ((http_get E (length (trace w)) (Val proxy_url) (Some 30%Z) = Raise e /\
      fs w' = fs w /\
      trace w' = trace w ++ [EGet (Val proxy_url) (Some 30%Z)]) \/
     (exists r,
        http_get E (length (trace w)) (Val proxy_url) (Some 30%Z) = Ok r /\
        is_error_status r = false /\
        trace w' = trace w ++ [EGet (Val proxy_url) (Some 30%Z);
                               EFs (OpenWrite (page_path dir page r))] /\
        ((fs w !! page_path dir page r = Some Dir /\ fs w' = fs w) \/
         (fs w !! page_path dir page r <> Some Dir /\
          (exists t, fs_fault E t (OpenWrite (page_path dir page r)) = true) /\
          (fs w' = fs w \/
           exists k,
             fs w' = <[page_path dir page r := File (take k (content r))]>
                       (fs w))) \/
         (fs w !! page_path dir page r <> Some Dir /\
          fs w' = <[page_path dir page r := File (content r)]> (fs w) /\
          exists t f,
            stdout_fault E t (SavedPage page (page_path dir page r)) = Some f /\
            e = print_exn f)))).

(** The pages a run reports as saved, with their paths, in order. *)
Fixpoint saved_pages (evs : list event) : list (nat * string) :=
  match evs with
  | [] => []
  | EPrint Stdout (SavedPage page p) :: evs' => (page, p) :: saved_pages evs'
  | _ :: evs' => saved_pages evs'
  end.

(** What every run of the loop satisfies, whatever the collaborators do:
    [evs] are its events, the pages it saved are numbered from [page] in
    increasing order, their files exist afterwards, nothing but the
    files of pages from [page] on changed in the filesystem, and when the
    loop ends normally nothing but the files of the saved pages. *)
Definition loop_facts (dir : string) (page n : nat) (acc : list string)
    (w : world) (res : result (list string)) (w' : world)
    (evs : list event) : Prop :=
  trace w' = trace w ++ evs /\
  (forall files, res = Ok files -> files = acc ++ map snd (saved_pages evs)) /\
  Forall (fun iq => page <= iq.1 < page + n /\
                    exists ext, iq.2 = path_join dir (page_file_name iq.1 ext))
         (saved_pages evs) /\
  NoDup (map fst (saved_pages evs)) /\
  (forall q, In q (map snd (saved_pages evs)) -> is_file (fs w') q = true) /\
  (forall q,
     (forall i ext, page <= i -> q <> path_join dir (page_file_name i ext)) ->
     fs w' !! q = fs w !! q) /\
  (forall files, res = Ok files ->
     forall q, ~ In q (map snd (saved_pages evs)) -> fs w' !! q = fs w !! q) /\
  (forall q, is_file (fs w) q = true -> is_file (fs w') q = true) /\
  (forall q, fs w' !! q = Some Dir <-> fs w !! q = Some Dir).

(** The image behind [u] can be fetched: every request for it is answered
    with a status that is no error. *)
Definition fetch_ok (E : env) (u : json) : Prop :=
  forall t, exists r,
    http_get E t (Val u) (Some 30%Z) = Ok r /\ is_error_status r = false.

(** The image behind [u] cannot be fetched: every request for it times
    out, fails as a request, or is answered with an error status. *)
Definition fetch_fails (E : env) (u : json) : Prop :=
  forall t,
    (exists e, http_get E t (Val u) (Some 30%Z) = Raise e /\
               isinstance e ClsRequestException = true) \/
    (exists r, http_get E t (Val u) (Some 30%Z) = Ok r /\
               is_error_status r = true).

(** The filesystem refuses nothing for reasons of its own. *)
Definition no_fs_fault (E : env) : Prop :=
  forall t op, fs_fault E t op = false.

(** What the loop prints to the error stream for a page it skips. *)
Definition is_skip_report (page : nat) (m : msg) : Prop :=
  m = TimeoutPage page \/ exists e, m = FailedPage page e.

(** The world once the chapter directory is made and announced. *)
Definition opened (dir : string) (w : world) : world :=
  record (EPrint Stdout (OutputDirectory dir))
         {| fs := made_dirs dir (fs w);
            trace := trace w ++ [EFs (Makedirs dir)] |}.

(** What a run from the creation of the chapter directory on leaves
    behind when the filesystem and the standard output refuse nothing and
    every image is either fetched or fails as a request: [saved] are the
    pages it reports as saved, [m'] is the filesystem at the end, [evs]
    are its events. *)
Definition clean_run (E : env) (dir : string) (pages : list json)
    (res : option string) (m' : gmap string node) (evs : list event)
    (saved : list (nat * string)) : Prop :=
  res = match saved with [] => None | _ => Some dir end /\
  NoDup (map fst saved) /\
  NoDup (map snd saved) /\
  Forall (fun iq => 1 <= iq.1 <= length pages /\
                    exists ext, iq.2 = path_join dir (page_file_name iq.1 ext))
         saved /\
  (forall (i : nat) u, pages !! i = Some u ->
     In (EGet (Val u) (Some 30%Z)) evs /\
     (fetch_ok E u -> In (S i) (map fst saved)) /\
     (fetch_fails E u ->
        ~ In (S i) (map fst saved) /\
        exists m, is_skip_report (S i) m /\ In (EPrint Stderr m) evs)) /\
  (forall q, In q (map snd saved) -> is_file m' q = true) /\
  (saved <> [] -> m' !! dir = Some Dir) /\
  (saved = [] -> In (EFs (Rmdir dir)) evs).

(** What such a run leaves behind when, moreover, nothing was below the
    chapter directory before: below it there are the files of the saved
    pages and nothing else, and without a saved page the directory is
    gone. *)
Definition fresh_run (dir : string) (m' : gmap string node)
    (saved : list (nat * string)) : Prop :=
  (forall q, under dir q = true -> (m' !! q <> None <-> In q (map snd saved))) /\
  (saved = [] -> m' !! dir = None).

Definition png_bytes : list Byte.byte := [Byte.x89; Byte.x50; Byte.x4e; Byte.x47].

Definition json_response (v : json) : response :=
  {| status_code := 200; content_type_header := Some "application/json";
     content := []; json_body := Ok v |}.

Definition image_response (content_type : option string) : response :=
  {| status_code := 200; content_type_header := content_type;
     content := png_bytes; json_body := Raise OtherError |}.

(** A series with chapter 5, offered by the group with key [key]. *)
Definition demo_series (key : string) : json :=
  JDict [("chapters",
          JDict [("5", JDict [("groups", JDict [(key, JStr "/read/api/5/")])])])].

(** An environment: the series document, the page-list document, what
    fetching an image gives, and the filesystem operations refused
    (before they touch anything); the standard output accepts every
    line. *)
Definition demo_env (series page_list : json)
    (image : json -> result response) (fault : fs_op -> bool) : env :=
  {| http_get := fun _ u _ =>
       match u with
       | FStr "https://cubari.moe" _ _ => Ok (json_response page_list)
       | FStr _ _ _ => Ok (json_response series)
       | Val v => image v
       end;
     fs_fault := fun _ op => fault op;
     fs_progress := fun _ _ => None;
     stdout_fault := fun _ _ => None |}.

Definition start : world := {| fs := ∅; trace := [] |}.

Definition two_pages : json := JList [JStr "https://img/1"; JStr "https://img/2"].

Definition all_images_env : env :=
  demo_env (demo_series "1") two_pages
           (fun _ => Ok (image_response (Some "image/webp")))
           (fun _ => false).


(** The disk is full once the first page is written. *)
Definition disk_full_env : env :=
  demo_env (demo_series "1") two_pages
           (fun _ => Ok (image_response (Some "image/webp")))
           (fun op => match op with
                      | OpenWrite p =>
                          String.eqb p "out/one-piece_Chapter_5/page_002.webp"
                      | _ => false
                      end).

Definition one_timeout_env : env :=
  demo_env (demo_series "1") two_pages
           (fun v => match v with
                     | JStr "https://img/1" => Raise Timeout
                     | _ => Ok (image_response None)
                     end)
           (fun _ => false).

(** C6 as the claim is worded: whenever the page list is not empty and
    no page was saved, the removal of the chapter directory is attempted
    and the function returns [None]. *)
Definition C6_as_stated (E : env) (series_slug chapter_number output_dir : string)
    (w : world) : Prop :=
  forall image_urls total_pages w1,
    find_pages E series_slug chapter_number output_dir w
    = (Ok (Some (image_urls, total_pages)), w1) ->
    let run := download_chapter E series_slug chapter_number output_dir w in
    saved_pages (trace run.2) = [] ->
    run.1 = Ok None /\
    In (EFs (Rmdir (chapter_dir_of series_slug chapter_number output_dir)))
       (trace run.2).

(** Nothing can be written into the chapter directory. *)
Definition read_only_env : env :=
  demo_env (demo_series "1") two_pages
           (fun _ => Ok (image_response (Some "image/webp")))
           (fun op => match op with OpenWrite _ => true | _ => false end).

Definition no_image_env : env :=
  demo_env (demo_series "1") two_pages (fun _ => Raise RequestError)
           (fun _ => false).

(** C3 as the claim is worded: either the function returns a directory
    that holds the file of every saved page, or it returns [None] and no
    directory is new. *)
Definition C3_as_stated (E : env) (series_slug chapter_number output_dir : string)
    (w : world) : Prop :=
  let run := download_chapter E series_slug chapter_number output_dir w in
  (exists p,
      run.1 = Ok (Some p) /\ fs run.2 !! p = Some Dir /\
      Forall (fun iq => under p iq.2 = true /\ is_file (fs run.2) iq.2 = true)
             (saved_pages (trace run.2))) \/
  (run.1 = Ok None /\
   forall q, fs run.2 !! q = Some Dir -> fs w !! q = Some Dir).

(** The series endpoint cannot be reached. *)
Definition offline_env : env :=
  {| http_get := fun _ _ _ => Raise RequestError;
     fs_fault := fun _ _ => false;
     fs_progress := fun _ _ => None;
     stdout_fault := fun _ _ => None |}.

(** The page-list endpoint answers every request with the document [d]. *)
Definition page_list_is (E : env) (d : json) : Prop :=
  forall t group_url, exists r,
    http_get E t (FStr "https://cubari.moe" group_url "") None = Ok r /\
    json_body r = Ok d.

(** The document is an empty list, or a mapping whose pages have length
    zero (a missing "pages" key stands for the empty list). *)
Definition yields_no_pages (d : json) : Prop :=
  d = JList [] \/
  exists kv v, d = JDict kv /\ dict_get d "pages" (JList []) = Ok v /\
               py_len v = Ok 0.

Definition empty_list_env : env :=
  demo_env (demo_series "1") (JList [])
           (fun _ => Ok (image_response None)) (fun _ => false).

Definition no_pages_key_env : env :=
  demo_env (demo_series "1") (JDict [("title", JStr "Chapter 5")])
           (fun _ => Ok (image_response None)) (fun _ => false).

(** ** Further vocabulary: what a run may do *)

(** Line 13 and line 39: the two addresses the script builds itself. *)
Definition series_url (series_slug : string) : url :=
  FStr "https://cubari.moe/read/api/weebcentral/series/" (JStr series_slug) "/".

Definition details_url (group_url : json) : url :=
  FStr "https://cubari.moe" group_url "".

Definition known_extension (ext : string) : Prop :=
  ext = "jpg" \/ ext = "png" \/ ext = "webp" \/ ext = "gif".

(** The events a call of [download_chapter] may add to the trace. *)
Definition allowed_event (series_slug chapter_number output_dir : string)
    (ev : event) : Prop :=
  let dir := chapter_dir_of series_slug chapter_number output_dir in
  match ev with
  | EFs (Makedirs p) => p = output_dir \/ p = dir
  | EFs (OpenWrite p) =>
      exists page ext,
        1 <= page /\ known_extension ext /\
        p = path_join dir (page_file_name page ext)
  | EFs (Rmdir p) => p = dir
  | EGet (Val _) t => t = Some 30%Z
  | EGet u t =>
      t = None /\ (u = series_url series_slug \/ exists g, u = details_url g)
  | EPrint _ (Text _ | Traceback _ | ParserHelp | ParserUsage) => False
  | EPrint _ _ => True
  end.

(** [w'] continues [w] with events that all satisfy [P]. *)
Definition extends (P : event -> Prop) (w w' : world) : Prop :=
  exists evs, trace w' = trace w ++ evs /\ Forall P evs.

(** The page images a run asked for, in order. *)
Fixpoint page_requests (evs : list event) : list json :=
  match evs with
  | [] => []
  | EGet (Val proxy_url) _ :: evs' => proxy_url :: page_requests evs'
  | _ :: evs' => page_requests evs'
  end.

(** The file of the saved page [iq] holds what was served for the entry
    of [image_urls] at its place, counted from [page]. *)
Definition holds_served_bytes (E : env) (dir : string) (page : nat)
    (image_urls : list json) (m' : gmap string node)
    (iq : nat * string) : Prop :=
  exists u t r,
    page <= iq.1 /\
    image_urls !! (iq.1 - page) = Some u /\
    http_get E t (Val u) (Some 30%Z) = Ok r /\
    is_error_status r = false /\
    iq.2 = path_join dir
             (page_file_name iq.1 (infer_extension (content_type_header r))) /\
    m' !! iq.2 = Some (File (content r)).

(** The series endpoint answers every request for [series_slug] with
    [r]. *)
Definition series_answers (E : env) (series_slug : string) (r : response)
    : Prop :=
  forall t, http_get E t (series_url series_slug) None = Ok r.

(** The world after lines 14 to 18: the series document was fetched. *)
Definition series_fetched (series_slug : string) (w1 : world) : world :=
  record (EPrint Stdout FetchedSeries)
    (record (EGet (series_url series_slug) None)
       (record (EPrint Stdout (FetchingSeries (series_url series_slug))) w1)).

(** A list or a mapping, the two shapes line 47 and line 49 accept. *)
Definition is_container (d : json) : bool :=
  match d with
  | JList _ | JDict _ => true
  | _ => false
  end.

Definition no_chapters_env : env :=
  demo_env (JDict [("title", JStr "One Piece")]) two_pages
           (fun _ => Ok (image_response None)) (fun _ => false).

Definition text_page_list_env : env :=
  demo_env (demo_series "1") JNull
           (fun _ => Ok (image_response None)) (fun _ => false).

(** The characters line 64 keeps. *)
Definition is_safe_char (c : ascii) : bool :=
  isalnum c || Ascii.eqb c "_"%char || Ascii.eqb c "-"%char.

Fixpoint all_chars (p : ascii -> bool) (s : string) : bool :=
  match s with
  | EmptyString => true
  | String c s' => p c && all_chars p s'
  end.

(** The path a filesystem call works on. *)
Definition op_path (op : fs_op) : string :=
  match op with
  | Makedirs p | OpenWrite p | Rmdir p => p
  end.

(** The page numbers the loop reports an outcome for, in the order of the
    reports: saved on the output stream, timed out or failed on the error
    stream. *)
Fixpoint page_outcomes (evs : list event) : list nat :=
  match evs with
  | [] => []
  | EPrint Stdout (SavedPage page _) :: evs' => page :: page_outcomes evs'
  | EPrint Stderr (TimeoutPage page) :: evs' => page :: page_outcomes evs'
  | EPrint Stderr (FailedPage page _) :: evs' => page :: page_outcomes evs'
  | _ :: evs' => page_outcomes evs'
  end.

(** The event is no request, or the request for the page list of
    [group_url], without a timeout. *)
Definition request_for (group_url : json) (ev : event) : Prop :=
  match ev with
  | EGet u t => u = details_url group_url /\ t = None
  | _ => True
  end.

(** The event is no filesystem call, no report of a saved page and not
    the report of a page list of unexpected type. *)
Definition plain_event (ev : event) : Prop :=
  quiet_event ev = true /\ ev <> EPrint Stderr UnexpectedType.

(** ** Further vocabulary: the claims that fail as worded *)

(** The paths of the filesystem that lie below the directory [d]. *)
Definition entries_under (m : gmap string node) (d : string) : list string :=
  List.filter (under d) (map fst (map_to_list m)).

(** C1 as the claim is worded: whenever every image of the page list
    can be fetched, the function returns the chapter directory, which
    then holds as many entries as the page list. *)
Definition C1_as_stated (E : env) (series_slug chapter_number output_dir : string)
    (w : world) : Prop :=
  forall image_urls total_pages w1 pages,
    find_pages E series_slug chapter_number output_dir w
    = (Ok (Some (image_urls, total_pages)), w1) ->
    py_iter image_urls = Ok pages ->
    (forall u, In u pages -> fetch_ok E u) ->
    let dir := chapter_dir_of series_slug chapter_number output_dir in
    let run := download_chapter E series_slug chapter_number output_dir w in
    run.1 = Ok (Some dir) /\
    length (entries_under (fs run.2) dir) = length pages.

(** A chapter that was downloaded before, when its first page was served
    as a png image. *)
Definition stale_world : world :=
  {| fs := {["out" := Dir;
             "out/one-piece_Chapter_5" := Dir;
             "out/one-piece_Chapter_5/page_001.png" := File png_bytes]};
     trace := [] |}.

(** The output directory exists and is empty. *)
Definition out_world : world :=
  {| fs := {["out" := Dir]}; trace := [] |}.

(** The standard output cannot encode the name of a directory: it
    refuses the line that announces the chapter directory. *)
Definition narrow_stdout_env : env :=
  {| http_get := http_get all_images_env;
     fs_fault := fun _ _ => false;
     fs_progress := fun _ _ => None;
     stdout_fault := fun _ m =>
       match m with
       | OutputDirectory _ => Some CannotEncode
       | _ => None
       end |}.

(** C4 as the claim is worded: whenever key '1' is present in the group
    mapping, the page list is requested from its value. *)
Definition C4_as_stated (E : env) (chapter_data : json) (w : world) : Prop :=
  forall groups u,
    getitem chapter_data "groups" = Ok (JDict groups) ->
    assoc "1" groups = Some u ->
    forall u' t,
      In (EGet u' t) (trace (pages_of_chapter E chapter_data w).2) ->
      u' = details_url u.

(** The page-list endpoint answers every request for [group_url] with the
    document [d], without an error status. *)
Definition serves (E : env) (group_url d : json) : Prop :=
  forall t, exists r,
    http_get E t (details_url group_url) None = Ok r /\
    is_error_status r = false /\
    json_body r = Ok d.

(** The document [d] holds the page list [l], as the list itself or
    under the key "pages". *)
Definition holds_pages (d : json) (l : list json) : Prop :=
  d = JList l \/ exists kv, d = JDict kv /\ assoc "pages" kv = Some (JList l).

(** The events of fetching the page list [l] from [group_url]. *)
Definition page_list_fetched (group_url : json) (l : list json) : list event :=
  [EPrint Stdout (FetchingDetails (details_url group_url));
   EGet (details_url group_url) None;
   EPrint Stdout FetchedDetails;
   EPrint Stdout (FoundPages (length l))].

(** Every request among [evs] is for the page list of [group_url], and
    without a timeout. *)
Definition requests_only (group_url : json) (evs : list event) : Prop :=
  forall u t, In (EGet u t) evs -> u = details_url group_url /\ t = None.


(** The output directory cannot be made: the call is refused after the
    first directory on the way was made. *)
Definition half_made_env : env :=
  {| http_get := http_get all_images_env;
     fs_fault := fun _ op =>
       match op with Makedirs _ => true | _ => false end;
     fs_progress := fun _ _ => Some 1;
     stdout_fault := fun _ _ => None |}.

(** The path of the chapter directory is taken by a file. *)
Definition taken_world : world :=
  {| fs := {["out" := Dir; "out/one-piece_Chapter_5" := File []]};
     trace := [] |}.


(** The request for the second image raises an exception that is no
    request exception. *)
Definition broken_fetch_env : env :=
  demo_env (demo_series "1") two_pages
           (fun v => match v with
                     | JStr "https://img/2" => Raise OtherError
                     | _ => Ok (image_response (Some "image/webp"))
                     end)
           (fun _ => false).


(** ** The rules of the monad *)

Section Rules.

Context {A B : Type}.

Lemma wp_ret (a : A) Q w : Q (Ok a) w -> wp (ret a) Q w.
Proof. done. Qed.

Lemma wp_raise (e : exn) (Q : result A -> world -> Prop) w :
  Q (Raise e) w -> wp (raise e) Q w.
Proof. done. Qed.

Lemma wp_lift (r : result A) Q w : Q r w -> wp (lift r) Q w.
Proof. by destruct r. Qed.

Lemma wp_bind (m : M A) (k : A -> M B) Q w :
  wp m (fun r w1 =>
          match r with
          | Ok a => wp (k a) Q w1
          | Raise e => Q (Raise e) w1
          end) w ->
  wp (bind m k) Q w.
Proof. unfold wp, bind. by destruct (m w) as [[a|e] w1]. Qed.

Lemma wp_try (m : M A) (h : exn -> option (M A)) Q w :
  wp m (fun r w1 =>
          match r with
          | Ok a => Q (Ok a) w1
          | Raise e =>
              match h e with
              | Some k => wp k Q w1
              | None => Q (Raise e) w1
              end
          end) w ->
  wp (try_except m h) Q w.
Proof.
  unfold wp, try_except. destruct (m w) as [[a|e] w1]; simpl; [done|].
  by destruct (h e).
Qed.

Lemma wp_mono (m : M A) (Q Q' : result A -> world -> Prop) w :
  (forall r w', Q r w' -> Q' r w') -> wp m Q w -> wp m Q' w.
Proof. unfold wp. auto. Qed.

End Rules.

Lemma wp_of_run {A} (m : M A) (Q : result A -> world -> Prop) w :
  (forall r w', m w = (r, w') -> Q r w') -> wp m Q w.
Proof. intros H. unfold wp. apply H. by destruct (m w). Qed.

Lemma wp_emit ev Q w : Q (Ok tt) (record ev w) -> wp (emit ev) Q w.
Proof. done. Qed.

Lemma print_stderr E m w :
  print E Stderr m w = (Ok tt, record (EPrint Stderr m) w).
Proof. done. Qed.

Lemma print_accepted E m w :
  stdout_fault E (length (trace w)) m = None ->
  print E Stdout m w = (Ok tt, record (EPrint Stdout m) w).
Proof. unfold print. by intros ->. Qed.

Lemma print_total E s m w :
  stdout_ok E -> print E s m w = (Ok tt, record (EPrint s m) w).
Proof. intros H. destruct s; [|done]. apply print_accepted, H. Qed.

Lemma print_exn_error f : print_error (print_exn f).
Proof. destruct f; [by left|by right]. Qed.

Lemma print_error_class e :
  print_error e -> isinstance e ClsRequestException = false.
Proof. by intros [-> | ->]. Qed.

(** A [print] writes its line, or is refused and changes nothing. *)
Lemma print_cases E s m w res w' :
  print E s m w = (res, w') ->
  (res = Ok tt /\ w' = record (EPrint s m) w /\
   (s = Stdout -> stdout_fault E (length (trace w)) m = None)) \/
  (exists f, s = Stdout /\ stdout_fault E (length (trace w)) m = Some f /\
             res = Raise (print_exn f) /\ w' = w).
Proof.
  unfold print. destruct s.
  - destruct (stdout_fault E _ _) as [f|] eqn:Hf; intros [= <- <-];
      [right; by exists f|by left].
  - intros [= <- <-]. by left.
Qed.

Lemma wp_print E s m Q w :
  Q (Ok tt) (record (EPrint s m) w) ->
  (forall e, s = Stdout -> print_error e -> Q (Raise e) w) ->
  wp (print E s m) Q w.
Proof.
  intros Hok Hrefused. unfold wp.
  destruct (print E s m w) as [res w'] eqn:Hp.
  apply print_cases in Hp as [(-> & -> & _)|(f & -> & _ & -> & ->)]; [done|].
  apply Hrefused; [done|apply print_exn_error].
Qed.

Lemma wp_requests_get E u t Q w :
  Q (http_get E (length (trace w)) u t) (record (EGet u t) w) ->
  wp (requests_get E u t) Q w.
Proof. done. Qed.

Lemma wp_raise_for_status r Q w :
  (if is_error_status r then Q (Raise RequestError) w else Q (Ok tt) w) ->
  wp (raise_for_status r) Q w.
Proof. unfold raise_for_status. by destruct (is_error_status r). Qed.

Lemma wp_fs_call E op run partial Q w :
  (forall w', trace w' = trace w ++ [EFs op] ->
     (fs w' = fs w -> Q (Raise OSError) w') /\
     (forall k m', run (fs w) = Some m' -> fs w' = partial k (fs w) ->
        Q (Raise OSError) w') /\
     (forall m', fs_fault E (length (trace w)) op = false ->
        run (fs w) = Some m' -> fs w' = m' -> Q (Ok tt) w')) ->
  wp (fs_call E op run partial) Q w.
Proof.
  intros H. unfold wp, fs_call.
  destruct (run (fs w)) as [m'|] eqn:Hr; simpl; [|by apply H].
  destruct (fs_fault E (length (trace w)) op) eqn:Hf; simpl.
  - destruct (fs_progress E _ _) as [k|]; [by eapply H|by apply H].
  - by eapply H.
Qed.

(** ** The extension of a saved page (lines 79 to 91) *)

Lemma save_page_ok E dir page proxy_url acc w files w' :
  save_page E dir page proxy_url acc w = (Ok files, w') ->
  exists r,
    http_get E (length (trace w)) (Val proxy_url) (Some 30%Z) = Ok r /\
    is_error_status r = false /\
    let file_path :=
      path_join dir (page_file_name page
                       (infer_extension (content_type_header r))) in
    files = acc ++ [file_path] /\
    fs w' = <[file_path := File (content r)]> (fs w) /\
    trace w' = trace w ++ [EGet (Val proxy_url) (Some 30%Z);
                           EFs (OpenWrite file_path);
                           EPrint Stdout (SavedPage page file_path)].
Proof.
  unfold save_page, bind, requests_get, raise_for_status, open_write, fs_call,
    print, ret, raise; simpl.
  destruct (http_get E _ _ _) as [r|e] eqn:Hget; [|done].
  destruct (is_error_status r) eqn:Hst; [done|]. simpl.
  destruct (fs w !! _) as [[|c]|] eqn:Hl; [done| |];
    (destruct (fs_fault E _ _); [done|]); simpl;
    (destruct (stdout_fault E _ _); [done|]);
    intros [= <- <-]; exists r; simpl; rewrite <- !app_assoc; done.
Qed.

Lemma contains_nonempty a needle ct :
  contains (String a needle) ct = true -> String.eqb ct "" = false.
Proof. by destruct ct. Qed.

(** C5.  A page that is saved is saved under the extension
    [infer_extension] gives for the content-type header of its response,
    and that extension is: jpg when the header contains jpeg or jpg;
    otherwise png when it contains png; otherwise webp when it contains
    webp; otherwise gif when it contains gif; and the default png when
    the header is missing, empty or contains none of these. *)
Theorem C5_extension_from_content_type :
  (forall E dir page proxy_url acc w files w',
      save_page E dir page proxy_url acc w = (Ok files, w') ->
      exists r,
        http_get E (length (trace w)) (Val proxy_url) (Some 30%Z) = Ok r /\
        files =
          acc ++ [path_join dir
                    ("page_" +:+ format_03d page +:+ "." +:+
                     infer_extension (content_type_header r))] /\
        fs w' !! path_join dir
                   ("page_" +:+ format_03d page +:+ "." +:+
                    infer_extension (content_type_header r))
        = Some (File (content r))) /\
  (forall ct, contains "jpeg" ct = true \/ contains "jpg" ct = true ->
              infer_extension (Some ct) = "jpg") /\
  (forall ct, contains "jpeg" ct = false -> contains "jpg" ct = false ->
              contains "png" ct = true ->
              infer_extension (Some ct) = "png") /\
  (forall ct, contains "jpeg" ct = false -> contains "jpg" ct = false ->
              contains "png" ct = false -> contains "webp" ct = true ->
              infer_extension (Some ct) = "webp") /\
  (forall ct, contains "jpeg" ct = false -> contains "jpg" ct = false ->
              contains "png" ct = false -> contains "webp" ct = false ->
              contains "gif" ct = true ->
              infer_extension (Some ct) = "gif") /\
  (forall ct, contains "jpeg" ct = false -> contains "jpg" ct = false ->
              contains "png" ct = false -> contains "webp" ct = false ->
              contains "gif" ct = false ->
              infer_extension (Some ct) = "png") /\
  infer_extension None = "png".
Proof.
  split; [|repeat split].
  - intros E dir page proxy_url acc w files w' Hrun.
    destruct (save_page_ok _ _ _ _ _ _ _ _ Hrun)
      as (r & Hget & _ & Hfiles & Hfs & _).
    exists r. split; [done|]. split; [done|].
    rewrite Hfs. apply lookup_insert_eq.
  - intros ct [H|H]; unfold infer_extension;
      rewrite (contains_nonempty _ _ _ H); simpl; rewrite H;
      [done|by rewrite orb_true_r].
  - intros ct H1 H2 H3. unfold infer_extension.
    rewrite (contains_nonempty _ _ _ H3); simpl.
    by rewrite H1, H2, H3.
  - intros ct H1 H2 H3 H4. unfold infer_extension.
    rewrite (contains_nonempty _ _ _ H4); simpl.
    by rewrite H1, H2, H3, H4.
  - intros ct H1 H2 H3 H4 H5. unfold infer_extension.
    rewrite (contains_nonempty _ _ _ H5); simpl.
    by rewrite H1, H2, H3, H4, H5.
  - intros ct H1 H2 H3 H4 H5. unfold infer_extension.
    rewrite H1, H2, H3, H4, H5. simpl. by destruct (negb _).
Qed.

(** ** The outer handler (lines 116 to 124) *)

(** What the outer [except] clauses print for [e]. *)
Lemma outer_handler_catches E e :
  exists m,
    In m [NetworkError e; DataStructureError e; UnexpectedError e] /\
    outer_handler E e = Some (bind (print E Stderr m) (fun _ => ret None)).
Proof.
  destruct e; simpl; eexists; (split; [|reflexivity]); simpl; tauto.
Qed.

Lemma download_chapter_returns E series_slug chapter_number output_dir w :
  exists v w',
    download_chapter E series_slug chapter_number output_dir w = (Ok v, w').
Proof.
  unfold download_chapter, try_except.
  destruct (download_chapter_body E series_slug chapter_number output_dir w)
    as [[v|e] w1]; [by eauto|].
  destruct (outer_handler_catches E e) as (m & _ & ->). by eexists _, _.
Qed.

(** C8.  Whatever the network and the filesystem do, [download_chapter]
    returns: no exception reaches its caller.  When the body of its [try]
    raises [e], the function prints one report of [e] to the error stream
    and returns [None]. *)
Theorem C8_no_exception_escapes E series_slug chapter_number output_dir w :
  exists v w',
    download_chapter E series_slug chapter_number output_dir w = (Ok v, w') /\
    forall e w1,
      download_chapter_body E series_slug chapter_number output_dir w
      = (Raise e, w1) ->
      v = None /\ fs w' = fs w1 /\
      exists m,
        In m [NetworkError e; DataStructureError e; UnexpectedError e] /\
        trace w' = trace w1 ++ [EPrint Stderr m].
Proof.
  unfold download_chapter, try_except.
  destruct (download_chapter_body E series_slug chapter_number output_dir w)
    as [[v|e] w1] eqn:Hbody.
  - exists v, w1. split; [done|]. intros e w2 [=].
  - destruct (outer_handler_catches E e) as (m & Hm & ->).
    exists None, (record (EPrint Stderr m) w1). split; [done|].
    intros e' w2 [= <- <-]. split; [done|]. split; [done|].
    by exists m.
Qed.

(** ** Stepping through the script *)

Lemma trace_record ev w : trace (record ev w) = trace w ++ [ev].
Proof. done. Qed.

Lemma fs_record ev w : fs (record ev w) = fs w.
Proof. done. Qed.

Ltac wp_step :=
  lazymatch goal with
  | |- wp (bind _ _) _ _ => apply wp_bind
  | |- wp (ret _) _ _ => apply wp_ret
  | |- wp (raise _) _ _ => apply wp_raise
  | |- wp (lift _) _ _ => apply wp_lift
  | |- wp (response_json _) _ _ => apply wp_lift
  | |- wp (print _ _ _) _ _ => apply wp_print; [|intros ? _ ?]
  | |- wp (requests_get _ _ _) _ _ => apply wp_requests_get
  | |- wp (raise_for_status _) _ _ => apply wp_raise_for_status
  | |- wp (try_except _ _) _ _ => apply wp_try
  | |- wp (if ?b then _ else _) _ _ => destruct b eqn:?
  | |- wp (match ?x with _ => _ end) _ _ => destruct x eqn:?
  | |- match ?r with Ok _ => _ | Raise _ => _ end => destruct r eqn:?
  | |- if ?b then _ else _ => destruct b eqn:?
  end; cbv beta iota.

Ltac wp_steps := repeat wp_step.

(** ** Strings and paths: lemmas *)

Lemma str_app_cons x a b : String x a +:+ b = String x (a +:+ b).
Proof. done. Qed.

Lemma str_app_nil b : "" +:+ b = b.
Proof. done. Qed.

Lemma str_length_app a b :
  String.length (a +:+ b) = String.length a + String.length b.
Proof.
  induction a as [|c a IH]; [done|]. rewrite str_app_cons. simpl. by rewrite IH.
Qed.

Lemma str_app_assoc a b c : (a +:+ b) +:+ c = a +:+ (b +:+ c).
Proof.
  induction a as [|x a IH]; [done|]. rewrite !str_app_cons. by rewrite IH.
Qed.

Lemma str_app_inv_head a b c : a +:+ b = a +:+ c -> b = c.
Proof.
  induction a as [|x a IH]; [done|]. rewrite !str_app_cons. intros [=]. auto.
Qed.

Lemma str_prefix_app a b : String.prefix a (a +:+ b) = true.
Proof.
  induction a as [|x a IH]; [by destruct b|]. rewrite str_app_cons. simpl.
  destruct (ascii_dec x x); [done|congruence].
Qed.

Lemma str_prefix_inv a q : String.prefix a q = true -> exists r, q = a +:+ r.
Proof.
  revert q. induction a as [|x a IH]; intros q H; [by exists q|].
  destruct q as [|y q]; simpl in H; [done|].
  destruct (ascii_dec x y) as [->|]; [|done].
  destruct (IH q H) as [r ->]. by exists r.
Qed.

Lemma length_dir_prefix d : String.length d <= String.length (dir_prefix d).
Proof.
  unfold dir_prefix. destruct (_ || _); [done|]. rewrite str_length_app. lia.
Qed.

Lemma under_longer d q : under d q = true -> String.length d < String.length q.
Proof.
  unfold under. intros [_ H]%andb_true_iff. apply Nat.ltb_lt in H.
  pose proof (length_dir_prefix d). lia.
Qed.

Lemma ancestors_from_shorter acc s q :
  In q (ancestors_from acc s) ->
  String.length q < String.length acc + String.length s.
Proof.
  revert acc. induction s as [|c s IH]; intros acc; simpl; [done|].
  rewrite in_app_iff. intros [H|H].
  - destruct (_ && _); [|done]. destruct H as [<-|[]]. lia.
  - apply IH in H. rewrite str_length_app in H. simpl in H. lia.
Qed.

Lemma targets_not_longer p q :
  In q (ancestors p ++ [p]) -> String.length q <= String.length p.
Proof.
  rewrite in_app_iff. intros [H|[<-|[]]]; [|done].
  apply ancestors_from_shorter in H. simpl in H. lia.
Qed.

Lemma relative_join a b :
  startswith_slash b = false -> path_join a b = dir_prefix a +:+ b.
Proof. unfold path_join. by intros ->. Qed.

Lemma safe_char_not_slash a :
  isalnum a || Ascii.eqb a "_" || Ascii.eqb a "-" = true ->
  Ascii.eqb a slash = false.
Proof.
  destruct (Ascii.eqb_spec a slash) as [->|]; [|done]. by vm_compute.
Qed.

Lemma rstrip_head s a r : rstrip s = String a r -> exists s', s = String a s'.
Proof.
  destruct s as [|c s]; simpl; [done|].
  destruct (rstrip s); [destruct (isspace c)|]; intros [=]; subst; eauto.
Qed.

Lemma filter_chars_head p s a r :
  filter_chars p s = String a r -> p a = true.
Proof.
  induction s as [|c s IH]; simpl; [done|].
  destruct (p c) eqn:Hp; [|done]. by intros [= <- _].
Qed.

Lemma chapter_dir_name_relative series_slug chapter_number :
  startswith_slash (chapter_dir_name series_slug chapter_number) = false.
Proof.
  unfold chapter_dir_name, safe_slug_of.
  destruct (rstrip _) as [|a r] eqn:Hr; [done|]. rewrite str_app_cons. simpl.
  destruct (rstrip_head _ _ _ Hr) as [s' Hs].
  apply filter_chars_head in Hs. by apply safe_char_not_slash.
Qed.

Lemma chapter_dir_of_eq series_slug chapter_number output_dir :
  chapter_dir_of series_slug chapter_number output_dir
  = dir_prefix output_dir +:+ chapter_dir_name series_slug chapter_number.
Proof. apply relative_join, chapter_dir_name_relative. Qed.

Lemma chapter_dir_name_length series_slug chapter_number :
  0 < String.length (chapter_dir_name series_slug chapter_number).
Proof. unfold chapter_dir_name. rewrite !str_length_app. simpl. lia. Qed.

Lemma chapter_dir_longer series_slug chapter_number output_dir :
  String.length output_dir
  < String.length (chapter_dir_of series_slug chapter_number output_dir).
Proof.
  rewrite chapter_dir_of_eq, str_length_app.
  pose proof (length_dir_prefix output_dir).
  pose proof (chapter_dir_name_length series_slug chapter_number). lia.
Qed.

Lemma chapter_dir_nonempty series_slug chapter_number output_dir :
  String.eqb (chapter_dir_of series_slug chapter_number output_dir) "" = false.
Proof.
  pose proof (chapter_dir_longer series_slug chapter_number output_dir) as H.
  destruct (String.eqb_spec (chapter_dir_of series_slug chapter_number output_dir) "")
    as [Heq|]; [|done].
  rewrite Heq in H. simpl in H. lia.
Qed.

Lemma page_path_eq dir page ext :
  path_join dir (page_file_name page ext)
  = dir_prefix dir +:+ page_file_name page ext.
Proof. by apply relative_join. Qed.

Lemma page_path_under dir page ext :
  under dir (path_join dir (page_file_name page ext)) = true.
Proof.
  rewrite page_path_eq. unfold under.
  rewrite str_prefix_app, str_length_app. simpl. apply Nat.ltb_lt. lia.
Qed.

(** ** The filesystem: lemmas *)

Lemma lookup_foldr_dirs (l : list string) (m : gmap string node) q :
  foldr (fun q acc => <[q := Dir]> acc) m l !! q
  = if decide (q ∈ l) then Some Dir else m !! q.
Proof.
  induction l as [|p l IH]; simpl; [done|].
  destruct (decide (p = q)) as [->|Hne].
  - rewrite lookup_insert_eq. by rewrite decide_True by (by left).
  - rewrite lookup_insert_ne by done. rewrite IH.
    destruct (decide (q ∈ l)) as [Hin|Hin], (decide (q ∈ p :: l)) as [Hc|Hc];
      try done.
    + destruct Hc. by right.
    + apply elem_of_cons in Hc as [->|]; done.
Qed.

Lemma made_dirs_longer p (m : gmap string node) q :
  String.length p < String.length q -> made_dirs p m !! q = m !! q.
Proof.
  intros Hlen. unfold made_dirs. rewrite lookup_foldr_dirs.
  destruct (decide _) as [Hin|]; [|done].
  apply list_elem_of_In, targets_not_longer in Hin. lia.
Qed.

Lemma made_dirs_self p (m : gmap string node) : made_dirs p m !! p = Some Dir.
Proof.
  unfold made_dirs. rewrite lookup_foldr_dirs.
  destruct (decide _) as [|Hn]; [done|]. destruct Hn.
  apply elem_of_app. right. by left.
Qed.

Lemma made_dirs_is_file p (m : gmap string node) q :
  is_file (made_dirs p m) q = true -> is_file m q = true.
Proof.
  unfold is_file, made_dirs. rewrite lookup_foldr_dirs.
  by destruct (decide _).
Qed.

Lemma made_dirs_keeps_files p (m : gmap string node) q :
  existsb (is_file m) (ancestors p ++ [p]) = false ->
  is_file (made_dirs p m) q = is_file m q.
Proof.
  intros Hno. unfold is_file at 1, made_dirs. rewrite lookup_foldr_dirs.
  destruct (decide _) as [Hin|]; [|done].
  destruct (is_file m q) eqn:Hq; [|done].
  assert (existsb (is_file m) (ancestors p ++ [p]) = true) as Hex.
  { apply existsb_exists. exists q. split; [by apply list_elem_of_In|done]. }
  congruence.
Qed.

Lemma no_entry_under (m : gmap string node) d :
  (forall q, under d q = true -> m !! q = None) -> has_entry_under m d = false.
Proof.
  intros H. unfold has_entry_under.
  destruct (existsb _ _) eqn:Hex; [|done].
  apply existsb_exists in Hex as ([q x] & Hin & Hu). simpl in Hu.
  apply list_elem_of_In, elem_of_map_to_list in Hin.
  rewrite (H q Hu) in Hin. done.
Qed.

(** ** One page (lines 73 to 100) *)

Lemma page_step_cases E dir page proxy_url acc w res w' :
  page_step E dir page proxy_url acc w = (res, w') ->
  page_saved E dir page proxy_url acc w res w' \/
  page_skipped E page proxy_url acc w res w' \/
  page_aborted E dir page proxy_url w res w'.
Proof.
  unfold page_step, try_except, save_page, bind, requests_get,
    raise_for_status, open_write, fs_call, ret, raise, page_handler; simpl.
  fold (page_path dir page).
  destruct (http_get E _ _ _) as [r|e] eqn:Hget.
  - destruct (is_error_status r) eqn:Hst; simpl.
    { intros [= <- <-]. right; left. repeat split; simpl.
      - right. eauto.
      - eexists. split; cycle 1; [by rewrite <- app_assoc|].
        exists RequestError; by right. }
    change (path_join dir
              (page_file_name page (infer_extension (content_type_header r))))
      with (page_path dir page r).
    assert (Hopen : fs w !! page_path dir page r = Some Dir \/
                    fs w !! page_path dir page r <> Some Dir).
    { destruct (fs w !! page_path dir page r) as [[|c]|]; auto. }
    destruct Hopen as [Hd|Hnd].
    { rewrite Hd. simpl. intros [= <- <-]. right; right. exists OSError.
      split; [done|]. split; [done|]. right. exists r.
      split_and!; [done|done|simpl; by rewrite <- app_assoc|]. left. done. }
    assert (Hrun : match fs w !! page_path dir page r with
                   | Some Dir => None
                   | _ => Some (<[page_path dir page r := File (content r)]> (fs w))
                   end
                   = Some (<[page_path dir page r := File (content r)]> (fs w))).
    { destruct (fs w !! page_path dir page r) as [[|c]|]; done. }
    rewrite Hrun. clear Hrun. simpl.
    destruct (fs_fault E _ _) eqn:Hf; simpl.
    { intros [= <- <-]. right; right. exists OSError.
      split; [done|]. split; [done|]. right. exists r.
      split_and!; [done|done|simpl; by rewrite <- app_assoc|].
      right; left. split; [done|]. split; [eauto|]. simpl.
      destruct (fs_progress E _ _) as [k|]; [right; by exists k|by left]. }
    unfold print. simpl.
    destruct (stdout_fault E _ _) as [f|] eqn:Hp; simpl.
    + destruct f; simpl; intros [= <- <-]; right; right; eexists;
        (split; [done|]); (split; [done|]); right; exists r;
        (split_and!; [done|done|simpl; by rewrite <- app_assoc|]);
        right; right; (split; [done|]); (split; [done|]);
        eexists _, _; (split; [exact Hp|done]).
    + intros [= <- <-]. left. exists r.
      split_and!; simpl; try done. by rewrite <- !app_assoc.
  - destruct e; simpl; intros [= <- <-];
      first
        [ right; left; repeat split; simpl;
          [ left; eexists; split; [done|done]
          | eexists; split; cycle 1;
            [ by rewrite <- app_assoc
            | first [ exists Timeout; by left
                    | exists RequestError; by right ] ] ]
        | right; right; eexists; split; [done|]; split; [done|];
          left; split_and!; done ].
Qed.

(** ** The loop (lines 72 to 100) *)

Lemma saved_pages_app evs1 evs2 :
  saved_pages (evs1 ++ evs2) = saved_pages evs1 ++ saved_pages evs2.
Proof.
  induction evs1 as [|ev evs1 IH]; [done|].
  destruct ev as [[] []| |]; simpl; by rewrite ?IH.
Qed.

Lemma loop_facts_quiet dir page n acc w res w1 evs1 :
  trace w1 = trace w ++ evs1 ->
  saved_pages evs1 = [] ->
  fs w1 = fs w ->
  (forall files, res = Ok files -> files = acc) ->
  loop_facts dir page n acc w res w1 evs1.
Proof.
  intros Htr Hsaved Hfs Hres. unfold loop_facts. rewrite Hsaved, Hfs. simpl.
  split_and!; try done.
  - intros files Hf. rewrite app_nil_r. auto.
  - constructor.
Qed.

(** The loop is left while the file of page [page] is written. *)
Lemma loop_facts_abort dir page n acc w e w1 evs1 ext c :
  trace w1 = trace w ++ evs1 ->
  saved_pages evs1 = [] ->
  fs w !! path_join dir (page_file_name page ext) <> Some Dir ->
  fs w1 = <[path_join dir (page_file_name page ext) := File c]> (fs w) ->
  loop_facts dir page n acc w (Raise e) w1 evs1.
Proof.
  intros Htr Hsaved Hnd Hfs. unfold loop_facts. rewrite Hsaved, Hfs. simpl.
  split_and!; try done.
  - constructor.
  - intros q Hq. apply lookup_insert_ne. intros <-. by eapply Hq.
  - intros q Hq. unfold is_file in *.
    destruct (decide (path_join dir (page_file_name page ext) = q)) as [->|];
      [by rewrite lookup_insert_eq|by rewrite lookup_insert_ne].
  - intros q. destruct (decide (path_join dir (page_file_name page ext) = q))
      as [<-|]; [|by rewrite lookup_insert_ne].
    rewrite lookup_insert_eq. split; [done|]. intros Hq. by destruct Hnd.
Qed.

Lemma loop_facts_skip dir page n acc w w1 evs1 res w' evs2 :
  trace w1 = trace w ++ evs1 ->
  saved_pages evs1 = [] ->
  fs w1 = fs w ->
  loop_facts dir (S page) n acc w1 res w' evs2 ->
  loop_facts dir page (S n) acc w res w' (evs1 ++ evs2).
Proof.
  intros Htr Hsaved Hfs (H1 & H2 & H3 & H4 & H5 & H6 & H6b & H7 & H8).
  unfold loop_facts. rewrite saved_pages_app, Hsaved. simpl.
  rewrite Hfs in *.
  split_and!; try done.
  - by rewrite H1, Htr, app_assoc.
  - eapply Forall_impl; [exact H3|]. intros [i q] [Hi Hext]. simpl in *.
    split; [lia|done].
  - intros q Hq. apply H6. intros i ext Hi. apply Hq. lia.
Qed.

Lemma loop_facts_save dir page n acc w w1 evs1 res w' evs2 path ext c :
  trace w1 = trace w ++ evs1 ->
  saved_pages evs1 = [(page, path)] ->
  path = path_join dir (page_file_name page ext) ->
  fs w !! path <> Some Dir ->
  fs w1 = <[path := File c]> (fs w) ->
  loop_facts dir (S page) n (acc ++ [path]) w1 res w' evs2 ->
  loop_facts dir page (S n) acc w res w' (evs1 ++ evs2).
Proof.
  intros Htr Hsaved Hpath Hnd Hfs (H1 & H2 & H3 & H4 & H5 & H6 & H6b & H7 & H8).
  unfold loop_facts. rewrite saved_pages_app, Hsaved. simpl.
  assert (Hfile : is_file (fs w1) path = true).
  { unfold is_file. by rewrite Hfs, lookup_insert_eq. }
  split_and!.
  - by rewrite H1, Htr, app_assoc.
  - intros files Hf. rewrite (H2 files Hf), <- app_assoc. done.
  - constructor.
    + simpl. split; [lia|]. by exists ext.
    + eapply Forall_impl; [exact H3|]. intros [i q] [Hi Hext]. simpl in *.
      split; [lia|done].
  - constructor; [|done].
    intros Hin%list_elem_of_In%in_map_iff. destruct Hin as ([i q] & Hi & Hin).
    simpl in Hi. subst i.
    rewrite Forall_forall in H3. apply list_elem_of_In, H3 in Hin.
    simpl in Hin. lia.
  - intros q [<-|Hin]; [by apply H7|by apply H5].
  - intros q Hq. rewrite H6 by (intros i ext' Hi; apply Hq; lia).
    rewrite Hfs. apply lookup_insert_ne. intros <-. subst path.
    by eapply (Hq page).
  - intros files Hf q Hq. rewrite (H6b files Hf) by tauto. rewrite Hfs.
    apply lookup_insert_ne. tauto.
  - intros q Hq. apply H7. unfold is_file in *. rewrite Hfs.
    destruct (decide (path = q)) as [->|]; [by rewrite lookup_insert_eq|].
    by rewrite lookup_insert_ne.
  - intros q. rewrite H8, Hfs.
    destruct (decide (path = q)) as [<-|]; [|by rewrite lookup_insert_ne].
    rewrite lookup_insert_eq. split; [done|]. intros Hq. by destruct Hnd.
Qed.

(** One turn of the loop: the announcement of the page is refused, or
    the page is tried and the loop goes on unless an exception leaves
    it. *)
Lemma download_pages_step E dir total page proxy_url rest acc w res w' :
  download_pages E dir total page (proxy_url :: rest) acc w = (res, w') ->
  (exists f,
      stdout_fault E (length (trace w)) (DownloadingPage page total proxy_url)
      = Some f /\
      res = Raise (print_exn f) /\ w' = w) \/
  (stdout_fault E (length (trace w)) (DownloadingPage page total proxy_url)
   = None /\
   exists r1 w1,
     page_step E dir page proxy_url acc
       (record (EPrint Stdout (DownloadingPage page total proxy_url)) w)
     = (r1, w1) /\
     match r1 with
     | Ok files => download_pages E dir total (S page) rest files w1 = (res, w')
     | Raise e => res = Raise e /\ w' = w1
     end).
Proof.
  simpl. unfold bind at 1.
  destruct (print E Stdout (DownloadingPage page total proxy_url) w)
    as [r0 w0] eqn:Hp.
  apply print_cases in Hp as [(-> & -> & Hf)|(f & _ & Hf & -> & ->)].
  - intros Hrun. right. split; [by apply Hf|].
    unfold bind in Hrun. fold (page_step E dir page proxy_url acc) in Hrun.
    destruct (page_step E dir page proxy_url acc _) as [[files|e] w1] eqn:Hstep.
    + by exists (Ok files), w1.
    + injection Hrun as <- <-. by exists (Raise e), w1.
  - intros [= <- <-]. left. by exists f.
Qed.

(** What leaving the loop in the middle of a page does, in short. *)
Lemma page_aborted_summary E dir page proxy_url w res w' :
  page_aborted E dir page proxy_url w res w' ->
  exists e evs,
    res = Raise e /\ isinstance e ClsRequestException = false /\
    trace w' = trace w ++ evs /\
    (evs = [EGet (Val proxy_url) (Some 30%Z)] \/
     exists r,
       http_get E (length (trace w)) (Val proxy_url) (Some 30%Z) = Ok r /\
       is_error_status r = false /\
       evs = [EGet (Val proxy_url) (Some 30%Z);
              EFs (OpenWrite (page_path dir page r))]) /\
    (fs w' = fs w \/
     exists ext c,
       fs w !! path_join dir (page_file_name page ext) <> Some Dir /\
       fs w' = <[path_join dir (page_file_name page ext) := File c]> (fs w)).
Proof.
  intros (e & -> & He & [(Hget & Hfs & Htr)|(r & Hget & Hst & Htr & Hfs)]).
  - exists e, [EGet (Val proxy_url) (Some 30%Z)]. split_and!; auto.
  - exists e, [EGet (Val proxy_url) (Some 30%Z);
               EFs (OpenWrite (page_path dir page r))].
    split_and!; [done|done|done|right; by exists r|].
    destruct Hfs as [[_ Hfs]|[(Hnd & _ & [Hfs|[k Hfs]])|(Hnd & Hfs & _)]];
      [by left|by left| |]; right; eexists _, _; split; try exact Hnd;
      exact Hfs.
Qed.

Lemma download_pages_facts E dir total image_urls :
  forall page acc w res w',
    download_pages E dir total page image_urls acc w = (res, w') ->
    exists evs, loop_facts dir page (length image_urls) acc w res w' evs.
Proof.
  induction image_urls as [|proxy_url rest IH]; intros page acc w res w' Hrun.
  - inversion Hrun; subst. exists []. apply loop_facts_quiet; simpl; try done.
    + by rewrite app_nil_r.
    + by intros files [= <-].
  - apply download_pages_step in Hrun
      as [(f & _ & -> & ->)|(_ & r1 & w1 & Hstep & Hrun)].
    { exists []. apply loop_facts_quiet; try done. by rewrite app_nil_r. }
    set (w0 := record _ w) in Hstep.
    apply page_step_cases in Hstep
      as [(r & _ & _ & Hnd & -> & Hfs & Htr)
         |[(-> & Hfs & _ & m & _ & Htr)
          |Habort]].
    + apply IH in Hrun as [evs2 Hrest].
      eexists. eapply loop_facts_save; [| | | |exact Hfs|exact Hrest].
      * rewrite Htr. unfold w0. simpl. rewrite <- app_assoc. done.
      * done.
      * done.
      * exact Hnd.
    + apply IH in Hrun as [evs2 Hrest].
      eexists. eapply loop_facts_skip; [| |exact Hfs|exact Hrest].
      * rewrite Htr. unfold w0. simpl. rewrite <- app_assoc. done.
      * done.
    + apply page_aborted_summary in Habort
        as (e & evs & -> & _ & Htr & Hevs & Hfs).
      destruct Hrun as [-> ->].
      exists (EPrint Stdout (DownloadingPage page total proxy_url) :: evs).
      assert (Hs : saved_pages
                (EPrint Stdout (DownloadingPage page total proxy_url) :: evs)
              = []).
      { by destruct Hevs as [->|(r & _ & _ & ->)]. }
      assert (Htr' : trace w1
                = trace w ++
                  EPrint Stdout (DownloadingPage page total proxy_url) :: evs).
      { rewrite Htr. unfold w0. simpl. by rewrite <- app_assoc. }
      destruct Hfs as [Hfs|(ext & c & Hnd & Hfs)].
      * by apply loop_facts_quiet.
      * by eapply loop_facts_abort.
Qed.

(** ** The loop under hypotheses on the collaborators *)

Lemma fetch_ok_not_fails E u : fetch_ok E u -> fetch_fails E u -> False.
Proof.
  intros Hok Hf. destruct (Hok 0) as (r & Hr & Hst).
  destruct (Hf 0) as [(e & He & _)|(r' & Hr' & Hst')]; congruence.
Qed.

(** With a filesystem and a standard output that refuse nothing, a page
    is left in the middle only when its request raises something that is
    no request exception, or when a directory is where its file goes. *)
Lemma page_aborted_clean E dir page proxy_url w res w' :
  no_fs_fault E -> stdout_ok E ->
  page_aborted E dir page proxy_url w res w' ->
  (exists e,
      http_get E (length (trace w)) (Val proxy_url) (Some 30%Z) = Raise e /\
      isinstance e ClsRequestException = false) \/
  (exists r,
      http_get E (length (trace w)) (Val proxy_url) (Some 30%Z) = Ok r /\
      is_error_status r = false /\
      fs w !! page_path dir page r = Some Dir).
Proof.
  intros Hnf Hso (e & -> & He & [(Hget & _)|(r & Hget & Hst & _ & Hfs)]).
  - left. eauto.
  - right. exists r. split; [done|]. split; [done|].
    destruct Hfs as [[Hd _]|[(_ & [t Ht] & _)|(_ & _ & t & f & Hf & _)]].
    + done.
    + by rewrite Hnf in Ht.
    + by rewrite Hso in Hf.
Qed.

Lemma download_pages_completes E dir total image_urls :
  no_fs_fault E -> stdout_ok E ->
  (forall u, In u image_urls -> fetch_ok E u \/ fetch_fails E u) ->
  forall page acc w res w' evs,
    (forall q, under dir q = true -> fs w !! q <> Some Dir) ->
    download_pages E dir total page image_urls acc w = (res, w') ->
    trace w' = trace w ++ evs ->
    (exists files, res = Ok files) /\
    forall (i : nat) u, image_urls !! i = Some u ->
      In (EGet (Val u) (Some 30%Z)) evs /\
      (fetch_ok E u -> In (page + i) (map fst (saved_pages evs))) /\
      (fetch_fails E u ->
         ~ In (page + i) (map fst (saved_pages evs)) /\
         exists m, is_skip_report (page + i) m /\ In (EPrint Stderr m) evs).
Proof.
  intros Hnf Hso. induction image_urls as [|proxy_url rest IH];
    intros Hfetch page acc w res w' evs Hinv Hrun Htr.
  - inversion Hrun; subst. split; [eauto|]. intros i u Hl. done.
  - apply download_pages_step in Hrun
      as [(f & Hf & _)|(_ & r1 & w1 & Hstep & Hrun)];
      [by rewrite Hso in Hf|].
    set (w0 := record _ w) in Hstep.
    assert (Hrest : forall u, In u rest -> fetch_ok E u \/ fetch_fails E u)
      by (intros u Hu; apply Hfetch; by right).
    specialize (IH Hrest).
    apply page_step_cases in Hstep
      as [(r & Hget & Hst & Hnd & -> & Hfs & Htr1)
         |[(-> & Hfs & Hcause & m & Hm & Htr1)
          |Habort]].
    + destruct (download_pages_facts _ _ _ _ _ _ _ _ _ Hrun)
        as (evs2 & Htr2 & _ & Hbound & _).
      assert (Hinv1 : forall q, under dir q = true -> fs w1 !! q <> Some Dir).
      { intros q Hq. rewrite Hfs.
        destruct (decide (page_path dir page r = q)) as [->|].
        - by rewrite lookup_insert_eq.
        - rewrite lookup_insert_ne by done. by apply Hinv. }
      destruct (IH (S page) _ _ _ _ evs2 Hinv1 Hrun Htr2) as [Hres Hidx].
      assert (evs = [EPrint Stdout (DownloadingPage page total proxy_url);
                     EGet (Val proxy_url) (Some 30%Z);
                     EFs (OpenWrite (page_path dir page r));
                     EPrint Stdout (SavedPage page (page_path dir page r))]
                    ++ evs2) as ->.
      { apply (app_inv_head (trace w)). rewrite <- Htr, Htr2, Htr1.
        unfold w0. simpl. by rewrite <- !app_assoc. }
      split; [done|]. intros [|i] u Hl; simpl in Hl.
      * injection Hl as <-. rewrite Nat.add_0_r.
        split; [simpl; tauto|]. split; [by left|].
        intros Hf. exfalso. destruct (Hf (length (trace w0)))
          as [(e & He & _)|(r' & Hr' & Hst')]; congruence.
      * destruct (Hidx i u Hl) as (Hget' & Hpos & Hneg).
        replace (page + S i) with (S page + i) by lia.
        split; [simpl; tauto|]. split; [by right; apply Hpos|].
        intros Hf. destruct (Hneg Hf) as [Hno (m & Hm & Hin)]. split.
        -- simpl. intros [Heq|Hin']; [lia|]. by apply Hno.
        -- exists m. split; [done|]. simpl. tauto.
    + destruct (download_pages_facts _ _ _ _ _ _ _ _ _ Hrun)
        as (evs2 & Htr2 & _ & Hbound & _).
      assert (Hinv1 : forall q, under dir q = true -> fs w1 !! q <> Some Dir)
        by (intros q Hq; rewrite Hfs; by apply Hinv).
      destruct (IH (S page) _ _ _ _ evs2 Hinv1 Hrun Htr2) as [Hres Hidx].
      assert (evs = [EPrint Stdout (DownloadingPage page total proxy_url);
                     EGet (Val proxy_url) (Some 30%Z);
                     EPrint Stderr m] ++ evs2) as ->.
      { apply (app_inv_head (trace w)). rewrite <- Htr, Htr2, Htr1.
        unfold w0. simpl. by rewrite <- !app_assoc. }
      assert (Hsaved : saved_pages
                ([EPrint Stdout (DownloadingPage page total proxy_url);
                  EGet (Val proxy_url) (Some 30%Z);
                  EPrint Stderr m] ++ evs2) = saved_pages evs2) by done.
      rewrite Hsaved.
      split; [done|]. intros [|i] u Hl; simpl in Hl.
      * injection Hl as <-. rewrite Nat.add_0_r.
        split; [simpl; tauto|]. split.
        -- intros Hok. exfalso. destruct (Hok (length (trace w0)))
             as (r & Hr & Hst).
           destruct Hcause as [(e & He & _)|(r' & Hr' & Hst')]; congruence.
        -- intros _. split.
           ++ intros Hin%in_map_iff. destruct Hin as ([j q] & Hj & Hin).
              simpl in Hj. subst j. rewrite Forall_forall in Hbound.
              apply list_elem_of_In, Hbound in Hin. simpl in Hin. lia.
           ++ exists m. split; [|simpl; tauto].
              destruct Hm as [e [->| ->]]; [by left|right; eauto].
      * destruct (Hidx i u Hl) as (Hget' & Hpos & Hneg).
        replace (page + S i) with (S page + i) by lia.
        split; [simpl; tauto|]. split; [done|].
        intros Hf. destruct (Hneg Hf) as [Hno (m' & Hm' & Hin)].
        split; [done|]. exists m'. split; [done|]. simpl. tauto.
    + exfalso.
      apply (page_aborted_clean _ _ _ _ _ _ _ Hnf Hso) in Habort
        as [(e & He & Hne)|(r & Hr & Hst & Hd)].
      * destruct (Hfetch proxy_url ltac:(by left)) as [Hok|Hf].
        -- destruct (Hok (length (trace w0))) as (r & Hr & _). congruence.
        -- destruct (Hf (length (trace w0))) as [(e' & He' & Hi)|(r & Hr & _)];
             congruence.
      * eapply Hinv; [|exact Hd]. apply page_path_under.
Qed.

(** When no image can be fetched and the announcements of the pages are
    accepted, the loop saves nothing, leaves the filesystem alone and
    ends normally. *)
Lemma download_pages_all_fail E dir total image_urls :
  stdout_ok E ->
  (forall u, In u image_urls -> fetch_fails E u) ->
  forall page acc w res w',
    download_pages E dir total page image_urls acc w = (res, w') ->
    res = Ok acc /\ fs w' = fs w /\
    exists evs, trace w' = trace w ++ evs /\ saved_pages evs = [] /\
                forallb (fun ev => negb (is_fs_event ev)) evs = true.
Proof.
  intros Hso.
  induction image_urls as [|proxy_url rest IH]; intros Hfetch page acc w res w' Hrun.
  - inversion Hrun; subst. repeat split. exists []. by rewrite app_nil_r.
  - apply download_pages_step in Hrun
      as [(f & Hf & _)|(_ & r1 & w1 & Hstep & Hrun)];
      [by rewrite Hso in Hf|].
    set (w0 := record _ w) in Hstep.
    pose proof (Hfetch proxy_url ltac:(by left) (length (trace w0))) as Hf.
    apply page_step_cases in Hstep
      as [(r & Hget & Hst & _)
         |[(-> & Hfs & _ & m & _ & Htr1)
          |(e & -> & Hne & Hcause)]].
    + exfalso. destruct Hf as [(e & He & _)|(r' & Hr' & Hst')]; congruence.
    + apply IH in Hrun as (-> & Hfs2 & evs2 & Htr2 & Hsaved & Hall);
        [|intros u Hu; apply Hfetch; by right].
      split; [done|]. split; [by rewrite Hfs2, Hfs|].
      exists ([EPrint Stdout (DownloadingPage page total proxy_url);
               EGet (Val proxy_url) (Some 30%Z); EPrint Stderr m] ++ evs2).
      split; [|split].
      * rewrite Htr2, Htr1. unfold w0. simpl. by rewrite <- !app_assoc.
      * done.
      * done.
    + exfalso. destruct Hf as [(e' & He' & Hi)|(r & Hr & Hst)];
        destruct Hcause as [[He _]|(r' & Hr' & Hst' & _)]; congruence.
Qed.

(** ** Page numbers and file names *)

Lemma parsed_no_dot s d :
  NilEmpty.uint_of_string s = Some d -> has_dot s = false.
Proof.
  revert d. induction s as [|c s IH]; intros d; simpl; [done|].
  destruct (NilEmpty.uint_of_string s) as [d'|]; simpl; [|done].
  intros H. rewrite (IH d' eq_refl), orb_false_r.
  destruct (Ascii.eqb_spec c "."%char) as [->|]; [|done]. done.
Qed.

Lemma parse_zeros k s :
  NilEmpty.uint_of_string (zeros k +:+ s)
  = option_map (Nat.iter k Decimal.D0) (NilEmpty.uint_of_string s).
Proof.
  unfold zeros. induction k as [|k IH]; simpl;
    rewrite ?str_app_cons, ?str_app_nil; simpl; [|rewrite IH];
    by destruct (NilEmpty.uint_of_string s).
Qed.

Lemma of_uint_zeros k d : Nat.of_uint (Nat.iter k Decimal.D0 d) = Nat.of_uint d.
Proof. induction k as [|k IH]; simpl; [done|]. exact IH. Qed.

(** Reading [f"{page:03d}"] back as a number gives [page]. *)
Lemma parse_format_03d page :
  NilEmpty.uint_of_string (format_03d page)
  = Some (Nat.iter (3 - String.length (NilEmpty.string_of_uint (Nat.to_uint page)))
                   Decimal.D0 (Nat.to_uint page)).
Proof. unfold format_03d. by rewrite parse_zeros, NilEmpty.usu. Qed.

Lemma format_03d_inj i j : format_03d i = format_03d j -> i = j.
Proof.
  intros H. pose proof (parse_format_03d i) as Hi.
  rewrite H, parse_format_03d in Hi. injection Hi as Hi.
  apply (f_equal Nat.of_uint) in Hi.
  by rewrite !of_uint_zeros, !Unsigned.of_to in Hi.
Qed.

Lemma format_03d_no_dot page : has_dot (format_03d page) = false.
Proof. eapply parsed_no_dot, parse_format_03d. Qed.

Lemma dot_split a b x y :
  has_dot a = false -> has_dot b = false ->
  a +:+ "." +:+ x = b +:+ "." +:+ y -> a = b.
Proof.
  revert b. induction a as [|c a IH]; intros [|c' b]; simpl;
    rewrite ?str_app_cons, ?str_app_nil; try done.
  - intros _ [Hc _]%orb_false_iff [= <- _]. done.
  - intros [Hc _]%orb_false_iff _ [= -> _]. done.
  - intros [_ Ha]%orb_false_iff [_ Hb]%orb_false_iff [= -> Heq].
    f_equal. by apply IH.
Qed.

Lemma page_file_name_inj i j ext ext' :
  page_file_name i ext = page_file_name j ext' -> i = j.
Proof.
  unfold page_file_name. intros H%str_app_inv_head.
  apply format_03d_inj. eapply dot_split; [..|exact H];
    apply format_03d_no_dot.
Qed.

Lemma page_path_inj dir i j ext ext' :
  path_join dir (page_file_name i ext) = path_join dir (page_file_name j ext') ->
  i = j.
Proof.
  rewrite !page_path_eq. intros H%str_app_inv_head.
  by apply page_file_name_inj in H.
Qed.

(** ** Creating and removing the chapter directory *)

Lemma world_eta w : w = {| fs := fs w; trace := trace w |}.
Proof. by destruct w. Qed.

Lemma made_dirs_kept p (m : gmap string node) q n :
  existsb (is_file m) (ancestors p ++ [p]) = false ->
  m !! q = Some n -> made_dirs p m !! q = Some n.
Proof.
  intros Hno Hq. unfold made_dirs. rewrite lookup_foldr_dirs.
  destruct (decide _) as [Hin|]; [|done].
  destruct n as [|c]; [done|].
  assert (existsb (is_file m) (ancestors p ++ [p]) = true) as Hex.
  { apply existsb_exists. exists q. split; [by apply list_elem_of_In|].
    unfold is_file. by rewrite Hq. }
  congruence.
Qed.

Lemma partly_made_lookup k p (m : gmap string node) q :
  partly_made k p m !! q
  = if decide (q ∈ take k (ancestors p)) then Some Dir else m !! q.
Proof. apply lookup_foldr_dirs. Qed.

Lemma partly_made_targets k p q :
  q ∈ take k (ancestors p) -> In q (ancestors p ++ [p]).
Proof.
  intros Hin%subseteq_take. apply in_app_iff. left. by apply list_elem_of_In.
Qed.

Lemma partly_made_shorter k p q :
  q ∈ take k (ancestors p) -> String.length q < String.length p.
Proof.
  intros Hin%subseteq_take%list_elem_of_In%ancestors_from_shorter.
  simpl in Hin. lia.
Qed.

(** What [os.makedirs(p)] changes lies on the way to [p]. *)
Lemma makedirs_effect_longer p (m m' : gmap string node) q :
  makedirs_effect p m m' ->
  String.length p < String.length q -> m' !! q = m !! q.
Proof.
  intros [(_ & _ & ->)|(k & _ & ->)] Hlen; [by apply made_dirs_longer|].
  rewrite partly_made_lookup. destruct (decide _) as [Hin|]; [|done].
  apply partly_made_shorter in Hin. lia.
Qed.

Lemma makedirs_effect_other p (m m' : gmap string node) q :
  makedirs_effect p m m' ->
  ~ In q (ancestors p ++ [p]) -> m' !! q = m !! q.
Proof.
  intros [(_ & _ & ->)|(k & _ & ->)] Hq.
  - unfold made_dirs. rewrite lookup_foldr_dirs.
    destruct (decide _) as [Hin|]; [|done]. by apply list_elem_of_In in Hin.
  - rewrite partly_made_lookup. destruct (decide _) as [Hin|]; [|done].
    by apply partly_made_targets in Hin.
Qed.

(** It removes nothing and replaces nothing. *)
Lemma makedirs_effect_kept p (m m' : gmap string node) q n :
  makedirs_effect p m m' -> m !! q = Some n -> m' !! q = Some n.
Proof.
  intros [(_ & Hno & ->)|(k & Hk & ->)] Hq; [by apply made_dirs_kept|].
  rewrite partly_made_lookup. destruct (decide _) as [Hin|]; [|done].
  destruct Hk as [->|Hno]; [by apply elem_of_nil in Hin|].
  destruct n as [|c]; [done|].
  assert (existsb (is_file m) (ancestors p ++ [p]) = true) as Hex.
  { apply existsb_exists. exists q. split; [by eapply partly_made_targets|].
    unfold is_file. by rewrite Hq. }
  congruence.
Qed.

(** It makes directories only. *)
Lemma makedirs_effect_is_file p (m m' : gmap string node) q :
  makedirs_effect p m m' -> is_file m' q = true -> is_file m q = true.
Proof.
  intros [(_ & _ & ->)|(k & _ & ->)]; [apply made_dirs_is_file|].
  unfold is_file. rewrite partly_made_lookup. by destruct (decide _).
Qed.

Lemma makedirs_effect_refl p (m : gmap string node) : makedirs_effect p m m.
Proof. right. exists 0. split; [by left|done]. Qed.

Lemma os_makedirs_cases E p w res w' :
  os_makedirs E p w = (res, w') ->
  trace w' = trace w ++ [EFs (Makedirs p)] /\
  makedirs_effect p (fs w) (fs w') /\
  ((res = Raise OSError /\
    (fs_fault E (length (trace w)) (Makedirs p) = true \/ p = "" \/
     existsb (is_file (fs w)) (ancestors p ++ [p]) = true)) \/
   (res = Ok tt /\ p <> "" /\
    existsb (is_file (fs w)) (ancestors p ++ [p]) = false /\
    fs_fault E (length (trace w)) (Makedirs p) = false /\
    fs w' = made_dirs p (fs w))).
Proof.
  unfold os_makedirs, fs_call.
  destruct (String.eqb_spec p "") as [Hp|Hne]; simpl.
  { intros [= <- <-]. simpl. split; [done|].
    split; [apply makedirs_effect_refl|]. left. auto. }
  destruct (existsb _ _) eqn:Hex.
  { intros [= <- <-]. simpl. split; [done|].
    split; [apply makedirs_effect_refl|]. left. auto. }
  destruct (fs_fault E _ _) eqn:Hf; intros [= <- <-]; simpl.
  - split; [done|]. split; [|left; auto].
    destruct (fs_progress E _ _) as [k|]; [|apply makedirs_effect_refl].
    right. exists k. split; [by right|done].
  - split; [done|]. split; [by left|]. right. done.
Qed.

Lemma os_makedirs_succeeds E p w :
  no_fs_fault E -> p <> "" ->
  existsb (is_file (fs w)) (ancestors p ++ [p]) = false ->
  os_makedirs E p w
  = (Ok tt, {| fs := made_dirs p (fs w);
               trace := trace w ++ [EFs (Makedirs p)] |}).
Proof.
  intros Hnf Hp Hex. unfold os_makedirs, fs_call. rewrite Hnf, Hex.
  by destruct (String.eqb_spec p "").
Qed.

(** The removal of lines 109 to 113: the directory is removed and the
    removal reported; or it cannot be removed, which is reported on the
    error stream; or it is removed and the line that says so is refused,
    which passes for a failed removal when the refusal is an OSError and
    leaves the function otherwise. *)
Lemma remove_empty_dir_cases E d w res w' :
  remove_empty_dir E d w = (res, w') ->
  (res = Ok tt /\
   fs w !! d = Some Dir /\ has_entry_under (fs w) d = false /\
   fs w' = delete d (fs w) /\
   trace w' = trace w ++ [EFs (Rmdir d); EPrint Stdout (RemovedDirectory d)]) \/
  (res = Ok tt /\ fs w' = fs w /\
   (fs_fault E (length (trace w)) (Rmdir d) = true \/
    fs w !! d <> Some Dir \/ has_entry_under (fs w) d = true) /\
   trace w' = trace w ++ [EFs (Rmdir d);
                          EPrint Stderr (CouldNotRemove d OSError)]) \/
  (fs w !! d = Some Dir /\ has_entry_under (fs w) d = false /\
   fs w' = delete d (fs w) /\
   exists t,
     (stdout_fault E t (RemovedDirectory d) = Some CannotWrite /\
      res = Ok tt /\
      trace w' = trace w ++ [EFs (Rmdir d);
                             EPrint Stderr (CouldNotRemove d OSError)]) \/
     (stdout_fault E t (RemovedDirectory d) = Some CannotEncode /\
      res = Raise ValueError /\
      trace w' = trace w ++ [EFs (Rmdir d)])).
Proof.
  unfold remove_empty_dir, try_except, bind, os_rmdir, fs_call, print.
  assert (Hcan : (fs w !! d = Some Dir /\ has_entry_under (fs w) d = false) \/
                 (fs w !! d <> Some Dir \/ has_entry_under (fs w) d = true)).
  { destruct (fs w !! d) as [[|c]|]; [|right; by left..].
    destruct (has_entry_under (fs w) d); [right; by right|by left]. }
  destruct Hcan as [[Hd Hu]|Hcannot].
  - rewrite Hd, Hu. destruct (fs_fault E _ _) eqn:Hf; simpl.
    { intros [= <- <-]. simpl. rewrite <- app_assoc. right; left.
      split_and!; try done; [by destruct (fs_progress E _ _)|by left]. }
    destruct (stdout_fault E _ _) as [[]|] eqn:Hp; simpl;
      intros [= <- <-]; simpl.
    + right; right. split_and!; try done. eexists. right. eauto.
    + right; right. split_and!; try done. eexists. left.
      rewrite <- app_assoc. eauto.
    + left. rewrite <- app_assoc. done.
  - assert (Hrun : match fs w !! d with
                   | Some Dir =>
                       if has_entry_under (fs w) d then None
                       else Some (delete d (fs w))
                   | _ => None
                   end = None).
    { destruct (fs w !! d) as [[|c]|]; try done.
      destruct Hcannot as [Hd|Hu]; [done|by rewrite Hu]. }
    rewrite Hrun. simpl. intros [= <- <-]. simpl. rewrite <- app_assoc.
    right; left. split_and!; try done. by right.
Qed.

Lemma remove_empty_dir_succeeds E d w :
  no_fs_fault E -> stdout_ok E ->
  fs w !! d = Some Dir -> has_entry_under (fs w) d = false ->
  exists w', remove_empty_dir E d w = (Ok tt, w') /\
             fs w' = delete d (fs w) /\
             trace w' = trace w ++ [EFs (Rmdir d);
                                    EPrint Stdout (RemovedDirectory d)].
Proof.
  intros Hnf Hso Hd Hu.
  unfold remove_empty_dir, try_except, bind, os_rmdir, fs_call, print.
  rewrite Hnf, Hd, Hu, Hso. simpl. eexists. split; [done|]. simpl.
  by rewrite <- app_assoc.
Qed.

(** The world once the chapter directory is made, before it is
    announced. *)
Lemma download_into_cases E series_slug chapter_number output_dir
    image_urls total_pages w res w' :
  download_into E series_slug chapter_number output_dir image_urls
    total_pages w = (res, w') ->
  let dir := chapter_dir_of series_slug chapter_number output_dir in
  (res = Raise OSError /\ makedirs_effect dir (fs w) (fs w') /\
   trace w' = trace w ++ [EFs (Makedirs dir)] /\
   (fs_fault E (length (trace w)) (Makedirs dir) = true \/
    existsb (is_file (fs w)) (ancestors dir ++ [dir]) = true)) \/
  (existsb (is_file (fs w)) (ancestors dir ++ [dir]) = false /\
   fs_fault E (length (trace w)) (Makedirs dir) = false /\
   ((exists e, py_iter image_urls = Raise e /\ res = Raise e /\
               w' = opened dir w) \/
    (exists t f,
        stdout_fault E t (OutputDirectory dir) = Some f /\
        res = Raise (print_exn f) /\
        w' = {| fs := made_dirs dir (fs w);
                trace := trace w ++ [EFs (Makedirs dir)] |}) \/
    exists pages lres w2,
      py_iter image_urls = Ok pages /\
      download_pages E dir total_pages 1 pages [] (opened dir w) = (lres, w2) /\
      ((exists e, lres = Raise e /\ res = Raise e /\ w' = w2) \/
       (exists files,
          lres = Ok files /\ files <> [] /\ res = Ok (Some dir) /\
          w' = record (EPrint Stdout
                         (Downloaded (length files) total_pages dir)) w2) \/
       (lres = Ok [] /\ res = Ok None /\
        remove_empty_dir E dir (record (EPrint Stderr FailedAllPages) w2)
        = (Ok tt, w')) \/
       (exists files t f,
          lres = Ok files /\ files <> [] /\
          stdout_fault E t (Downloaded (length files) total_pages dir)
          = Some f /\
          res = Raise (print_exn f) /\ w' = w2) \/
       (exists e,
          lres = Ok [] /\ res = Raise e /\
          remove_empty_dir E dir (record (EPrint Stderr FailedAllPages) w2)
          = (Raise e, w'))))).
Proof.
  intros Hrun dir. unfold download_into in Hrun. fold dir in Hrun.
  unfold bind at 1 in Hrun.
  destruct (os_makedirs E dir w) as [r1 w1] eqn:Hmk.
  apply os_makedirs_cases in Hmk
    as (Htr & Heff & [(-> & Hwhy)|(-> & Hne & Hex & Hnf & Hfs)]).
  { injection Hrun as <- <-. left. split_and!; try done.
    destruct Hwhy as [|[Hempty|]]; auto.
    pose proof (chapter_dir_nonempty series_slug chapter_number output_dir) as Hn.
    fold dir in Hn. rewrite Hempty in Hn. done. }
  right. split; [done|]. split; [done|].
  assert (Hw1 : w1 = {| fs := made_dirs dir (fs w);
                        trace := trace w ++ [EFs (Makedirs dir)] |}).
  { rewrite (world_eta w1). by rewrite Hfs, Htr. }
  unfold bind at 1 in Hrun.
  destruct (print E Stdout (OutputDirectory dir) w1) as [r2 w2] eqn:Hp.
  apply print_cases in Hp as [(-> & -> & _)|(f & _ & Hf & -> & ->)]; cycle 1.
  { injection Hrun as <- <-. right; left. exists (length (trace w1)), f.
    by rewrite <- Hw1. }
  assert (Hopen : record (EPrint Stdout (OutputDirectory dir)) w1 = opened dir w).
  { unfold opened. by rewrite Hw1. }
  rewrite Hopen in Hrun.
  unfold bind at 1 in Hrun.
  destruct (py_iter image_urls) as [pages|e] eqn:Hit; simpl in Hrun.
  2: { injection Hrun as <- <-. left. eauto. }
  right; right. unfold bind at 1 in Hrun.
  destruct (download_pages E dir total_pages 1 pages [] (opened dir w))
    as [lres w3] eqn:Hloop.
  exists pages, lres, w3. split; [done|]. split; [done|].
  destruct lres as [files|e].
  2: { injection Hrun as <- <-. left. eauto. }
  right. destruct files as [|file files]; simpl in Hrun.
  - unfold bind at 1 in Hrun. rewrite print_stderr in Hrun.
    unfold bind in Hrun.
    destruct (remove_empty_dir E dir _) as [r3 w4] eqn:Hrm.
    destruct r3 as [[]|e]; injection Hrun as <- <-.
    + right; left. done.
    + right; right; right. exists e. done.
  - unfold bind at 1 in Hrun.
    destruct (print E Stdout _ w3) as [r3 w4] eqn:Hp.
    apply print_cases in Hp as [(-> & -> & _)|(f & _ & Hf & -> & ->)].
    + injection Hrun as <- <-. left. by exists (file :: files).
    + injection Hrun as <- <-. right; right; left.
      exists (file :: files), (length (trace w3)), f. done.
Qed.

(** ** The lines before the chapter directory *)

Lemma metadata_effect_record ev out w w' :
  quiet_event ev = true ->
  metadata_effect out w w' -> metadata_effect out w (record ev w').
Proof.
  intros Hev [Hfs (evs & Htr & Hall)]. split; [done|].
  exists (evs ++ [ev]). simpl. rewrite Htr, <- app_assoc. split; [done|].
  rewrite forallb_app, Hall. simpl. by rewrite Hev.
Qed.

(** What [find_pages] satisfies after its first line: it is enough that
    the property holds once the output directory is made or refused, and
    keeps holding. *)
Lemma wp_find_pages E series_slug chapter_number output_dir
    (Q : result (option (json * nat)) -> world -> Prop) w :
  (forall r1 w1,
      os_makedirs E output_dir w = (r1, w1) ->
      match r1 with
      | Ok _ =>
          wp (let series_url :=
                FStr "https://cubari.moe/read/api/weebcentral/series/"
                     (JStr series_slug) "/" in
              bind (print E Stdout (FetchingSeries series_url)) (fun _ =>
              bind (requests_get E series_url None) (fun response =>
              bind (raise_for_status response) (fun _ =>
              bind (response_json response) (fun series_data =>
              bind (print E Stdout FetchedSeries) (fun _ =>
              bind (lift (getitem series_data "chapters")) (fun chapters =>
              bind (lift (dict_get chapters chapter_number JNull))
                (fun chapter_data =>
              if negb (truthy chapter_data) then
                bind (print E Stderr ChapterNotFound) (fun _ => ret None)
              else pages_of_chapter E chapter_data)))))))) Q w1
      | Raise e => Q (Raise e) w1
      end) ->
  wp (find_pages E series_slug chapter_number output_dir) Q w.
Proof.
  intros H. unfold find_pages. apply wp_bind, wp_of_run. intros r1 w1 Hmk.
  specialize (H r1 w1 Hmk). by destruct r1.
Qed.

Lemma find_pages_effect E series_slug chapter_number output_dir w :
  wp (find_pages E series_slug chapter_number output_dir)
     (fun _ w' => metadata_effect output_dir w w') w.
Proof.
  apply wp_find_pages. intros r1 w1 Hmk.
  apply os_makedirs_cases in Hmk as (Htr & Heff & _).
  assert (Hw1 : metadata_effect output_dir w w1).
  { split; [done|]. exists []. by rewrite Htr. }
  clear Heff Htr. destruct r1 as [[]|e]; [|done].
  unfold pages_of_chapter, select_group_url, fetch_page_list, get_image_urls.
  wp_steps; repeat (apply metadata_effect_record; [done|]); done.
Qed.

(** ** From the page list to the result *)

Lemma download_chapter_found E series_slug chapter_number output_dir w
    image_urls total_pages w1 :
  find_pages E series_slug chapter_number output_dir w
  = (Ok (Some (image_urls, total_pages)), w1) ->
  download_chapter E series_slug chapter_number output_dir w
  = try_except
      (download_into E series_slug chapter_number output_dir image_urls
         total_pages)
      (outer_handler E) w1.
Proof.
  intros H. unfold download_chapter, try_except, download_chapter_body, bind.
  by rewrite H.
Qed.

(** When the lines before the chapter directory end without a page list,
    the function returns [None] and touches the filesystem no more. *)
Lemma download_chapter_early E series_slug chapter_number output_dir w r w1 :
  find_pages E series_slug chapter_number output_dir w = (r, w1) ->
  (forall x, r <> Ok (Some x)) ->
  exists w' evs,
    download_chapter E series_slug chapter_number output_dir w = (Ok None, w') /\
    fs w' = fs w1 /\ trace w' = trace w1 ++ evs /\
    forallb quiet_event evs = true.
Proof.
  intros H Hr. unfold download_chapter, try_except, download_chapter_body, bind.
  rewrite H. destruct r as [[x|]|e].
  - by destruct (Hr x).
  - exists w1, []. by rewrite app_nil_r.
  - destruct (outer_handler_catches E e) as (m & Hm & ->).
    exists (record (EPrint Stderr m) w1), [EPrint Stderr m].
    by destruct Hm as [<-|[<-|[<-|[]]]].
Qed.

Lemma saved_pages_quiet evs :
  forallb quiet_event evs = true -> saved_pages evs = [].
Proof.
  induction evs as [|ev evs IH]; [done|]. simpl.
  intros [Hev Hall]%andb_true_iff. specialize (IH Hall).
  by destruct ev as [[] []| |].
Qed.

Lemma find_pages_total E series_slug chapter_number output_dir w :
  wp (find_pages E series_slug chapter_number output_dir)
     (fun r _ => forall image_urls n,
                   r = Ok (Some (image_urls, n)) ->
                   py_len image_urls = Ok n /\ n <> 0) w.
Proof.
  apply wp_find_pages. intros [[]|e] w1 _; [|done].
  unfold pages_of_chapter, select_group_url, fetch_page_list, get_image_urls.
  wp_steps; try done; intros image_urls n' [= <- <-]; split; try done;
    by apply Nat.eqb_neq.
Qed.

Lemma py_iter_length v n :
  py_len v = Ok n -> exists pages, py_iter v = Ok pages /\ length pages = n.
Proof.
  destruct v; simpl; try done; intros [= <-]; eexists; split; try done.
  - clear. induction s as [|c s IH]; simpl; [done|]. by rewrite IH.
  - by rewrite length_map.
Qed.

(** A duplicate-free list of [n] consecutive numbers has [n] items. *)
Lemma consecutive_count (l : list nat) a n :
  NoDup l ->
  (forall x, In x l -> a <= x < a + n) ->
  (forall i, i < n -> In (a + i) l) ->
  length l = n.
Proof.
  intros Hnd Hin Hall.
  assert (l ≡ₚ seq a n) as ->; [|by rewrite length_seq].
  apply NoDup_Permutation; [done|apply NoDup_seq|].
  intros x. rewrite elem_of_seq, list_elem_of_In. split; [apply Hin|].
  intros Hx. replace x with (a + (x - a)) by lia. apply Hall. lia.
Qed.

Lemma NoDup_paths dir (l : list (nat * string)) :
  NoDup (map fst l) ->
  Forall (fun iq => exists ext, iq.2 = path_join dir (page_file_name iq.1 ext)) l ->
  NoDup (map snd l).
Proof.
  induction l as [|[i q] l IH]; simpl; [constructor|].
  intros [Hi Hnd]%NoDup_cons [[ext Hq] Hall]%Forall_cons. simpl in *.
  constructor; [|by apply IH].
  intros Hin%list_elem_of_In%in_map_iff. destruct Hin as ([j q'] & Hj & Hin).
  simpl in Hj. subst q'. apply Hi, list_elem_of_In, in_map_iff.
  exists (j, q). split; [|done]. simpl.
  rewrite Forall_forall in Hall. apply list_elem_of_In, Hall in Hin as [ext' Hq'].
  simpl in Hq'. rewrite Hq in Hq'. symmetry. by eapply page_path_inj.
Qed.

(** What lies below the chapter directory is out of reach of the lines
    before it. *)
Lemma metadata_keeps_chapter_dir series_slug chapter_number output_dir w w1 q :
  metadata_effect output_dir w w1 ->
  String.length (chapter_dir_of series_slug chapter_number output_dir)
  <= String.length q ->
  fs w1 !! q = fs w !! q.
Proof.
  intros [Heff _] Hlen. eapply makedirs_effect_longer; [done|].
  pose proof (chapter_dir_longer series_slug chapter_number output_dir). lia.
Qed.

Lemma metadata_makes_no_file output_dir w w1 l :
  metadata_effect output_dir w w1 ->
  existsb (is_file (fs w)) l = false -> existsb (is_file (fs w1)) l = false.
Proof.
  intros [Heff _] Hno.
  destruct (existsb (is_file (fs w1)) l) eqn:Hex; [|done].
  apply existsb_exists in Hex as (q & Hin & Hq).
  apply (makedirs_effect_is_file _ _ _ _ Heff) in Hq.
  rewrite <- Hno. symmetry. apply existsb_exists. eauto.
Qed.

(** ** A run in which nothing unexpected happens *)

Lemma is_file_lookup (m : gmap string node) q :
  is_file m q = true -> m !! q <> None.
Proof. unfold is_file. by destruct (m !! q). Qed.

Lemma download_into_clean E series_slug chapter_number output_dir
    image_urls total_pages w1 pages :
  let dir := chapter_dir_of series_slug chapter_number output_dir in
  py_iter image_urls = Ok pages ->
  no_fs_fault E -> stdout_ok E ->
  (forall u, In u pages -> fetch_ok E u \/ fetch_fails E u) ->
  existsb (is_file (fs w1)) (ancestors dir ++ [dir]) = false ->
  (forall q, under dir q = true -> fs w1 !! q <> Some Dir) ->
  exists res w' evs,
    download_into E series_slug chapter_number output_dir image_urls
      total_pages w1 = (Ok res, w') /\
    trace w' = trace w1 ++ evs /\
    clean_run E dir pages res (fs w') evs (saved_pages evs) /\
    ((forall q, under dir q = true -> fs w1 !! q = None) ->
     fresh_run dir (fs w') (saved_pages evs)).
Proof.
  intros dir Hiter Hnf Hso Hfetch Hway Hnodir.
  destruct (download_into E series_slug chapter_number output_dir image_urls
              total_pages w1) as [res w'] eqn:Hrun.
  apply download_into_cases in Hrun. fold dir in Hrun.
  destruct Hrun as [(_ & _ & _ & [Hf|Hf])
                   |(_ & _ & [(e & He & _)|[(t & f & Hf & _)|Hrun]])];
    [by rewrite Hnf in Hf|congruence|congruence|by rewrite Hso in Hf|].
  destruct Hrun as (pages' & lres & w2 & Hiter' & Hloop & Hend).
  assert (pages' = pages) as -> by congruence.
  assert (Hopen : forall q, under dir q = true ->
            fs (opened dir w1) !! q = fs w1 !! q).
  { intros q Hq. simpl. apply made_dirs_longer. by apply under_longer. }
  destruct (download_pages_facts _ _ _ _ _ _ _ _ _ Hloop)
    as (evs2 & H1 & H2 & H3 & H4 & H5 & H6 & H6b & H7 & H8).
  destruct (download_pages_completes E dir total_pages pages Hnf Hso Hfetch
              1 [] (opened dir w1) lres w2 evs2) as [[files ->] Hidx];
    [intros q Hq; rewrite Hopen by done; by apply Hnodir|done|done|].
  specialize (H2 files eq_refl). simpl in H2.
  specialize (H6b files eq_refl).
  assert (Hpaths : NoDup (map snd (saved_pages evs2))).
  { eapply NoDup_paths; [done|]. eapply Forall_impl; [exact H3|].
    by intros iq [_ Hext]. }
  assert (Hbound : Forall (fun iq => 1 <= iq.1 <= length pages /\
                      exists ext, iq.2 = path_join dir (page_file_name iq.1 ext))
                     (saved_pages evs2)).
  { eapply Forall_impl; [exact H3|]. intros iq [Hi Hext]. split; [lia|done]. }
  assert (Hdir : fs w2 !! dir = Some Dir).
  { apply H8. simpl. apply made_dirs_self. }
  assert (Hunder : (forall q, under dir q = true -> fs w1 !! q = None) ->
            forall q, under dir q = true ->
            (fs w2 !! q <> None <-> In q (map snd (saved_pages evs2)))).
  { intros Hnew q Hq. split; [|by intros Hin%H5%is_file_lookup].
    intros Hsome. destruct (decide (q ∈ map snd (saved_pages evs2))) as [Hin|Hin].
    - by apply list_elem_of_In.
    - rewrite <- list_elem_of_In. exfalso. apply Hsome.
      rewrite H6b by (by rewrite <- list_elem_of_In).
      rewrite Hopen by done. by apply Hnew. }
  destruct Hend as [(e & He & _)
                   |[(files' & Hf & Hne & -> & ->)
                    |[(Hf & -> & Hrm)
                     |[(files' & t & f & _ & _ & Hf & _)
                      |(e & Hf & -> & Hrm)]]]];
    [done| | |by rewrite Hso in Hf|].
  - injection Hf as <-.
    exists (Some dir), (record (EPrint Stdout
                         (Downloaded (length files) total_pages dir)) w2),
      ([EFs (Makedirs dir); EPrint Stdout (OutputDirectory dir)] ++ evs2 ++
       [EPrint Stdout (Downloaded (length files) total_pages dir)]).
    split; [done|]. split.
    { simpl. rewrite H1. simpl. by rewrite <- !app_assoc. }
    assert (Hs : saved_pages
              ([EFs (Makedirs dir); EPrint Stdout (OutputDirectory dir)] ++ evs2 ++
               [EPrint Stdout (Downloaded (length files) total_pages dir)])
            = saved_pages evs2).
    { rewrite !saved_pages_app. simpl. by rewrite app_nil_r. }
    rewrite Hs. unfold clean_run, fresh_run. simpl fs. split_and!; try done.
    + destruct (saved_pages evs2); [|done]. by subst files.
    + intros i u Hl. destruct (Hidx i u Hl) as (Hin & Hpos & Hneg).
      split_and!; [|done|].
      * rewrite !in_app_iff. tauto.
      * intros Hf. destruct (Hneg Hf) as [Hno (m & Hm & Hin')].
        split; [done|]. exists m. split; [done|].
        rewrite !in_app_iff. tauto.
    + intros Hnil. rewrite Hnil in H2. by subst files.
    + intros Hnew. split; [by apply Hunder|].
      intros Hnil. rewrite Hnil in H2. by subst files.
  - injection Hf as ->.
    assert (Hnil : saved_pages evs2 = []) by (by destruct (saved_pages evs2)).
    apply remove_empty_dir_cases in Hrm. simpl in Hrm.
    destruct Hrm as [(_ & _ & _ & Hfs & Htr)
                    |[(_ & Hfs & Hwhy & Htr)
                     |(_ & _ & _ & t & [(Hf & _)|(Hf & _)])]];
      [| |by rewrite Hso in Hf|by rewrite Hso in Hf].
    + exists None, w',
        ([EFs (Makedirs dir); EPrint Stdout (OutputDirectory dir)] ++ evs2 ++
         [EPrint Stderr FailedAllPages; EFs (Rmdir dir);
          EPrint Stdout (RemovedDirectory dir)]).
      split; [done|]. split.
      { rewrite Htr, H1. simpl. by rewrite <- !app_assoc. }
      assert (Hs : saved_pages
                ([EFs (Makedirs dir); EPrint Stdout (OutputDirectory dir)] ++ evs2 ++
                 [EPrint Stderr FailedAllPages; EFs (Rmdir dir);
                  EPrint Stdout (RemovedDirectory dir)])
              = []).
      { rewrite !saved_pages_app, Hnil. done. }
      rewrite Hs, Hfs. unfold clean_run, fresh_run.
      split_and!; try done; try (by constructor).
      * intros i u Hl. destruct (Hidx i u Hl) as (Hin & Hpos & Hneg).
        split_and!.
        -- rewrite !in_app_iff. tauto.
        -- intros Hok. specialize (Hpos Hok). by rewrite Hnil in Hpos.
        -- intros Hf. destruct (Hneg Hf) as [Hno (m & Hm & Hin')].
           split; [by intros []|]. exists m. split; [done|].
           rewrite !in_app_iff. tauto.
      * intros _. rewrite !in_app_iff. simpl. tauto.
      * intros Hnew. split; [|intros _; apply lookup_delete_eq].
        intros q Hq. split; [|by intros []]. intros Hsome.
        apply under_longer in Hq as Hlen.
        rewrite lookup_delete_ne in Hsome by (intros ->; lia).
        apply (Hunder Hnew) in Hsome; [|done]. by rewrite Hnil in Hsome.
    + exists None, w',
        ([EFs (Makedirs dir); EPrint Stdout (OutputDirectory dir)] ++ evs2 ++
         [EPrint Stderr FailedAllPages; EFs (Rmdir dir);
          EPrint Stderr (CouldNotRemove dir OSError)]).
      split; [done|]. split.
      { rewrite Htr, H1. simpl. by rewrite <- !app_assoc. }
      assert (Hs : saved_pages
                ([EFs (Makedirs dir); EPrint Stdout (OutputDirectory dir)] ++ evs2 ++
                 [EPrint Stderr FailedAllPages; EFs (Rmdir dir);
                  EPrint Stderr (CouldNotRemove dir OSError)])
              = []).
      { rewrite !saved_pages_app, Hnil. done. }
      rewrite Hs, Hfs. unfold clean_run, fresh_run. simpl fs.
      split_and!; try done; try (by constructor).
      * intros i u Hl. destruct (Hidx i u Hl) as (Hin & Hpos & Hneg).
        split_and!.
        -- rewrite !in_app_iff. tauto.
        -- intros Hok. specialize (Hpos Hok). by rewrite Hnil in Hpos.
        -- intros Hf. destruct (Hneg Hf) as [Hno (m & Hm & Hin')].
           split; [by intros []|]. exists m. split; [done|].
           rewrite !in_app_iff. tauto.
      * intros _. rewrite !in_app_iff. simpl. tauto.
      * intros Hnew. exfalso. destruct Hwhy as [Hf|[Hf|Hf]].
        -- by rewrite Hnf in Hf.
        -- done.
        -- simpl in Hf. rewrite no_entry_under in Hf; [done|]. intros q Hq.
           destruct (fs w2 !! q) eqn:Hl; [|done].
           assert (In q (map snd (saved_pages evs2))) as Hin
             by (apply (Hunder Hnew); [done|by rewrite Hl]).
           by rewrite Hnil in Hin.
  - exfalso. apply remove_empty_dir_cases in Hrm.
    destruct Hrm as [(? & _)|[(? & _)|(_ & _ & _ & t & [(Hp & _)|(Hp & _)])]];
      [done|done|by rewrite Hso in Hp|by rewrite Hso in Hp].
Qed.

Lemma find_pages_run_effect E series_slug chapter_number output_dir w r w1 :
  find_pages E series_slug chapter_number output_dir w = (r, w1) ->
  metadata_effect output_dir w w1.
Proof.
  intros H. pose proof (find_pages_effect E series_slug chapter_number output_dir w) as Hwp.
  unfold wp in Hwp. by rewrite H in Hwp.
Qed.

Lemma find_pages_run_total E series_slug chapter_number output_dir w
    image_urls n w1 :
  find_pages E series_slug chapter_number output_dir w
  = (Ok (Some (image_urls, n)), w1) ->
  exists pages, py_iter image_urls = Ok pages /\ length pages = n /\ n <> 0.
Proof.
  intros H. pose proof (find_pages_total E series_slug chapter_number output_dir w) as Hwp.
  unfold wp in Hwp. rewrite H in Hwp. destruct (Hwp _ _ eq_refl) as [Hlen Hn].
  destruct (py_iter_length _ _ Hlen) as (pages & Hit & Hl). eauto.
Qed.

Lemma download_chapter_clean E series_slug chapter_number output_dir w
    image_urls total_pages w1 pages :
  let dir := chapter_dir_of series_slug chapter_number output_dir in
  find_pages E series_slug chapter_number output_dir w
  = (Ok (Some (image_urls, total_pages)), w1) ->
  py_iter image_urls = Ok pages ->
  no_fs_fault E -> stdout_ok E ->
  (forall u, In u pages -> fetch_ok E u \/ fetch_fails E u) ->
  existsb (is_file (fs w)) (ancestors dir ++ [dir]) = false ->
  (forall q, under dir q = true -> fs w !! q <> Some Dir) ->
  exists res w' evs,
    download_chapter E series_slug chapter_number output_dir w = (Ok res, w') /\
    trace w' = trace w1 ++ evs /\
    clean_run E dir pages res (fs w') evs (saved_pages evs) /\
    ((forall q, under dir q = true -> fs w !! q = None) ->
     fresh_run dir (fs w') (saved_pages evs)).
Proof.
  intros dir Hfind Hiter Hnf Hso Hfetch Hway Hnodir.
  pose proof (find_pages_run_effect _ _ _ _ _ _ _ Hfind) as Heff.
  assert (Hkeep : forall q, under dir q = true -> fs w1 !! q = fs w !! q).
  { intros q Hq.
    apply (metadata_keeps_chapter_dir series_slug chapter_number _ _ _ _ Heff).
    apply under_longer in Hq. unfold dir in *. lia. }
  destruct (download_into_clean E series_slug chapter_number output_dir
              image_urls total_pages w1 pages Hiter Hnf Hso Hfetch)
    as (res & w' & evs & Hrun & Htr & Hclean & Hfresh).
  - by eapply metadata_makes_no_file.
  - intros q Hq. rewrite Hkeep by done. by apply Hnodir.
  - exists res, w', evs. split_and!; [|done|done|].
    + rewrite (download_chapter_found _ _ _ _ _ _ _ _ Hfind).
      unfold try_except. by rewrite Hrun.
    + intros Hnew. apply Hfresh. intros q Hq. rewrite Hkeep by done.
      by apply Hnew.
Qed.

(** Every successful return, whatever the collaborators did. *)
Lemma download_chapter_success E series_slug chapter_number output_dir w p w' :
  let dir := chapter_dir_of series_slug chapter_number output_dir in
  download_chapter E series_slug chapter_number output_dir w
  = (Ok (Some p), w') ->
  p = dir /\ fs w' !! dir = Some Dir /\
  exists evs,
    trace w' = trace w ++ evs /\
    saved_pages evs <> [] /\
    NoDup (map snd (saved_pages evs)) /\
    Forall (fun iq => is_file (fs w') iq.2 = true /\ under dir iq.2 = true /\
                      1 <= iq.1 /\
                      exists ext, iq.2 = path_join dir (page_file_name iq.1 ext))
           (saved_pages evs).
Proof.
  intros dir Hrun.
  destruct (find_pages E series_slug chapter_number output_dir w)
    as [r w1] eqn:Hfind.
  destruct (find_pages_run_effect _ _ _ _ _ _ _ Hfind)
    as [_ (evs1 & Htr1 & Hquiet)].
  assert (Hs1 : saved_pages (EFs (Makedirs output_dir) :: evs1) = [])
    by (by apply saved_pages_quiet in Hquiet).
  destruct r as [[[image_urls n]|]|e]; cycle 1.
  { destruct (download_chapter_early _ _ _ _ _ _ _ Hfind) as (? & ? & H & _);
      [done|congruence]. }
  { destruct (download_chapter_early _ _ _ _ _ _ _ Hfind) as (? & ? & H & _);
      [done|congruence]. }
  rewrite (download_chapter_found _ _ _ _ _ _ _ _ Hfind) in Hrun.
  unfold try_except in Hrun.
  destruct (download_into E series_slug chapter_number output_dir image_urls n w1)
    as [res w2] eqn:Hinto.
  destruct res as [res|e].
  2: { destruct (outer_handler_catches E e) as (m & _ & Hh). rewrite Hh in Hrun.
       done. }
  injection Hrun as -> ->.
  apply download_into_cases in Hinto. fold dir in Hinto.
  destruct Hinto as [(? & _)
                    |(_ & _ & [(e & _ & ? & _)|[(t & f & _ & ? & _)|Hinto]])];
    try done.
  destruct Hinto as (pages & lres & w2 & _ & Hloop & Hend).
  destruct Hend as [(e & _ & ? & _)
                   |[(files & -> & Hne & Hp & ->)
                    |[(_ & ? & _)
                     |[(files & t & f & _ & _ & _ & ? & _)
                      |(e & _ & ? & _)]]]];
    try done.
  injection Hp as ->.
  destruct (download_pages_facts _ _ _ _ _ _ _ _ _ Hloop)
    as (evs2 & H1 & H2 & H3 & H4 & H5 & H6 & H6b & H7 & H8).
  specialize (H2 files eq_refl). simpl in H2.
  split; [done|]. split.
  { simpl. apply H8. simpl. apply made_dirs_self. }
  exists ((EFs (Makedirs output_dir) :: evs1) ++
          [EFs (Makedirs dir); EPrint Stdout (OutputDirectory dir)] ++ evs2 ++
          [EPrint Stdout (Downloaded (length files) n dir)]).
  assert (Hs : saved_pages
            ((EFs (Makedirs output_dir) :: evs1) ++
             [EFs (Makedirs dir); EPrint Stdout (OutputDirectory dir)] ++ evs2 ++
             [EPrint Stdout (Downloaded (length files) n dir)])
          = saved_pages evs2).
  { rewrite saved_pages_app, Hs1. rewrite !saved_pages_app. simpl.
    by rewrite app_nil_r. }
  rewrite Hs. split_and!.
  - simpl. rewrite H1. simpl. rewrite Htr1. by rewrite <- !app_assoc.
  - intros Hnil. rewrite Hnil in H2. by subst files.
  - eapply NoDup_paths; [done|]. eapply Forall_impl; [exact H3|].
    by intros iq [_ Hext].
  - rewrite Forall_forall in H3. apply Forall_forall. intros [i q] Hin.
    destruct (H3 _ Hin) as [Hi [ext Hq]]. simpl in *. split_and!.
    + apply H5, in_map_iff. exists (i, q). split; [done|].
      by apply list_elem_of_In.
    + rewrite Hq. apply page_path_under.
    + lia.
    + by exists ext.
Qed.

(** ** The properties *)

Lemma format_03d_width i : i < 1000 -> String.length (format_03d i) = 3.
Proof.
  intros Hi.
  assert (forallb (fun i => Nat.eqb (String.length (format_03d i)) 3)
                  (seq 0 1000) = true) as Hall by (by vm_compute).
  rewrite forallb_forall in Hall. apply Nat.eqb_eq, Hall, in_seq. lia.
Qed.

Lemma saved_indices_paths dir (saved : list (nat * string)) n i :
  Forall (fun iq => 1 <= iq.1 <= n /\
                    exists ext, iq.2 = path_join dir (page_file_name iq.1 ext))
         saved ->
  In i (map fst saved) ->
  exists ext, In (path_join dir (page_file_name i ext)) (map snd saved).
Proof.
  intros Hall Hin. apply in_map_iff in Hin as ([j q] & Hj & Hin).
  simpl in Hj. subst j. rewrite Forall_forall in Hall.
  destruct (Hall (i, q)) as [_ [ext Hq]]; [by apply list_elem_of_In|].
  simpl in Hq. exists ext. rewrite <- Hq. apply in_map_iff. by exists (i, q).
Qed.

(** C1, counterexample.  Every image can be fetched, and yet: when the
    chapter was downloaded before with its first page as a png image,
    the two pages are saved as webp files next to the old file and the
    directory that is returned holds three entries, not two; when the
    disk is full once the first page is written, when the standard
    output refuses the line that announces the chapter directory, and
    when a file has the path of the chapter directory, the function
    returns [None]. *)
Lemma C1_counterexample :
  ~ C1_as_stated all_images_env "one-piece" "5" "out" stale_world /\
  ~ C1_as_stated disk_full_env "one-piece" "5" "out" start /\
  ~ C1_as_stated narrow_stdout_env "one-piece" "5" "out" start /\
  ~ C1_as_stated all_images_env "one-piece" "5" "out" taken_world.
Proof.
  split_and!; intros H.
  - destruct (H two_pages 2
                (find_pages all_images_env "one-piece" "5" "out" stale_world).2
                [JStr "https://img/1"; JStr "https://img/2"])
      as [_ Hcount];
      [by vm_compute|reflexivity|intros u _ t; eexists; split; reflexivity|].
    by vm_compute in Hcount.
  - destruct (H two_pages 2
                (find_pages disk_full_env "one-piece" "5" "out" start).2
                [JStr "https://img/1"; JStr "https://img/2"])
      as [Hres _];
      [by vm_compute|reflexivity|intros u _ t; eexists; split; reflexivity|].
    by vm_compute in Hres.
  - destruct (H two_pages 2
                (find_pages narrow_stdout_env "one-piece" "5" "out" start).2
                [JStr "https://img/1"; JStr "https://img/2"])
      as [Hres _];
      [by vm_compute|reflexivity|intros u _ t; eexists; split; reflexivity|].
    by vm_compute in Hres.
  - destruct (H two_pages 2
                (find_pages all_images_env "one-piece" "5" "out" taken_world).2
                [JStr "https://img/1"; JStr "https://img/2"])
      as [Hres _];
      [by vm_compute|reflexivity|intros u _ t; eexists; split; reflexivity|].
    by vm_compute in Hres.
Qed.

(** C1, amended.  When the lines before the chapter directory found a
    page list of N entries, every image can be fetched, the filesystem
    and the standard output refuse nothing, no file is in the way of the
    chapter directory and nothing is below its path yet, then N >= 1,
    [download_chapter] returns the path of the chapter directory, that
    directory exists and holds exactly N files, and for each i from 1 to
    N one of them is named page_, the index i padded with zeros to three
    digits, a dot and an extension. *)
Theorem C1_all_pages_saved E series_slug chapter_number output_dir w
    image_urls total_pages w1 pages :
  let dir := chapter_dir_of series_slug chapter_number output_dir in
  find_pages E series_slug chapter_number output_dir w
  = (Ok (Some (image_urls, total_pages)), w1) ->
  py_iter image_urls = Ok pages ->
  (forall u, In u pages -> fetch_ok E u) ->
  no_fs_fault E ->
  stdout_ok E ->
  existsb (is_file (fs w)) (ancestors dir ++ [dir]) = false ->
  (forall q, under dir q = true -> fs w !! q = None) ->
  1 <= length pages /\
  exists w' files,
    download_chapter E series_slug chapter_number output_dir w
    = (Ok (Some dir), w') /\
    fs w' !! dir = Some Dir /\
    length files = length pages /\
    NoDup files /\
    (forall q, under dir q = true -> (fs w' !! q <> None <-> In q files)) /\
    (forall q, In q files -> is_file (fs w') q = true) /\
    (forall i, 1 <= i <= length pages ->
       exists ext,
         In (path_join dir ("page_" +:+ format_03d i +:+ "." +:+ ext)) files) /\
    (forall i, i < 1000 -> String.length (format_03d i) = 3).
Proof.
  intros dir Hfind Hiter Hok Hnf Hso Hway Hnew.
  destruct (find_pages_run_total _ _ _ _ _ _ _ _ Hfind)
    as (pages' & Hiter' & Hlen & Hn).
  assert (pages' = pages) as -> by congruence.
  split; [lia|].
  destruct (download_chapter_clean E series_slug chapter_number output_dir w
              image_urls total_pages w1 pages Hfind Hiter Hnf Hso)
    as (res & w' & evs & Hrun & Htr & Hclean & Hfresh);
    [auto|done|intros q Hq; by rewrite Hnew| ].
  destruct Hclean as (Hres & Hnd1 & Hnd2 & Hall & Hidx & Hfiles & Hdir & _).
  destruct (Hfresh Hnew) as [Hunder _].
  fold dir in Hres, Hall, Hunder, Hdir.
  assert (Hevery : forall i, i < length pages ->
            In (1 + i) (map fst (saved_pages evs))).
  { intros i Hi. destruct (lookup_lt_is_Some_2 pages i Hi) as [u Hu].
    apply (Hidx i u Hu), Hok. eapply list_elem_of_In, list_elem_of_lookup_2, Hu. }
  assert (Hcount : length (map fst (saved_pages evs)) = length pages).
  { apply (consecutive_count _ 1); [done| |done].
    intros x Hx%in_map_iff. destruct Hx as ([j q] & <- & Hin).
    rewrite Forall_forall in Hall. apply list_elem_of_In, Hall in Hin.
    simpl in *. lia. }
  rewrite length_map in Hcount.
  assert (Hne : saved_pages evs <> []).
  { intros Hnil. rewrite Hnil in Hcount. simpl in Hcount. lia. }
  exists w', (map snd (saved_pages evs)). split_and!; try done.
  - rewrite Hrun, Hres. by destruct (saved_pages evs).
  - by apply Hdir.
  - by rewrite length_map.
  - intros i Hi. eapply saved_indices_paths; [exact Hall|].
    replace i with (1 + (i - 1)) by lia. apply Hevery. lia.
  - apply format_03d_width.
Qed.

(** ** Concrete runs *)

Lemma C1_witness :
  exists w' files,
    download_chapter all_images_env "one-piece" "5" "out" start
    = (Ok (Some "out/one-piece_Chapter_5"), w') /\
    length files = 2 /\
    (forall q, under "out/one-piece_Chapter_5" q = true ->
               (fs w' !! q <> None <-> In q files)).
Proof.
  destruct (C1_all_pages_saved all_images_env "one-piece" "5" "out" start
              two_pages 2
              (find_pages all_images_env "one-piece" "5" "out" start).2
              [JStr "https://img/1"; JStr "https://img/2"])
    as (_ & w' & files & Hrun & _ & Hlen & _ & Hfiles & _).
  - by vm_compute.
  - reflexivity.
  - intros u _ t. eexists. split; reflexivity.
  - intros t op. reflexivity.
  - intros t m. reflexivity.
  - by vm_compute.
  - intros q _. apply lookup_empty.
  - exists w', files. split; [exact Hrun|]. split; [exact Hlen|exact Hfiles].
Defined.




Lemma os_makedirs_ok_inv E p w :
  (os_makedirs E p w).1 = Ok tt ->
  fs_fault E (length (trace w)) (Makedirs p) = false /\
  existsb (is_file (fs w)) (ancestors p ++ [p]) = false.
Proof.
  destruct (os_makedirs E p w) as [r1 w1] eqn:Hmk. simpl. intros ->.
  by apply os_makedirs_cases in Hmk as (_ & _ & [[? _]|(_ & _ & ? & ? & _)]).
Qed.

(** C6, counterexample.  The page list has two entries and no page is
    saved: when writing page 1 raises OSError, when the standard output
    refuses the line that announces the chapter directory, and when the
    chapter directory cannot be made because a file has its path, the
    exception reaches the outer handler, which returns [None] without
    any attempt to remove the chapter directory. *)
Lemma C6_counterexample :
  ~ C6_as_stated read_only_env "one-piece" "5" "out" start /\
  ~ C6_as_stated narrow_stdout_env "one-piece" "5" "out" start /\
  ~ C6_as_stated all_images_env "one-piece" "5" "out" taken_world.
Proof.
  split_and!; unfold C6_as_stated; intros H.
  - destruct (H two_pages 2
                (find_pages read_only_env "one-piece" "5" "out" start).2)
      as [_ Hin]; [by vm_compute|by vm_compute|].
    vm_compute in Hin. intuition discriminate.
  - destruct (H two_pages 2
                (find_pages narrow_stdout_env "one-piece" "5" "out" start).2)
      as [_ Hin]; [by vm_compute|by vm_compute|].
    vm_compute in Hin. intuition discriminate.
  - destruct (H two_pages 2
                (find_pages all_images_env "one-piece" "5" "out" taken_world).2)
      as [_ Hin]; [by vm_compute|by vm_compute|].
    vm_compute in Hin. intuition discriminate.
Qed.

(** C6, amended.  When the page list is not empty, the chapter
    directory could be made, the standard output refuses nothing and
    every image of the list fails as a timeout or request failure, then
    no page is saved, the removal of the chapter directory is attempted
    and [download_chapter] returns [None]; either the directory is gone,
    or the failure to remove it is reported on the error stream and the
    directory stays. *)
Theorem C6_nothing_downloaded E series_slug chapter_number output_dir w
    image_urls total_pages w1 pages :
  let dir := chapter_dir_of series_slug chapter_number output_dir in
  find_pages E series_slug chapter_number output_dir w
  = (Ok (Some (image_urls, total_pages)), w1) ->
  py_iter image_urls = Ok pages ->
  (forall u, In u pages -> fetch_fails E u) ->
  (os_makedirs E dir w1).1 = Ok tt ->
  stdout_ok E ->
  exists w' evs,
    download_chapter E series_slug chapter_number output_dir w = (Ok None, w') /\
    trace w' = trace w1 ++ evs /\
    saved_pages evs = [] /\
    In (EFs (Rmdir dir)) evs /\
    ((fs w' !! dir = None /\ In (EPrint Stdout (RemovedDirectory dir)) evs) \/
     (fs w' !! dir = Some Dir /\
      In (EPrint Stderr (CouldNotRemove dir OSError)) evs)).
Proof.
  intros dir Hfind Hiter Hfail Hmk Hso.
  apply os_makedirs_ok_inv in Hmk as [Hnofault Hway].
  rewrite (download_chapter_found _ _ _ _ _ _ _ _ Hfind). unfold try_except.
  destruct (download_into E series_slug chapter_number output_dir image_urls
              total_pages w1) as [res w'] eqn:Hrun.
  apply download_into_cases in Hrun. fold dir in Hrun.
  destruct Hrun as [(_ & _ & _ & [Hf|Hf])
                   |(_ & _ & [(e & He & _)|[(t & f & Hf & _)|Hrun]])];
    [congruence|congruence|congruence|by rewrite Hso in Hf|].
  destruct Hrun as (pages' & lres & w2 & Hiter' & Hloop & Hend).
  assert (pages' = pages) as -> by congruence.
  destruct (download_pages_all_fail E dir total_pages pages Hso Hfail
              _ _ _ _ _ Hloop)
    as (-> & Hfs2 & evs2 & Htr2 & Hsaved & _).
  destruct Hend as [(e & He & _)
                   |[(files & Hf & Hne & _)
                    |[(_ & -> & Hrm)
                     |[(files & t & f & Hf & Hne & _)
                      |(e & _ & -> & Hrm)]]]];
    [done|congruence| |congruence|]; cycle 1.
  { exfalso. apply remove_empty_dir_cases in Hrm.
    destruct Hrm as [(? & _)|[(? & _)|(_ & _ & _ & t & [(Hp & _)|(Hp & _)])]];
      [done|done|by rewrite Hso in Hp|by rewrite Hso in Hp]. }
  apply remove_empty_dir_cases in Hrm. simpl in Hrm.
  assert (Hdir : fs w2 !! dir = Some Dir).
  { rewrite Hfs2. simpl. apply made_dirs_self. }
  destruct Hrm as [(_ & _ & _ & Hfs & Htr)
                  |[(_ & Hfs & _ & Htr)
                   |(_ & _ & _ & t & [(Hp & _)|(Hp & _)])]];
    [| |by rewrite Hso in Hp|by rewrite Hso in Hp].
  - exists w', ([EFs (Makedirs dir); EPrint Stdout (OutputDirectory dir)] ++ evs2 ++
                [EPrint Stderr FailedAllPages; EFs (Rmdir dir);
                 EPrint Stdout (RemovedDirectory dir)]).
    split_and!; [done| | | |].
    + rewrite Htr, Htr2. simpl. by rewrite <- !app_assoc.
    + rewrite !saved_pages_app, Hsaved. done.
    + rewrite !in_app_iff. simpl. tauto.
    + left. split; [rewrite Hfs; apply lookup_delete_eq|].
      rewrite !in_app_iff. simpl. tauto.
  - exists w', ([EFs (Makedirs dir); EPrint Stdout (OutputDirectory dir)] ++ evs2 ++
                [EPrint Stderr FailedAllPages; EFs (Rmdir dir);
                 EPrint Stderr (CouldNotRemove dir OSError)]).
    split_and!; [done| | | |].
    + rewrite Htr, Htr2. simpl. by rewrite <- !app_assoc.
    + rewrite !saved_pages_app, Hsaved. done.
    + rewrite !in_app_iff. simpl. tauto.
    + right. split; [by rewrite Hfs|].
      rewrite !in_app_iff. simpl. tauto.
Qed.

Lemma C6_witness :
  exists w',
    download_chapter no_image_env "one-piece" "5" "out" start = (Ok None, w') /\
    fs w' !! "out/one-piece_Chapter_5" = None.
Proof.
  destruct (C6_nothing_downloaded no_image_env "one-piece" "5" "out" start
              two_pages 2
              (find_pages no_image_env "one-piece" "5" "out" start).2
              [JStr "https://img/1"; JStr "https://img/2"])
    as (w' & evs & Hrun & _).
  - by vm_compute.
  - reflexivity.
  - intros u _ t. left. exists RequestError. split; reflexivity.
  - by vm_compute.
  - intros t m. reflexivity.
  - exists w'. split; [exact Hrun|].
    assert (w' = (download_chapter no_image_env "one-piece" "5" "out" start).2)
      as -> by (by rewrite Hrun).
    by vm_compute.
Defined.

(** C3, counterexample.  The function returns [None] and leaves a new
    directory: the output directory, when it did not exist and the series
    cannot be fetched (line 10 has made it before the request fails); the
    chapter directory, when the output directory was there and no page
    can be written, when the standard output refuses the line that
    announces the chapter directory (line 66 has made it before), and
    when the request for a page raises an exception that is no request
    exception. *)
Lemma C3_counterexample :
  ~ C3_as_stated offline_env "one-piece" "5" "out" start /\
  ~ C3_as_stated read_only_env "one-piece" "5" "out" out_world /\
  ~ C3_as_stated narrow_stdout_env "one-piece" "5" "out" out_world /\
  ~ C3_as_stated broken_fetch_env "one-piece" "5" "out" out_world.
Proof.
  split_and!; unfold C3_as_stated; intros [(p & Hp & _)|[_ Hnew]].
  - by vm_compute in Hp.
  - specialize (Hnew "out" ltac:(by vm_compute)). by vm_compute in Hnew.
  - by vm_compute in Hp.
  - specialize (Hnew "out/one-piece_Chapter_5" ltac:(by vm_compute)).
    by vm_compute in Hnew.
  - by vm_compute in Hp.
  - specialize (Hnew "out/one-piece_Chapter_5" ltac:(by vm_compute)).
    by vm_compute in Hnew.
  - by vm_compute in Hp.
  - specialize (Hnew "out/one-piece_Chapter_5" ltac:(by vm_compute)).
    by vm_compute in Hnew.
Qed.

(** C3, amended.  [download_chapter] always returns.  Either it returns
    the path of the chapter directory, and then that directory exists,
    at least one page was saved, and every saved page has a file of its
    own below it; or it returns [None], and then, when the filesystem and
    the standard output refuse nothing, every image either can be fetched
    or fails as a timeout or request failure and there was nothing at or
    below the path of the chapter directory before, there is nothing at
    or below it afterwards (the output directory itself may have been
    made). *)
Theorem C3_directory_or_failure E series_slug chapter_number output_dir w :
  let dir := chapter_dir_of series_slug chapter_number output_dir in
  exists res w',
    download_chapter E series_slug chapter_number output_dir w = (Ok res, w') /\
    ((res = Some dir /\ fs w' !! dir = Some Dir /\
      exists evs,
        trace w' = trace w ++ evs /\
        saved_pages evs <> [] /\
        NoDup (map snd (saved_pages evs)) /\
        Forall (fun iq => is_file (fs w') iq.2 = true /\
                          under dir iq.2 = true /\ 1 <= iq.1 /\
                          exists ext,
                            iq.2 = path_join dir (page_file_name iq.1 ext))
               (saved_pages evs)) \/
     (res = None /\
      (no_fs_fault E ->
       stdout_ok E ->
       (forall u, fetch_ok E u \/ fetch_fails E u) ->
       existsb (is_file (fs w)) (ancestors dir ++ [dir]) = false ->
       fs w !! dir = None ->
       (forall q, under dir q = true -> fs w !! q = None) ->
       fs w' !! dir = None /\
       forall q, under dir q = true -> fs w' !! q = None))).
Proof.
  intros dir.
  destruct (download_chapter_returns E series_slug chapter_number output_dir w)
    as (res & w' & Hrun).
  exists res, w'. split; [done|]. destruct res as [p|].
  - left. destruct (download_chapter_success _ _ _ _ _ _ _ Hrun)
      as (-> & Hdir & Hevs). done.
  - right. split; [done|]. intros Hnf Hso Hfetch Hway Habsent Hnew.
    destruct (find_pages E series_slug chapter_number output_dir w)
      as [r w1] eqn:Hfind.
    pose proof (find_pages_run_effect _ _ _ _ _ _ _ Hfind) as Heff.
    assert (Hkeep : forall q, String.length dir <= String.length q ->
              fs w1 !! q = fs w !! q).
    { intros q Hq. by eapply metadata_keeps_chapter_dir. }
    assert (Hearly : (forall x, r <> Ok (Some x)) ->
              fs w' !! dir = None /\
              forall q, under dir q = true -> fs w' !! q = None).
    { intros Hr.
      destruct (download_chapter_early _ _ _ _ _ _ _ Hfind Hr)
        as (w'' & evs & Hrun' & Hfs & _).
      assert (w'' = w') as -> by congruence. rewrite Hfs. split.
      - by rewrite Hkeep.
      - intros q Hq. rewrite Hkeep; [by apply Hnew|].
        apply under_longer in Hq. lia. }
    destruct r as [[[image_urls n]|]|e]; [|by apply Hearly..].
    destruct (find_pages_run_total _ _ _ _ _ _ _ _ Hfind)
      as (pages & Hiter & _).
    destruct (download_chapter_clean E series_slug chapter_number output_dir w
                image_urls n w1 pages Hfind Hiter Hnf Hso)
      as (res & w'' & evs & Hrun' & _ & (Hres & _) & Hfresh);
      [auto|done|intros q Hq; by rewrite Hnew|].
    assert (w'' = w' /\ res = None) as [-> ->] by (split; congruence).
    destruct (Hfresh Hnew) as [Hunder Hnone].
    fold dir in Hunder, Hnone, Hres.
    assert (Hnil : saved_pages evs = [])
      by (destruct (saved_pages evs); [done|discriminate]).
    split; [by apply Hnone|].
    intros q Hq. destruct (fs w' !! q) eqn:Hl; [|done].
    assert (In q (map snd (saved_pages evs))) as Hin
      by (apply Hunder; [done|by rewrite Hl]).
    by rewrite Hnil in Hin.
Qed.

Lemma C3_witness :
  exists w',
    download_chapter no_image_env "one-piece" "5" "out" start = (Ok None, w') /\
    fs w' !! "out/one-piece_Chapter_5" = None.
Proof.
  destruct (C3_directory_or_failure no_image_env "one-piece" "5" "out" start)
    as (res & w' & Hrun & [(Hres & _)|(Hres & Hclean)]).
  - exfalso. rewrite Hres in Hrun. by vm_compute in Hrun.
  - exists w'. rewrite Hres in Hrun. split; [exact Hrun|].
    destruct Hclean as [Habsent _]; [| | | | | |exact Habsent].
    + intros t op. reflexivity.
    + intros t m. reflexivity.
    + intros u. right. intros t. left. exists RequestError. split; reflexivity.
    + by vm_compute.
    + reflexivity.
    + intros q _. apply lookup_empty.
Defined.

(** ** Runs as extensions of the trace *)

Lemma extends_refl P w : extends P w w.
Proof. exists []. by rewrite app_nil_r. Qed.

Lemma extends_record (P : event -> Prop) ev w w' :
  P ev -> extends P w w' -> extends P w (record ev w').
Proof.
  intros Hev (evs & Htr & Hall). exists (evs ++ [ev]). simpl.
  rewrite Htr, <- app_assoc. split; [done|].
  apply Forall_app. split; [done|]. by constructor.
Qed.

Lemma extends_trans P w w1 w2 :
  extends P w w1 -> extends P w1 w2 -> extends P w w2.
Proof.
  intros (evs1 & Htr1 & H1) (evs2 & Htr2 & H2). exists (evs1 ++ evs2).
  rewrite Htr2, Htr1, <- app_assoc. split; [done|]. by apply Forall_app.
Qed.

Lemma extends_step (P : event -> Prop) w w' evs :
  trace w' = trace w ++ evs -> Forall P evs -> extends P w w'.
Proof. intros Htr Hall. by exists evs. Qed.

(** ** The choice of the group and the page list (lines 26 to 61) *)

Lemma requests_only_of group_url w w' :
  extends (request_for group_url) w w' ->
  exists evs, trace w' = trace w ++ evs /\ requests_only group_url evs.
Proof.
  intros (evs & Htr & Hall). exists evs. split; [done|]. intros u t Hin.
  rewrite Forall_forall in Hall. by apply list_elem_of_In, Hall in Hin.
Qed.

(** Fetching the page list of [group_url] requests nothing else. *)
Lemma fetch_page_list_requests E group_url w :
  extends (request_for group_url) w (fetch_page_list E group_url w).2.
Proof.
  change (wp (fetch_page_list E group_url)
             (fun _ w' => extends (request_for group_url) w w') w).
  unfold fetch_page_list, get_image_urls.
  wp_steps; repeat (apply extends_record; [done|]); apply extends_refl.
Qed.

(** Fetching the page list [l] that is served for [group_url]. *)
Lemma fetch_page_list_serves E group_url d l w :
  stdout_ok E -> serves E group_url d -> holds_pages d l -> l <> [] ->
  fetch_page_list E group_url w
  = (Ok (Some (JList l, length l)),
     {| fs := fs w; trace := trace w ++ page_list_fetched group_url l |}).
Proof.
  intros Hso Hserves Hd Hl. unfold fetch_page_list.
  unfold bind at 1. rewrite (print_total _ _ _ _ Hso).
  unfold bind at 1, requests_get.
  destruct (Hserves (length (trace (record (EPrint Stdout
              (FetchingDetails (FStr "https://cubari.moe" group_url ""))) w))))
    as (r & Hr & Hst & Hj).
  unfold details_url in Hr. rewrite Hr.
  unfold bind at 1, raise_for_status. rewrite Hst. unfold ret at 1.
  unfold bind at 1, response_json. rewrite Hj. unfold lift at 1, ret at 1.
  unfold bind at 1. rewrite (print_total _ _ _ _ Hso).
  assert (Hlen : Nat.eqb (length l) 0 = false)
    by (destruct l; [done|reflexivity]).
  destruct Hd as [->|(kv & -> & Hkv)].
  - unfold bind at 1. unfold get_image_urls, ret at 1.
    unfold bind at 1. simpl py_len. unfold lift at 1, ret at 1.
    rewrite Hlen. unfold bind. rewrite (print_total _ _ _ _ Hso).
    unfold ret, page_list_fetched, details_url, record. simpl.
    by rewrite <- !app_assoc.
  - unfold bind at 1. unfold get_image_urls. unfold bind at 1.
    simpl dict_get. rewrite Hkv. unfold lift at 1, ret at 1 2.
    unfold bind at 1. simpl py_len. unfold lift at 1, ret at 1.
    rewrite Hlen. unfold bind. rewrite (print_total _ _ _ _ Hso).
    unfold ret, page_list_fetched, details_url, record. simpl.
    by rewrite <- !app_assoc.
Qed.

Lemma select_group_url_primary E chapter_data groups u w :
  getitem chapter_data "groups" = Ok (JDict groups) ->
  assoc "1" groups = Some u ->
  truthy u = true ->
  select_group_url E chapter_data w = (Ok (Some u), w).
Proof.
  intros Hg Ha Ht. unfold select_group_url, bind, lift.
  rewrite Hg. simpl. rewrite Ha. unfold ret. by rewrite Ht.
Qed.

(** When the value of key '1' is missing or falsy and there is a first
    key, the value of the first key is chosen. *)
Lemma select_group_url_first E chapter_data k u rest v w :
  getitem chapter_data "groups" = Ok (JDict ((k, u) :: rest)) ->
  dict_get (JDict ((k, u) :: rest)) "1" JNull = Ok v ->
  truthy v = false ->
  select_group_url E chapter_data w
  = bind (print E Stdout (UsingFirstGroup k)) (fun _ => ret (Some u))
         (record (EPrint Stderr GroupOneNotFound) w).
Proof.
  intros Hg Hd Ht. unfold select_group_url.
  unfold bind at 1. rewrite Hg. unfold lift at 1, ret at 1.
  unfold bind at 1. rewrite Hd. unfold lift at 1, ret at 1.
  rewrite Ht. cbn [negb].
  unfold bind at 1. rewrite print_stderr.
  unfold bind, lift, ret. simpl. by rewrite String.eqb_refl.
Qed.

Lemma pages_of_chapter_primary E chapter_data groups u :
  getitem chapter_data "groups" = Ok (JDict groups) ->
  assoc "1" groups = Some u ->
  truthy u = true ->
  (forall w, exists evs,
      trace (pages_of_chapter E chapter_data w).2 = trace w ++ evs /\
      requests_only u evs) /\
  (forall d l w,
      stdout_ok E -> serves E u d -> holds_pages d l -> l <> [] ->
      pages_of_chapter E chapter_data w
      = (Ok (Some (JList l, length l)),
         {| fs := fs w; trace := trace w ++ page_list_fetched u l |})).
Proof.
  intros Hg Ha Ht.
  assert (Heq : forall w,
            pages_of_chapter E chapter_data w = fetch_page_list E u w).
  { intros w. unfold pages_of_chapter, bind.
    by rewrite (select_group_url_primary E chapter_data groups u w). }
  split.
  - intros w. rewrite Heq. apply requests_only_of, fetch_page_list_requests.
  - intros d l w Hso Hserves Hd Hl. rewrite Heq.
    by apply (fetch_page_list_serves E u d).
Qed.

Lemma pages_of_chapter_first E chapter_data k u rest v :
  getitem chapter_data "groups" = Ok (JDict ((k, u) :: rest)) ->
  dict_get (JDict ((k, u) :: rest)) "1" JNull = Ok v ->
  truthy v = false ->
  (forall w, exists evs,
      trace (pages_of_chapter E chapter_data w).2 = trace w ++ evs /\
      requests_only u evs) /\
  (forall d l w,
      stdout_ok E -> serves E u d -> holds_pages d l -> l <> [] ->
      pages_of_chapter E chapter_data w
      = (Ok (Some (JList l, length l)),
         {| fs := fs w;
            trace := trace w ++
                     [EPrint Stderr GroupOneNotFound;
                      EPrint Stdout (UsingFirstGroup k)] ++
                     page_list_fetched u l |})).
Proof.
  intros Hg Hd Ht. split.
  - intros w. apply requests_only_of.
    unfold pages_of_chapter, bind.
    rewrite (select_group_url_first E chapter_data k u rest v w Hg Hd Ht).
    unfold bind.
    destruct (print E Stdout (UsingFirstGroup k) _) as [r0 w0] eqn:Hp.
    apply print_cases in Hp as [(-> & -> & _)|(f & _ & _ & -> & ->)].
    + unfold ret. eapply extends_trans; [|apply fetch_page_list_requests].
      apply extends_record; [done|]. apply extends_record; [done|].
      apply extends_refl.
    + simpl. apply extends_record; [done|]. apply extends_refl.
  - intros d l w Hso Hserves Hdoc Hl. unfold pages_of_chapter, bind.
    rewrite (select_group_url_first E chapter_data k u rest v w Hg Hd Ht).
    unfold bind. rewrite (print_total _ _ _ _ Hso). unfold ret.
    rewrite (fetch_page_list_serves E u d l _ Hso Hserves Hdoc Hl).
    simpl. by rewrite <- !app_assoc.
Qed.

(** C4, counterexample.  Key '1' is present, with an empty value, after
    key '2': the page list is requested from the value of key '2'. *)
Lemma C4_counterexample :
  ~ C4_as_stated all_images_env
      (JDict [("groups", JDict [("2", JStr "/b"); ("1", JStr "")])]) start.
Proof.
  intros H.
  specialize (H [("2", JStr "/b"); ("1", JStr "")] (JStr "") eq_refl eq_refl
                (details_url (JStr "/b")) None).
  assert (details_url (JStr "/b") = details_url (JStr "")) as Heq;
    [|discriminate].
  apply H. vm_compute. tauto.
Qed.

(** C4, amended.  From a chapter record whose groups are a mapping: when
    key '1' is present with a value that is not empty, every request is
    for the page list of that value, and, with a standard output that
    refuses nothing, the page list that is served there is the one the
    function goes on with; when key '1' is absent, or present with an
    empty value, and there is a first group, the same holds for the
    value of the first key; when the mapping is empty, the result is the
    early [None] and nothing is requested. *)
Theorem C4_group_selection E chapter_data groups :
  getitem chapter_data "groups" = Ok (JDict groups) ->
  (forall u,
      assoc "1" groups = Some u -> truthy u = true ->
      (forall w, exists evs,
          trace (pages_of_chapter E chapter_data w).2 = trace w ++ evs /\
          requests_only u evs) /\
      (forall d l w,
          stdout_ok E -> serves E u d -> holds_pages d l -> l <> [] ->
          pages_of_chapter E chapter_data w
          = (Ok (Some (JList l, length l)),
             {| fs := fs w; trace := trace w ++ page_list_fetched u l |}))) /\
  (forall k u rest,
      groups = (k, u) :: rest ->
      (assoc "1" groups = None \/
       exists v, assoc "1" groups = Some v /\ truthy v = false) ->
      (forall w, exists evs,
          trace (pages_of_chapter E chapter_data w).2 = trace w ++ evs /\
          requests_only u evs) /\
      (forall d l w,
          stdout_ok E -> serves E u d -> holds_pages d l -> l <> [] ->
          pages_of_chapter E chapter_data w
          = (Ok (Some (JList l, length l)),
             {| fs := fs w;
                trace := trace w ++
                         [EPrint Stderr GroupOneNotFound;
                          EPrint Stdout (UsingFirstGroup k)] ++
                         page_list_fetched u l |}))) /\
  (groups = [] ->
   forall w,
     pages_of_chapter E chapter_data w
     = (Ok None,
        {| fs := fs w;
           trace := trace w ++ [EPrint Stderr GroupOneNotFound;
                                EPrint Stderr NoGroups] |})).
Proof.
  intros Hg. split_and!.
  - intros u Ha Ht. by apply (pages_of_chapter_primary E chapter_data groups).
  - intros k u rest -> [Ha|(v & Ha & Hv)].
    + apply (pages_of_chapter_first E chapter_data k u rest JNull Hg); [|done].
      cbn [dict_get]. by rewrite Ha.
    + apply (pages_of_chapter_first E chapter_data k u rest v Hg); [|done].
      cbn [dict_get]. by rewrite Ha.
  - intros -> w. unfold pages_of_chapter, select_group_url, bind, lift.
    rewrite Hg. simpl. by rewrite <- app_assoc.
Qed.

Lemma C4_witness :
  pages_of_chapter all_images_env
    (JDict [("groups", JDict [("2", JStr "/b"); ("1", JStr "/a")])]) start
  = (Ok (Some (two_pages, 2)),
     {| fs := ∅;
        trace := page_list_fetched (JStr "/a")
                   [JStr "https://img/1"; JStr "https://img/2"] |}) /\
  pages_of_chapter all_images_env
    (JDict [("groups", JDict [("2", JStr "/b")])]) start
  = (Ok (Some (two_pages, 2)),
     {| fs := ∅;
        trace := [EPrint Stderr GroupOneNotFound;
                  EPrint Stdout (UsingFirstGroup "2")] ++
                 page_list_fetched (JStr "/b")
                   [JStr "https://img/1"; JStr "https://img/2"] |}).
Proof.
  split.
  - apply (proj2 (proj1 (C4_group_selection all_images_env
                           (JDict [("groups",
                                    JDict [("2", JStr "/b"); ("1", JStr "/a")])])
                           [("2", JStr "/b"); ("1", JStr "/a")] eq_refl)
                        (JStr "/a") eq_refl eq_refl)
             two_pages [JStr "https://img/1"; JStr "https://img/2"] start).
    + intros t m. reflexivity.
    + intros t. eexists. split_and!; reflexivity.
    + by left.
    + done.
  - apply (proj2 (proj1 (proj2 (C4_group_selection all_images_env
                                  (JDict [("groups", JDict [("2", JStr "/b")])])
                                  [("2", JStr "/b")] eq_refl))
                        "2" (JStr "/b") [] eq_refl (or_introl eq_refl))
             two_pages [JStr "https://img/1"; JStr "https://img/2"] start).
    + intros t m. reflexivity.
    + intros t. eexists. split_and!; reflexivity.
    + by left.
    + done.
Defined.

(** ** A page list without pages (lines 47 to 59) *)

(** Whatever else happens, a page-list document without pages gives no
    page list, no filesystem call and no report of an unexpected type. *)
Lemma fetch_page_list_empty E d group_url w :
  page_list_is E d -> yields_no_pages d ->
  wp (fetch_page_list E group_url)
     (fun res w' => (forall x, res <> Ok (Some x)) /\ extends plain_event w w')
     w.
Proof.
  intros Hpl Hd. unfold fetch_page_list.
  apply wp_bind, wp_print;
    [|intros e _ He; split; [done|apply extends_refl]].
  apply wp_bind, wp_requests_get.
  set (w1 := record (EPrint Stdout _) w).
  destruct (Hpl (length (trace w1)) group_url) as (r & Hr & Hj). rewrite Hr.
  set (w2 := record (EGet _ _) w1).
  assert (H2 : extends plain_event w w2).
  { apply extends_record; [done|]. apply extends_record; [done|].
    apply extends_refl. }
  clearbody w2. clear w1 Hr.
  apply wp_bind, wp_raise_for_status. destruct (is_error_status r); [done|].
  apply wp_bind. unfold response_json. rewrite Hj. apply wp_lift.
  apply wp_bind, wp_print; [|intros e _ He; done].
  set (w3 := record (EPrint Stdout FetchedDetails) w2).
  assert (H3 : extends plain_event w w3) by (by apply extends_record).
  clearbody w3.
  assert (Hdone : wp (bind (lift (py_len (JList [])))
                        (fun total_pages =>
                           if Nat.eqb total_pages 0
                           then bind (print E Stdout NoPages)
                                  (fun _ => ret None)
                           else bind (print E Stdout (FoundPages total_pages))
                                  (fun _ =>
                                     ret (Some (JList [], total_pages)))))
                     (fun res w' =>
                        (forall x, res <> Ok (Some x)) /\
                        extends plain_event w w') w3).
  { apply wp_bind, wp_lift. simpl.
    apply wp_bind, wp_print; [|intros e _ He; done].
    apply wp_ret. split; [done|]. by apply extends_record. }
  destruct Hd as [->|(kv & v & -> & Hv & Hlen)].
  - apply wp_bind. unfold get_image_urls. apply wp_ret. exact Hdone.
  - apply wp_bind. unfold get_image_urls. apply wp_bind, wp_lift.
    rewrite Hv. apply wp_ret.
    apply wp_bind, wp_lift. rewrite Hlen. simpl.
    apply wp_bind, wp_print; [|intros e _ He; done].
    apply wp_ret. split; [done|]. by apply extends_record.
Qed.

(** With a standard output that refuses nothing, the page-list phase of
    a document without pages ends with the error of an error status or
    with the line that says that there are no pages. *)
Lemma fetch_page_list_empty_result E d group_url w :
  stdout_ok E -> page_list_is E d -> yields_no_pages d ->
  let w2 := record (EGet (FStr "https://cubari.moe" group_url "") None)
              (record (EPrint Stdout
                         (FetchingDetails (FStr "https://cubari.moe" group_url "")))
                      w) in
  fetch_page_list E group_url w = (Raise RequestError, w2) \/
  fetch_page_list E group_url w
  = (Ok None, record (EPrint Stdout NoPages)
                (record (EPrint Stdout FetchedDetails) w2)).
Proof.
  intros Hso Hpl Hd w2.
  destruct (Hpl (length (trace (record (EPrint Stdout
              (FetchingDetails (FStr "https://cubari.moe" group_url ""))) w)))
              group_url) as (r & Hr & Hj).
  assert (Hrun : fetch_page_list E group_url w
                 = if is_error_status r then (Raise RequestError, w2)
                   else (Ok None,
                         record (EPrint Stdout NoPages)
                           (record (EPrint Stdout FetchedDetails) w2))).
  { unfold fetch_page_list.
    unfold bind at 1. rewrite (print_total _ _ _ _ Hso).
    unfold bind at 1, requests_get. rewrite Hr. fold w2.
    unfold bind at 1, raise_for_status.
    destruct (is_error_status r); [done|]. unfold ret at 1.
    unfold bind at 1, response_json. rewrite Hj. unfold lift at 1, ret at 1.
    unfold bind at 1. rewrite (print_total _ _ _ _ Hso).
    destruct Hd as [->|(kv & v & -> & Hv & Hlen)].
    - unfold bind at 1. unfold get_image_urls, ret at 1.
      unfold bind at 1. simpl py_len. unfold lift at 1, ret at 1.
      cbn [Nat.eqb]. unfold bind.
      rewrite (print_total _ _ _ _ Hso). done.
    - unfold bind at 1. unfold get_image_urls. unfold bind at 1.
      rewrite Hv. unfold lift at 1, ret at 1 2.
      unfold bind at 1. rewrite Hlen. unfold lift at 1, ret at 1.
      cbn [Nat.eqb]. unfold bind.
      rewrite (print_total _ _ _ _ Hso). done. }
  rewrite Hrun. destruct (is_error_status r); [by left|by right].
Qed.

Lemma select_group_url_plain E chapter_data w :
  wp (select_group_url E chapter_data)
     (fun _ w' => extends plain_event w w') w.
Proof.
  unfold select_group_url.
  wp_steps; repeat (apply extends_record; [done|]); apply extends_refl.
Qed.

Lemma pages_of_chapter_empty E d chapter_data w :
  page_list_is E d -> yields_no_pages d ->
  wp (pages_of_chapter E chapter_data)
     (fun res w' => (forall x, res <> Ok (Some x)) /\ extends plain_event w w')
     w.
Proof.
  intros Hpl Hd. unfold pages_of_chapter. apply wp_bind.
  eapply wp_mono; [|apply select_group_url_plain].
  intros [[group_url|]|e] w1 H1; cbv beta iota; [|done..].
  eapply wp_mono; [|apply (fetch_page_list_empty E d group_url w1 Hpl Hd)].
  intros res w' [Hres Hext]. split; [done|]. by eapply extends_trans.
Qed.

Lemma find_pages_empty E d series_slug chapter_number output_dir w :
  page_list_is E d -> yields_no_pages d ->
  wp (find_pages E series_slug chapter_number output_dir)
     (fun res w' =>
        (forall x, res <> Ok (Some x)) /\
        exists evs,
          trace w' = trace w ++ EFs (Makedirs output_dir) :: evs /\
          Forall plain_event evs) w.
Proof.
  intros Hpl Hd. apply wp_find_pages. intros r1 w1 Hmk.
  apply os_makedirs_cases in Hmk as (Htr & _ & _).
  assert (Hfrom : forall (res : result (option (json * nat))) w',
            (forall x, res <> Ok (Some x)) /\ extends plain_event w1 w' ->
            (forall x, res <> Ok (Some x)) /\
            exists evs,
              trace w' = trace w ++ EFs (Makedirs output_dir) :: evs /\
              Forall plain_event evs).
  { intros res w' [Hres (evs & Htr' & Hall)]. split; [done|].
    exists evs. split; [|done]. rewrite Htr', Htr, <- app_assoc. done. }
  destruct r1 as [[]|e]; [|apply Hfrom; split; [done|apply extends_refl]].
  eapply wp_mono; [exact Hfrom|]. clear Hfrom Htr. cbv zeta.
  wp_steps;
    try (split; [done|repeat (apply extends_record; [done|]);
                      apply extends_refl]).
  eapply wp_mono; [|apply (pages_of_chapter_empty E d _ _ Hpl Hd)].
  intros res w' [Hres Hext]. split; [done|].
  eapply extends_trans; [|exact Hext].
  repeat (apply extends_record; [done|]); apply extends_refl.
Qed.

(** Without pages the function returns [None]; its only filesystem call
    is the [os.makedirs] of the output directory, which is not the
    chapter directory and leaves it and everything below it as it was. *)
Lemma download_chapter_no_pages E d series_slug chapter_number output_dir w :
  let dir := chapter_dir_of series_slug chapter_number output_dir in
  page_list_is E d -> yields_no_pages d ->
  exists w' evs,
    download_chapter E series_slug chapter_number output_dir w = (Ok None, w') /\
    trace w' = trace w ++ EFs (Makedirs output_dir) :: evs /\
    forallb quiet_event evs = true /\
    ~ In (EPrint Stderr UnexpectedType) evs /\
    output_dir <> dir /\
    fs w' !! dir = fs w !! dir /\
    (forall q, under dir q = true -> fs w' !! q = fs w !! q).
Proof.
  intros dir Hpl Hd.
  destruct (find_pages E series_slug chapter_number output_dir w)
    as [r w1] eqn:Hfind.
  pose proof (find_pages_run_effect _ _ _ _ _ _ _ Hfind) as Heff.
  pose proof (find_pages_empty E d series_slug chapter_number output_dir w
                Hpl Hd) as Hempty.
  unfold wp in Hempty. rewrite Hfind in Hempty. simpl in Hempty.
  destruct Hempty as [Hres (evs1 & Htr1 & Hall1)].
  destruct (download_chapter_early _ _ _ _ _ _ _ Hfind Hres)
    as (w' & evs2 & Hrun & Hfs & Htr & Hq2).
  assert (Hplain2 : Forall plain_event evs2).
  { unfold download_chapter, try_except, download_chapter_body, bind in Hrun.
    rewrite Hfind in Hrun. destruct r as [[x|]|e].
    - by destruct (Hres x).
    - injection Hrun as <-. rewrite <- (app_nil_r (trace w1)) in Htr at 1.
      apply app_inv_head in Htr as <-. constructor.
    - destruct (outer_handler_catches E e) as (m & Hm & Hh).
      rewrite Hh in Hrun. injection Hrun as <-. simpl in Htr.
      apply app_inv_head in Htr as <-.
      constructor; [|constructor].
      by destruct Hm as [<-|[<-|[<-|[]]]]. }
  exists w', (evs1 ++ evs2). split_and!.
  - done.
  - rewrite Htr, Htr1, <- app_assoc. done.
  - rewrite forallb_app, Hq2, andb_true_r. apply forallb_forall.
    intros ev Hin. rewrite Forall_forall in Hall1.
    by apply list_elem_of_In, Hall1 in Hin as [? _].
  - intros Hin. apply in_app_iff in Hin as [Hin|Hin].
    + rewrite Forall_forall in Hall1.
      by apply list_elem_of_In, Hall1 in Hin as [_ ?].
    + rewrite Forall_forall in Hplain2.
      by apply list_elem_of_In, Hplain2 in Hin as [_ ?].
  - intros Heqd.
    pose proof (chapter_dir_longer series_slug chapter_number output_dir) as Hl.
    fold dir in Hl. rewrite <- Heqd in Hl. lia.
  - rewrite Hfs.
    apply (metadata_keeps_chapter_dir series_slug chapter_number output_dir
             w w1 dir Heff). unfold dir. lia.
  - intros q Hq. rewrite Hfs.
    apply (metadata_keeps_chapter_dir series_slug chapter_number output_dir
             w w1 q Heff).
    apply under_longer in Hq. unfold dir in Hq. lia.
Qed.

(** C7.  When the page-list document yields no page, [download_chapter]
    returns [None]; besides making the output directory it does nothing
    to the filesystem, so no chapter directory is made and none is
    there afterwards that was not there before. *)
Theorem C7_empty_page_list E d series_slug chapter_number output_dir w :
  let dir := chapter_dir_of series_slug chapter_number output_dir in
  page_list_is E d -> yields_no_pages d ->
  exists w' evs,
    download_chapter E series_slug chapter_number output_dir w = (Ok None, w') /\
    trace w' = trace w ++ EFs (Makedirs output_dir) :: evs /\
    forallb quiet_event evs = true /\
    output_dir <> dir /\
    fs w' !! dir = fs w !! dir /\
    (forall q, under dir q = true -> fs w' !! q = fs w !! q).
Proof.
  intros dir Hpl Hd.
  destruct (download_chapter_no_pages E d series_slug chapter_number output_dir
              w Hpl Hd) as (w' & evs & H1 & H2 & H3 & _ & H4).
  by exists w', evs.
Qed.

(** C10.  A page-list document that is a mapping without the key
    "pages" is read as the empty page list, exactly as the empty list
    document is, not as a document of unexpected type: the function
    returns [None], no chapter directory is made and the line about an
    unexpected type is not printed; with a standard output that refuses
    nothing, the page-list phase ends with the line that says that there
    are no pages (or with the error of an error status). *)
Theorem C10_missing_pages_key E kv series_slug chapter_number output_dir w :
  let dir := chapter_dir_of series_slug chapter_number output_dir in
  page_list_is E (JDict kv) -> assoc "pages" kv = None ->
  (forall w0, get_image_urls E (JDict kv) w0 = (Ok (Some (JList [])), w0) /\
              get_image_urls E (JList []) w0 = (Ok (Some (JList [])), w0)) /\
  (stdout_ok E ->
   forall group_url w0,
     let w2 := record (EGet (FStr "https://cubari.moe" group_url "") None)
                 (record (EPrint Stdout
                            (FetchingDetails
                               (FStr "https://cubari.moe" group_url ""))) w0) in
     fetch_page_list E group_url w0 = (Raise RequestError, w2) \/
     fetch_page_list E group_url w0
     = (Ok None, record (EPrint Stdout NoPages)
                   (record (EPrint Stdout FetchedDetails) w2))) /\
  exists w' evs,
    download_chapter E series_slug chapter_number output_dir w = (Ok None, w') /\
    trace w' = trace w ++ EFs (Makedirs output_dir) :: evs /\
    forallb quiet_event evs = true /\
    ~ In (EPrint Stderr UnexpectedType) evs /\
    output_dir <> dir /\
    fs w' !! dir = fs w !! dir /\
    (forall q, under dir q = true -> fs w' !! q = fs w !! q).
Proof.
  intros dir Hpl Hkey.
  assert (Hd : yields_no_pages (JDict kv)).
  { right. exists kv, (JList []). simpl. by rewrite Hkey. }
  split_and!.
  - intros w0. unfold get_image_urls, bind, lift. simpl. by rewrite Hkey.
  - intros Hso group_url w0.
    by apply (fetch_page_list_empty_result E (JDict kv)).
  - by apply (download_chapter_no_pages E (JDict kv)).
Qed.

Lemma C7_witness :
  exists w',
    download_chapter empty_list_env "one-piece" "5" "out" start = (Ok None, w') /\
    fs w' !! "out/one-piece_Chapter_5" = None.
Proof.
  destruct (C7_empty_page_list empty_list_env (JList []) "one-piece" "5" "out"
              start)
    as (w' & evs & Hrun & _ & _ & _ & Hdir & _).
  - intros t group_url. eexists. split; reflexivity.
  - by left.
  - exists w'. split; [exact Hrun|]. exact (eq_trans Hdir eq_refl).
Defined.

Lemma C10_witness :
  exists w',
    download_chapter no_pages_key_env "one-piece" "5" "out" start
    = (Ok None, w') /\
    fs w' !! "out/one-piece_Chapter_5" = None.
Proof.
  destruct (C10_missing_pages_key no_pages_key_env [("title", JStr "Chapter 5")]
              "one-piece" "5" "out" start)
    as (_ & _ & w' & evs & Hrun & _ & _ & _ & _ & Hdir & _).
  - intros t group_url. eexists. split; reflexivity.
  - reflexivity.
  - exists w'. split; [exact Hrun|]. exact (eq_trans Hdir eq_refl).
Defined.

Lemma C5_witness :
  infer_extension (Some "image/webp") = "webp" /\
  infer_extension (Some "image/jpeg") = "jpg" /\
  infer_extension (Some "text/html") = "png".
Proof.
  destruct C5_extension_from_content_type
    as (_ & Hjpg & _ & Hwebp & _ & Hother & _).
  split; [|split].
  - apply Hwebp; reflexivity.
  - apply Hjpg. left. reflexivity.
  - apply Hother; reflexivity.
Defined.

Lemma C8_witness :
  exists w',
    download_chapter offline_env "one-piece" "5" "" start = (Ok None, w').
Proof.
  destruct (C8_no_exception_escapes offline_env "one-piece" "5" "" start)
    as (v & w' & Hrun & Hbody).
  destruct (Hbody OSError
              (download_chapter_body offline_env "one-piece" "5" "" start).2)
    as [-> _]; [by vm_compute|].
  exists w'. exact Hrun.
Defined.

(** ** The entry point (lines 126 to 144) *)





(** * Beyond the claims

    Properties of the same code that the claims do not state: what a run
    may and may not do to the filesystem and the network, what it keeps,
    and how each early failure is reported. *)

(** ** The shape of every call *)

(** A property of every call: it is enough that it holds after the lines
    before the chapter directory, after the lines from the chapter
    directory on, and after the report of an exception. *)
Lemma wp_download_chapter E series_slug chapter_number output_dir
    (Q : result (option string) -> world -> Prop) w :
  wp (find_pages E series_slug chapter_number output_dir)
     (fun r w1 =>
        match r with
        | Ok (Some (image_urls, total_pages)) =>
            wp (download_into E series_slug chapter_number output_dir
                  image_urls total_pages)
               (fun r' w2 =>
                  match r' with
                  | Ok a => Q (Ok a) w2
                  | Raise e =>
                      forall m,
                        In m [NetworkError e; DataStructureError e;
                              UnexpectedError e] ->
                        Q (Ok None) (record (EPrint Stderr m) w2)
                  end) w1
        | Ok None => Q (Ok None) w1
        | Raise e =>
            forall m,
              In m [NetworkError e; DataStructureError e; UnexpectedError e] ->
              Q (Ok None) (record (EPrint Stderr m) w1)
        end) w ->
  wp (download_chapter E series_slug chapter_number output_dir) Q w.
Proof.
  unfold wp, download_chapter, try_except, download_chapter_body, bind.
  destruct (find_pages E series_slug chapter_number output_dir w)
    as [[[[image_urls n]|]|e] w1]; simpl.
  - destruct (download_into E series_slug chapter_number output_dir
                image_urls n w1) as [[a|e] w2]; simpl; [done|].
    intros H. destruct (outer_handler_catches E e) as (m & Hm & ->). by apply H.
  - done.
  - intros H. destruct (outer_handler_catches E e) as (m & Hm & ->). by apply H.
Qed.

(** ** Every event of a call *)

Lemma infer_extension_known content_type :
  known_extension (infer_extension content_type).
Proof.
  unfold infer_extension, known_extension.
  destruct content_type as [ct|]; [|tauto].
  destruct (negb _); [|tauto].
  destruct (_ || _); [tauto|].
  destruct (contains "png" ct); [tauto|].
  destruct (contains "webp" ct); [tauto|].
  destruct (contains "gif" ct); tauto.
Qed.

Ltac solve_allowed :=
  simpl;
  first [ done
        | split; [done|]; first [ by left | right; by eexists ]
        | by left | by right ].

Lemma find_pages_events E series_slug chapter_number output_dir w :
  wp (find_pages E series_slug chapter_number output_dir)
     (fun _ w' =>
        extends (allowed_event series_slug chapter_number output_dir) w w') w.
Proof.
  apply wp_find_pages. intros r1 w1 Hmk.
  apply os_makedirs_cases in Hmk as (Htr & _ & _).
  assert (Hbase : extends (allowed_event series_slug chapter_number output_dir)
                    w w1).
  { eapply extends_step; [exact Htr|]. constructor; [by left|constructor]. }
  destruct r1 as [[]|e]; [|done]. cbv zeta.
  unfold pages_of_chapter, select_group_url, fetch_page_list, get_image_urls.
  wp_steps; repeat (apply extends_record; [solve_allowed|]); done.
Qed.

Lemma download_pages_events E series_slug chapter_number output_dir total
    image_urls :
  forall page acc w res w',
    1 <= page ->
    download_pages E (chapter_dir_of series_slug chapter_number output_dir)
      total page image_urls acc w = (res, w') ->
    extends (allowed_event series_slug chapter_number output_dir) w w'.
Proof.
  induction image_urls as [|proxy_url rest IH]; intros page acc w res w' Hpage Hrun.
  - inversion Hrun; subst. apply extends_refl.
  - apply download_pages_step in Hrun
      as [(f & _ & -> & ->)|(_ & r1 & w1 & Hstep & Hrun)];
      [apply extends_refl|].
    set (w0 := record _ w) in Hstep.
    assert (H0 : extends (allowed_event series_slug chapter_number output_dir)
                   w w0) by (apply extends_record; [done|apply extends_refl]).
    assert (Hfile : forall r,
              allowed_event series_slug chapter_number output_dir
                (EFs (OpenWrite
                        (page_path (chapter_dir_of series_slug chapter_number
                                      output_dir) page r)))).
    { intros r. simpl. eexists page, _. split; [done|].
      split; [apply infer_extension_known|done]. }
    apply page_step_cases in Hstep
      as [(r & _ & _ & _ & -> & _ & Htr)
         |[(-> & _ & _ & m & Hm & Htr)
          |Habort]].
    + eapply extends_trans; [|eapply (IH (S page)); [lia|exact Hrun]].
      eapply extends_trans; [exact H0|]. eapply extends_step; [exact Htr|].
      repeat constructor. apply Hfile.
    + eapply extends_trans; [|eapply (IH (S page)); [lia|exact Hrun]].
      eapply extends_trans; [exact H0|]. eapply extends_step; [exact Htr|].
      destruct Hm as [e [-> | ->]]; by repeat constructor.
    + apply page_aborted_summary in Habort
        as (e & evs & -> & _ & Htr & Hevs & _).
      destruct Hrun as [-> ->]. eapply extends_trans; [exact H0|].
      eapply extends_step; [exact Htr|].
      destruct Hevs as [->|(r & _ & _ & ->)]; repeat constructor. apply Hfile.
Qed.

Lemma remove_empty_dir_events E series_slug chapter_number output_dir w res w' :
  remove_empty_dir E (chapter_dir_of series_slug chapter_number output_dir) w
  = (res, w') ->
  extends (allowed_event series_slug chapter_number output_dir) w w'.
Proof.
  intros Hrm. apply remove_empty_dir_cases in Hrm
    as [(_ & _ & _ & _ & Htr)
       |[(_ & _ & _ & Htr)
        |(_ & _ & _ & t & [(_ & _ & Htr)|(_ & _ & Htr)])]];
    (eapply extends_step; [exact Htr|]); by repeat constructor.
Qed.

Lemma download_into_events E series_slug chapter_number output_dir
    image_urls total_pages w res w' :
  download_into E series_slug chapter_number output_dir image_urls
    total_pages w = (res, w') ->
  extends (allowed_event series_slug chapter_number output_dir) w w'.
Proof.
  intros Hrun. apply download_into_cases in Hrun.
  set (dir := chapter_dir_of series_slug chapter_number output_dir) in *.
  assert (Hopen : extends (allowed_event series_slug chapter_number output_dir)
                    w (opened dir w)).
  { eapply extends_step; [simpl; by rewrite <- app_assoc|].
    constructor; [by right|]. by repeat constructor. }
  destruct Hrun as [(_ & _ & Htr & _)
                   |(_ & _ & [(e & _ & _ & ->)|[(t & f & _ & _ & ->)|Hrun]])].
  - eapply extends_step; [exact Htr|]. constructor; [by right|constructor].
  - done.
  - eapply extends_step; [done|]. constructor; [by right|constructor].
  - destruct Hrun as (pages & lres & w2 & _ & Hloop & Hend).
    apply download_pages_events in Hloop; [|done].
    eapply extends_trans; [exact Hopen|].
    destruct Hend as [(e & _ & _ & ->)
                     |[(files & _ & _ & _ & ->)
                      |[(_ & _ & Hrm)
                       |[(files & t & f & _ & _ & _ & _ & ->)
                        |(e & _ & _ & Hrm)]]]].
    + done.
    + by apply extends_record.
    + eapply extends_trans; [exact Hloop|].
      eapply extends_trans; [|eapply remove_empty_dir_events, Hrm].
      apply extends_record; [done|apply extends_refl].
    + done.
    + eapply extends_trans; [exact Hloop|].
      eapply extends_trans; [|eapply remove_empty_dir_events, Hrm].
      apply extends_record; [done|apply extends_refl].
Qed.

Lemma download_chapter_events E series_slug chapter_number output_dir w :
  extends (allowed_event series_slug chapter_number output_dir) w
    (download_chapter E series_slug chapter_number output_dir w).2.
Proof.
  change (wp (download_chapter E series_slug chapter_number output_dir)
             (fun _ w' =>
                extends (allowed_event series_slug chapter_number output_dir)
                  w w') w).
  apply wp_download_chapter.
  eapply wp_mono; [|apply find_pages_events].
  intros r w1 H1. destruct r as [[[image_urls n]|]|e].
  - apply wp_of_run. intros r' w2 Hrun.
    apply download_into_events in Hrun.
    assert (H2 : extends (allowed_event series_slug chapter_number output_dir)
                   w w2) by (by eapply extends_trans).
    destruct r' as [a|e]; [done|].
    intros m [<-|[<-|[<-|[]]]]; by apply extends_record.
  - done.
  - intros m [<-|[<-|[<-|[]]]]; by apply extends_record.
Qed.

(** X1.  The filesystem calls of a call of [download_chapter], whatever
    the collaborators do, are: making the output directory, making the
    chapter directory, writing a file named page_, a page number from 1
    on, a dot and one of the four known extensions directly in the
    chapter directory, and removing the chapter directory. *)
Theorem X1_filesystem_footprint E series_slug chapter_number output_dir w :
  let dir := chapter_dir_of series_slug chapter_number output_dir in
  exists evs,
    trace (download_chapter E series_slug chapter_number output_dir w).2
    = trace w ++ evs /\
    forall op, In (EFs op) evs ->
      op = Makedirs output_dir \/ op = Makedirs dir \/ op = Rmdir dir \/
      exists page ext,
        1 <= page /\
        (ext = "jpg" \/ ext = "png" \/ ext = "webp" \/ ext = "gif") /\
        op = OpenWrite
               (path_join dir ("page_" +:+ format_03d page +:+ "." +:+ ext)).
Proof.
  intros dir.
  destruct (download_chapter_events E series_slug chapter_number output_dir w)
    as (evs & Htr & Hall).
  exists evs. split; [done|]. intros op Hin.
  rewrite Forall_forall in Hall. apply list_elem_of_In, Hall in Hin.
  destruct op as [p|p|p]; simpl in Hin.
  - destruct Hin as [-> | ->]; auto.
  - destruct Hin as (page & ext & Hpage & Hext & ->). right. right. right.
    by exists page, ext.
  - subst p. auto.
Qed.

Lemma X1_witness :
  exists evs,
    trace (download_chapter no_image_env "one-piece" "5" "out" start).2
    = trace start ++ evs /\
    forall op, In (EFs op) evs ->
      op = Makedirs "out" \/ op = Makedirs "out/one-piece_Chapter_5" \/
      op = Rmdir "out/one-piece_Chapter_5" \/
      exists page ext,
        1 <= page /\
        (ext = "jpg" \/ ext = "png" \/ ext = "webp" \/ ext = "gif") /\
        op = OpenWrite
               (path_join "out/one-piece_Chapter_5"
                          ("page_" +:+ format_03d page +:+ "." +:+ ext)).
Proof.
  exact (X1_filesystem_footprint no_image_env "one-piece" "5" "out" start).
Defined.

(** X2.  The requests of a call of [download_chapter] are: the series
    document and a page-list document, both without a timeout, and page
    images, each with a timeout of 30. *)
Theorem X2_request_discipline E series_slug chapter_number output_dir w :
  exists evs,
    trace (download_chapter E series_slug chapter_number output_dir w).2
    = trace w ++ evs /\
    forall u t, In (EGet u t) evs ->
      (u = FStr "https://cubari.moe/read/api/weebcentral/series/"
                (JStr series_slug) "/" /\ t = None) \/
      (exists group_url, u = FStr "https://cubari.moe" group_url "" /\ t = None) \/
      (exists proxy_url, u = Val proxy_url /\ t = Some 30%Z).
Proof.
  destruct (download_chapter_events E series_slug chapter_number output_dir w)
    as (evs & Htr & Hall).
  exists evs. split; [done|]. intros u t Hin.
  rewrite Forall_forall in Hall. apply list_elem_of_In, Hall in Hin.
  destruct u as [pre g suf|v]; simpl in Hin.
  - destruct Hin as [-> [Hs|[g' Hd]]]; [left|right; left].
    + by rewrite Hs.
    + exists g'. by rewrite Hd.
  - right. right. by exists v.
Qed.

Lemma X2_witness :
  exists evs,
    trace (download_chapter all_images_env "one-piece" "5" "out" start).2
    = trace start ++ evs /\
    forall u t, In (EGet u t) evs -> t = None \/ t = Some 30%Z.
Proof.
  destruct (X2_request_discipline all_images_env "one-piece" "5" "out" start)
    as (evs & Htr & Hreq).
  exists evs. split; [exact Htr|]. intros u t Hin.
  destruct (Hreq u t Hin) as [[_ ->]|[(g & _ & ->)|(v & _ & ->)]]; auto.
Defined.

(** ** What a call keeps *)

Lemma find_pages_keeps E series_slug chapter_number output_dir w :
  wp (find_pages E series_slug chapter_number output_dir)
     (fun _ w' => forall q n, fs w !! q = Some n -> fs w' !! q = Some n) w.
Proof.
  apply wp_find_pages. intros r1 w1 Hmk.
  apply os_makedirs_cases in Hmk as (_ & Heff & _).
  assert (Hkeep : forall q n, fs w !! q = Some n -> fs w1 !! q = Some n)
    by (intros q n Hq; by eapply makedirs_effect_kept).
  destruct r1 as [[]|e]; [|done]. cbv zeta.
  unfold pages_of_chapter, select_group_url, fetch_page_list, get_image_urls.
  wp_steps; done.
Qed.

Lemma remove_empty_dir_fs E d w res w' :
  remove_empty_dir E d w = (res, w') ->
  fs w' = fs w \/
  (fs w !! d = Some Dir /\ has_entry_under (fs w) d = false /\
   fs w' = delete d (fs w)).
Proof.
  intros Hrm. apply remove_empty_dir_cases in Hrm
    as [(_ & ? & ? & ? & _)|[(_ & ? & _)|(? & ? & ? & _)]]; auto.
Qed.

Lemma download_into_keeps E series_slug chapter_number output_dir
    image_urls total_pages w res w' q n :
  let dir := chapter_dir_of series_slug chapter_number output_dir in
  download_into E series_slug chapter_number output_dir image_urls
    total_pages w = (res, w') ->
  fs w !! q = Some n ->
  q <> dir ->
  (forall page ext, q <> path_join dir (page_file_name page ext)) ->
  fs w' !! q = Some n.
Proof.
  intros dir Hrun Hq Hdir Hpage. apply download_into_cases in Hrun.
  fold dir in Hrun.
  destruct Hrun as [(_ & Heff & _)
                   |(Hway & _ & [(e & _ & _ & ->)|[(t & f & _ & _ & ->)|Hrun]])].
  - by eapply makedirs_effect_kept.
  - simpl. by apply made_dirs_kept.
  - simpl. by apply made_dirs_kept.
  - destruct Hrun as (pages & lres & w2 & _ & Hloop & Hend).
    destruct (download_pages_facts _ _ _ _ _ _ _ _ _ Hloop)
      as (evs2 & _ & _ & _ & _ & _ & H6 & _).
    assert (Hw2 : fs w2 !! q = Some n).
    { rewrite H6; [simpl; by apply made_dirs_kept|].
      intros i ext _. apply Hpage. }
    destruct Hend as [(e & _ & _ & ->)
                     |[(files & _ & _ & _ & ->)
                      |[(_ & _ & Hrm)
                       |[(files & t & f & _ & _ & _ & _ & ->)
                        |(e & _ & _ & Hrm)]]]];
      try done;
      apply remove_empty_dir_fs in Hrm as [->|(_ & _ & ->)]; simpl;
      try done; by rewrite lookup_delete_ne.
Qed.

(** X3.  Whatever the collaborators do, a call of [download_chapter]
    keeps every entry of the filesystem that is neither the chapter
    directory itself nor a page file directly in it: no other file is
    overwritten or removed, no other directory is removed. *)
Theorem X3_other_entries_kept E series_slug chapter_number output_dir w q n :
  let dir := chapter_dir_of series_slug chapter_number output_dir in
  fs w !! q = Some n ->
  q <> dir ->
  (forall page ext,
      q <> path_join dir ("page_" +:+ format_03d page +:+ "." +:+ ext)) ->
  fs (download_chapter E series_slug chapter_number output_dir w).2 !! q
  = Some n.
Proof.
  intros dir Hq Hdir Hpage.
  change (wp (download_chapter E series_slug chapter_number output_dir)
             (fun _ w' => fs w' !! q = Some n) w).
  apply wp_download_chapter.
  eapply wp_mono; [|apply find_pages_keeps].
  intros r w1 H1. specialize (H1 q n Hq).
  destruct r as [[[image_urls k]|]|e]; [|done|done].
  apply wp_of_run. intros r' w2 Hrun.
  assert (fs w2 !! q = Some n) by (by eapply download_into_keeps).
  by destruct r'.
Qed.

Lemma X3_witness :
  fs (download_chapter all_images_env "one-piece" "5" "out"
        {| fs := {["out/one-piece_Chapter_5/notes.txt" := File []]};
           trace := [] |}).2
  !! "out/one-piece_Chapter_5/notes.txt"
  = Some (File []).
Proof.
  apply X3_other_entries_kept.
  - reflexivity.
  - done.
  - intros page ext H. vm_compute in H. discriminate.
Defined.

(** ** The loop once more: order, contents, requests *)

Lemma page_requests_app evs1 evs2 :
  page_requests (evs1 ++ evs2) = page_requests evs1 ++ page_requests evs2.
Proof.
  induction evs1 as [|ev evs1 IH]; [done|].
  destruct ev as [| [] |]; simpl; by rewrite ?IH.
Qed.

Lemma download_pages_order E dir total image_urls :
  forall page acc w res w' evs,
    download_pages E dir total page image_urls acc w = (res, w') ->
    trace w' = trace w ++ evs ->
    StronglySorted lt (map fst (saved_pages evs)) /\
    Forall (holds_served_bytes E dir page image_urls (fs w')) (saved_pages evs) /\
    (exists rest, image_urls = page_requests evs ++ rest) /\
    (forall files, res = Ok files -> page_requests evs = image_urls).
Proof.
  induction image_urls as [|proxy_url rest IH];
    intros page acc w res w' evs Hrun Htr.
  - inversion Hrun; subst.
    assert (evs = []) as ->.
    { apply (app_inv_head (trace w')). by rewrite app_nil_r. }
    simpl. split_and!; [constructor|constructor|by exists []|done].
  - apply download_pages_step in Hrun
      as [(f & _ & -> & ->)|(_ & r1 & w1 & Hstep & Hrun)].
    { assert (evs = []) as ->.
      { apply (app_inv_head (trace w)). by rewrite app_nil_r. }
      simpl. split_and!; [constructor|constructor|by exists (proxy_url :: rest)|done]. }
    set (w0 := record _ w) in Hstep.
    apply page_step_cases in Hstep
      as [(r & Hget & Hst & Hnd & -> & Hfs & Htr1)
         |[(-> & Hfs & _ & m & Hm & Htr1)
          |Hab]].
    + destruct (download_pages_facts _ _ _ _ _ _ _ _ _ Hrun)
        as (evs2 & Htr2 & _ & Hbound & _ & _ & Hsame & _).
      destruct (IH (S page) _ _ _ _ evs2 Hrun Htr2)
        as (Hsorted & Hbytes & [tail Htail] & Hall).
      assert (evs = [EPrint Stdout (DownloadingPage page total proxy_url);
                     EGet (Val proxy_url) (Some 30%Z);
                     EFs (OpenWrite (page_path dir page r));
                     EPrint Stdout (SavedPage page (page_path dir page r))]
                    ++ evs2) as ->.
      { apply (app_inv_head (trace w)). rewrite <- Htr, Htr2, Htr1.
        unfold w0. simpl. by rewrite <- !app_assoc. }
      rewrite Forall_forall in Hbound.
      simpl. split_and!.
      * constructor; [done|]. apply Forall_forall. intros i Hi.
        apply list_elem_of_In, in_map_iff in Hi as ([j q] & <- & Hin).
        apply list_elem_of_In, Hbound in Hin. simpl in *. lia.
      * constructor.
        -- exists proxy_url, (length (trace w0)), r. simpl.
           rewrite Nat.sub_diag. split_and!; try done.
           rewrite Hsame.
           ++ rewrite Hfs. apply lookup_insert_eq.
           ++ intros i ext Hi Hq. unfold page_path in Hq.
              apply page_path_inj in Hq. lia.
        -- eapply Forall_impl; [exact Hbytes|].
           intros [i q] (u & t & r' & Hi & Hu & Hrest). simpl in *.
           exists u, t, r'. simpl. split; [lia|]. split; [|done].
           replace (i - page) with (S (i - S page)) by lia. done.
      * exists tail. by rewrite Htail at 1.
      * intros files Hres. by rewrite (Hall files Hres).
    + destruct (download_pages_facts _ _ _ _ _ _ _ _ _ Hrun)
        as (evs2 & Htr2 & _).
      destruct (IH (S page) _ _ _ _ evs2 Hrun Htr2)
        as (Hsorted & Hbytes & [tail Htail] & Hall).
      assert (evs = [EPrint Stdout (DownloadingPage page total proxy_url);
                     EGet (Val proxy_url) (Some 30%Z);
                     EPrint Stderr m] ++ evs2) as ->.
      { apply (app_inv_head (trace w)). rewrite <- Htr, Htr2, Htr1.
        unfold w0. simpl. by rewrite <- !app_assoc. }
      assert (Hs : saved_pages
                ([EPrint Stdout (DownloadingPage page total proxy_url);
                  EGet (Val proxy_url) (Some 30%Z);
                  EPrint Stderr m] ++ evs2) = saved_pages evs2) by done.
      rewrite Hs. simpl. split_and!.
      * done.
      * eapply Forall_impl; [exact Hbytes|].
        intros [i q] (u & t & r' & Hi & Hu & Hrest). simpl in *.
        exists u, t, r'. simpl. split; [lia|]. split; [|done].
        replace (i - page) with (S (i - S page)) by lia. done.
      * exists tail. by rewrite Htail at 1.
      * intros files Hres. by rewrite (Hall files Hres).
    + apply page_aborted_summary in Hab
        as (e & evs1 & -> & _ & Htr1 & Hevs & _).
      destruct Hrun as [-> ->].
      assert (evs = EPrint Stdout (DownloadingPage page total proxy_url)
                    :: evs1) as ->.
      { apply (app_inv_head (trace w)). rewrite <- Htr, Htr1.
        unfold w0. simpl. by rewrite <- !app_assoc. }
      assert (saved_pages
                (EPrint Stdout (DownloadingPage page total proxy_url) :: evs1)
              = [] /\
              page_requests
                (EPrint Stdout (DownloadingPage page total proxy_url) :: evs1)
              = [proxy_url]) as [Hs Hp].
      { by destruct Hevs as [->|(r & _ & _ & ->)]. }
      rewrite Hs, Hp. split_and!; [constructor|constructor|by exists rest|done].
Qed.

Lemma saved_pages_report e m :
  In m [NetworkError e; DataStructureError e; UnexpectedError e] ->
  saved_pages [EPrint Stderr m] = [] /\ page_requests [EPrint Stderr m] = [].
Proof. by intros [<-|[<-|[<-|[]]]]. Qed.

(** What the removal of the chapter directory adds to a run. *)
Lemma remove_empty_dir_post E d w res w' :
  remove_empty_dir E d w = (res, w') ->
  exists post,
    trace w' = trace w ++ post /\
    saved_pages post = [] /\ page_requests post = [] /\
    (fs w' = fs w \/ fs w' = delete d (fs w)).
Proof.
  intros Hrm. apply remove_empty_dir_cases in Hrm
    as [(_ & _ & _ & Hfs & Htr)
       |[(_ & Hfs & _ & Htr)
        |(_ & _ & Hfs & t & [(_ & _ & Htr)|(_ & _ & Htr)])]];
    eexists; (split; [exact Htr|]); auto.
Qed.

(** A call that found a page list either fails before the loop, with
    nothing saved and no page requested, or runs the loop and adds events
    that save and request nothing. *)
Lemma download_chapter_loop_run E series_slug chapter_number output_dir w
    image_urls total_pages w1 pages :
  let dir := chapter_dir_of series_slug chapter_number output_dir in
  let run := download_chapter E series_slug chapter_number output_dir w in
  find_pages E series_slug chapter_number output_dir w
  = (Ok (Some (image_urls, total_pages)), w1) ->
  py_iter image_urls = Ok pages ->
  (run.1 = Ok None /\
   exists post,
     trace run.2 = trace w1 ++ post /\
     saved_pages post = [] /\ page_requests post = []) \/
  exists lres w2 evs2 post,
    download_pages E dir total_pages 1 pages [] (opened dir w1) = (lres, w2) /\
    trace w2 = trace (opened dir w1) ++ evs2 /\
    trace run.2 = trace w2 ++ post /\
    saved_pages post = [] /\ page_requests post = [] /\
    (fs run.2 = fs w2 \/ (saved_pages evs2 = [] /\ fs run.2 = delete dir (fs w2))) /\
    (forall p, run.1 = Ok (Some p) -> exists files, lres = Ok files).
Proof.
  intros dir run Hfind Hiter. subst run.
  rewrite (download_chapter_found _ _ _ _ _ _ _ _ Hfind). unfold try_except.
  destruct (download_into E series_slug chapter_number output_dir image_urls
              total_pages w1) as [res w'] eqn:Hrun.
  apply download_into_cases in Hrun. fold dir in Hrun.
  destruct Hrun as [(-> & _ & Htr & _)
                   |(_ & _ & [(e & He & _)|[(t & f & _ & -> & ->)|Hrun]])];
    [|congruence| |].
  { left. simpl. split; [done|].
    exists [EFs (Makedirs dir); EPrint Stderr (UnexpectedError OSError)].
    rewrite Htr, <- app_assoc. done. }
  { left. destruct (outer_handler_catches E (print_exn f)) as (m & Hm & ->).
    destruct (saved_pages_report _ m Hm) as [Hs Hp]. simpl.
    split; [done|]. exists [EFs (Makedirs dir); EPrint Stderr m].
    rewrite <- app_assoc. done. }
  right. destruct Hrun as (pages' & lres & w2 & Hiter' & Hloop & Hend).
  assert (pages' = pages) as -> by congruence.
  destruct (download_pages_facts _ _ _ _ _ _ _ _ _ Hloop)
    as (evs2 & Htr2 & Hfiles & _).
  exists lres, w2, evs2.
  destruct Hend as [(e & -> & -> & ->)
                   |[(files & -> & Hne & -> & ->)
                    |[(-> & -> & Hrm)
                     |[(files & t & f & -> & Hne & _ & -> & ->)
                      |(e & -> & -> & Hrm)]]]].
  - destruct (outer_handler_catches E e) as (m & Hm & ->).
    destruct (saved_pages_report e m Hm) as [Hs Hp].
    exists [EPrint Stderr m]. simpl. split_and!; try done. by left.
  - exists [EPrint Stdout (Downloaded (length files) total_pages dir)].
    simpl. split_and!; try done; [by left|eauto].
  - specialize (Hfiles [] eq_refl). simpl in Hfiles.
    assert (Hnil : saved_pages evs2 = [])
      by (by destruct (saved_pages evs2)).
    apply remove_empty_dir_post in Hrm as (post & Htr & Hs & Hp & Hfs).
    exists (EPrint Stderr FailedAllPages :: post). simpl.
    split_and!; try done.
    + rewrite Htr. simpl. by rewrite <- app_assoc.
    + destruct Hfs as [Hfs|Hfs]; [by left|by right].
  - destruct (outer_handler_catches E (print_exn f)) as (m & Hm & ->).
    destruct (saved_pages_report _ m Hm) as [Hs Hp].
    exists [EPrint Stderr m]. simpl. split_and!; try done. by left.
  - specialize (Hfiles [] eq_refl). simpl in Hfiles.
    assert (Hnil : saved_pages evs2 = [])
      by (by destruct (saved_pages evs2)).
    apply remove_empty_dir_post in Hrm as (post & Htr & Hs & Hp & Hfs).
    destruct (outer_handler_catches E e) as (m & Hm & ->).
    destruct (saved_pages_report e m Hm) as [Hs' Hp'].
    exists (EPrint Stderr FailedAllPages :: post ++ [EPrint Stderr m]). simpl.
    rewrite saved_pages_app, page_requests_app, Hs, Hp.
    split_and!; try done.
    + rewrite Htr. simpl. by rewrite <- !app_assoc.
    + destruct Hfs as [Hfs|Hfs]; [by left|by right].
Qed.

(** X4.  In a call that found the page list [pages], the pages reported
    as saved carry strictly increasing page numbers, and at the end the
    file of saved page i holds exactly the bytes of a response that was
    served, without error status, for the i-th entry of the page list,
    under the extension inferred from that response. *)
Theorem X4_saved_pages_in_order E series_slug chapter_number output_dir w
    image_urls total_pages w1 pages :
  let dir := chapter_dir_of series_slug chapter_number output_dir in
  let run := download_chapter E series_slug chapter_number output_dir w in
  find_pages E series_slug chapter_number output_dir w
  = (Ok (Some (image_urls, total_pages)), w1) ->
  py_iter image_urls = Ok pages ->
  exists evs,
    trace run.2 = trace w1 ++ evs /\
    StronglySorted lt (map fst (saved_pages evs)) /\
    forall i q, In (i, q) (saved_pages evs) ->
      exists u t r,
        1 <= i /\ pages !! (i - 1) = Some u /\
        http_get E t (Val u) (Some 30%Z) = Ok r /\
        is_error_status r = false /\
        q = path_join dir
              ("page_" +:+ format_03d i +:+ "." +:+
               infer_extension (content_type_header r)) /\
        fs run.2 !! q = Some (File (content r)).
Proof.
  intros dir run Hfind Hiter.
  destruct (download_chapter_loop_run E series_slug chapter_number output_dir w
              image_urls total_pages w1 pages Hfind Hiter)
    as [(_ & post & Htr & Hs & _)
       |(lres & w2 & evs2 & post & Hloop & Htr2 & Htr & Hs & _ & Hfs & _)];
    fold dir run in Htr.
  { exists post. split; [exact Htr|]. rewrite Hs. simpl.
    split; [constructor|]. by intros i q []. }
  fold dir run in Hfs.
  destruct (download_pages_order _ _ _ _ _ _ _ _ _ _ Hloop Htr2)
    as (Hsorted & Hbytes & _).
  exists ([EFs (Makedirs dir); EPrint Stdout (OutputDirectory dir)] ++ evs2 ++ post).
  assert (Hsaved : saved_pages
            ([EFs (Makedirs dir); EPrint Stdout (OutputDirectory dir)] ++
             evs2 ++ post) = saved_pages evs2).
  { rewrite !saved_pages_app, Hs. simpl. by rewrite app_nil_r. }
  rewrite Hsaved. split_and!.
  - rewrite Htr, Htr2. simpl. by rewrite <- !app_assoc.
  - done.
  - intros i q Hin. destruct Hfs as [Hfs|[Hnil _]]; [|by rewrite Hnil in Hin].
    rewrite Forall_forall in Hbytes.
    destruct (Hbytes (i, q)) as (u & t & r & Hrest);
      [by apply list_elem_of_In|].
    exists u, t, r. by rewrite Hfs.
Qed.

Lemma X4_witness :
  fs (download_chapter one_timeout_env "one-piece" "5" "out" start).2
  !! "out/one-piece_Chapter_5/page_002.png"
  = Some (File png_bytes).
Proof.
  destruct (X4_saved_pages_in_order one_timeout_env "one-piece" "5" "out" start
              two_pages 2
              (find_pages one_timeout_env "one-piece" "5" "out" start).2
              [JStr "https://img/1"; JStr "https://img/2"])
    as (evs & Htr & _ & Hbytes); [by vm_compute|reflexivity|].
  assert (evs = drop 8
            (trace (download_chapter one_timeout_env "one-piece" "5" "out"
                      start).2)) as ->.
  { rewrite Htr. by vm_compute. }
  destruct (Hbytes 2 "out/one-piece_Chapter_5/page_002.png")
    as (u & t & r & _ & Hu & Hr & _ & _ & Hfile); [vm_compute; tauto|].
  injection Hu as <-. injection Hr as <-. exact Hfile.
Defined.

(** X5.  In a call that found the page list [pages], the page images
    are requested in the order of the list, each entry at most once and
    none skipped: the requests made are an initial part of the list, and
    the whole list when the call returns a path. *)
Theorem X5_pages_requested_in_order E series_slug chapter_number output_dir w
    image_urls total_pages w1 pages :
  let run := download_chapter E series_slug chapter_number output_dir w in
  find_pages E series_slug chapter_number output_dir w
  = (Ok (Some (image_urls, total_pages)), w1) ->
  py_iter image_urls = Ok pages ->
  exists evs,
    trace run.2 = trace w1 ++ evs /\
    (exists rest, pages = page_requests evs ++ rest) /\
    (forall p, run.1 = Ok (Some p) -> page_requests evs = pages).
Proof.
  intros run Hfind Hiter.
  destruct (download_chapter_loop_run E series_slug chapter_number output_dir w
              image_urls total_pages w1 pages Hfind Hiter)
    as [(Hres & post & Htr & _ & Hp)
       |(lres & w2 & evs2 & post & Hloop & Htr2 & Htr & _ & Hp & _ & Hok)];
    fold run in Htr.
  { exists post. split; [exact Htr|]. rewrite Hp. simpl.
    split; [by exists pages|].
    fold run in Hres. intros p Hsome. congruence. }
  fold run in Hok.
  destruct (download_pages_order _ _ _ _ _ _ _ _ _ _ Hloop Htr2)
    as (_ & _ & Hprefix & Hall).
  exists ([EFs (Makedirs (chapter_dir_of series_slug chapter_number output_dir));
           EPrint Stdout
             (OutputDirectory (chapter_dir_of series_slug chapter_number output_dir))]
          ++ evs2 ++ post).
  assert (Hreq : page_requests
            ([EFs (Makedirs (chapter_dir_of series_slug chapter_number output_dir));
              EPrint Stdout
                (OutputDirectory
                   (chapter_dir_of series_slug chapter_number output_dir))]
             ++ evs2 ++ post) = page_requests evs2).
  { rewrite !page_requests_app, Hp. simpl. by rewrite app_nil_r. }
  rewrite Hreq. split_and!.
  - rewrite Htr, Htr2. simpl. by rewrite <- !app_assoc.
  - done.
  - intros p Hsome. destruct (Hok p Hsome) as [files Hfiles]. by eapply Hall.
Qed.

Lemma X5_witness :
  page_requests
    (trace (download_chapter one_timeout_env "one-piece" "5" "out" start).2)
  = [JStr "https://img/1"; JStr "https://img/2"].
Proof.
  destruct (X5_pages_requested_in_order one_timeout_env "one-piece" "5" "out"
              start two_pages 2
              (find_pages one_timeout_env "one-piece" "5" "out" start).2
              [JStr "https://img/1"; JStr "https://img/2"])
    as (evs & Htr & _ & Hall); [by vm_compute|reflexivity|].
  rewrite Htr, page_requests_app.
  rewrite (Hall "out/one-piece_Chapter_5"); [|by vm_compute].
  by vm_compute.
Defined.

(** ** How each early failure is reported *)

(** A refused [os.makedirs(p)] leaves the directories it had made on the
    way to [p], and none when a file is in the way. *)
Lemma os_makedirs_refused E p w w1 :
  os_makedirs E p w = (Raise OSError, w1) ->
  trace w1 = trace w ++ [EFs (Makedirs p)] /\
  exists k,
    fs w1 = partly_made k p (fs w) /\
    (k = 0 \/ existsb (is_file (fs w)) (ancestors p ++ [p]) = false).
Proof.
  unfold os_makedirs, fs_call.
  destruct (String.eqb p "" || existsb (is_file (fs w)) (ancestors p ++ [p]))
    eqn:Hbad.
  { intros [= <-]. simpl. split; [done|]. exists 0. split; [done|by left]. }
  apply orb_false_iff in Hbad as [_ Hno].
  destruct (fs_fault E _ _); [|done]. intros [= <-]. simpl. split; [done|].
  destruct (fs_progress E _ _) as [k|].
  - exists k. split; [done|by right].
  - exists 0. split; [done|by left].
Qed.

Lemma download_chapter_makedirs_refused E series_slug chapter_number
    output_dir w w1 :
  os_makedirs E output_dir w = (Raise OSError, w1) ->
  download_chapter E series_slug chapter_number output_dir w
  = (Ok None, record (EPrint Stderr (UnexpectedError OSError)) w1).
Proof.
  intros Hmk.
  unfold download_chapter, try_except, download_chapter_body, find_pages.
  unfold bind at 1. unfold bind at 1. by rewrite Hmk.
Qed.

(** X6.  When the output directory cannot be made, and always when the
    output directory is the empty path, [download_chapter] reports the
    OSError as an unexpected error and returns [None] without a single
    request and without any other filesystem call.  The refused
    [os.makedirs] may leave directories it had made on the way: what
    existed before is kept, what is new is a directory at a proper
    ancestor of the output directory, and the output directory itself is
    not made; nothing at all is made when a file is in the way or when
    the output directory is the empty path. *)
Theorem X6_output_dir_failure E series_slug chapter_number :
  (forall output_dir w,
      (os_makedirs E output_dir w).1 = Raise OSError ->
      exists m',
        download_chapter E series_slug chapter_number output_dir w
        = (Ok None,
           {| fs := m';
              trace := trace w ++ [EFs (Makedirs output_dir);
                                   EPrint Stderr (UnexpectedError OSError)] |}) /\
        (forall q n, fs w !! q = Some n -> m' !! q = Some n) /\
        (forall q, fs w !! q = None -> m' !! q <> None ->
           m' !! q = Some Dir /\ In q (ancestors output_dir)) /\
        m' !! output_dir = fs w !! output_dir /\
        (existsb (is_file (fs w)) (ancestors output_dir ++ [output_dir]) = true ->
         m' = fs w)) /\
  (forall w,
      download_chapter E series_slug chapter_number "" w
      = (Ok None,
         {| fs := fs w;
            trace := trace w ++ [EFs (Makedirs "");
                                 EPrint Stderr (UnexpectedError OSError)] |})).
Proof.
  split.
  - intros output_dir w Hmk.
    destruct (os_makedirs E output_dir w) as [res w1] eqn:Hrun.
    simpl in Hmk. subst res.
    destruct (os_makedirs_refused _ _ _ _ Hrun) as (Htr & k & Hfs & Hk).
    exists (fs w1). split_and!.
    + rewrite (download_chapter_makedirs_refused _ _ _ _ _ _ Hrun).
      unfold record. by rewrite Htr, <- app_assoc.
    + intros q n Hq. eapply makedirs_effect_kept; [|exact Hq].
      right. by exists k.
    + intros q Hnone. rewrite Hfs, partly_made_lookup.
      destruct (decide _) as [Hin|]; [|done]. intros _. split; [done|].
      by apply subseteq_take, list_elem_of_In in Hin.
    + rewrite Hfs, partly_made_lookup.
      destruct (decide _) as [Hin|]; [|done].
      apply partly_made_shorter in Hin. lia.
    + intros Hex. destruct Hk as [->|Hno]; [by rewrite Hfs|congruence].
  - intros w.
    rewrite (download_chapter_makedirs_refused E series_slug chapter_number
               "" w {| fs := fs w; trace := trace w ++ [EFs (Makedirs "")] |});
      [|reflexivity].
    unfold record. simpl. by rewrite <- app_assoc.
Qed.

Lemma X6_witness :
  exists m',
    download_chapter half_made_env "one-piece" "5" "out/deep" start
    = (Ok None,
       {| fs := m';
          trace := [EFs (Makedirs "out/deep");
                    EPrint Stderr (UnexpectedError OSError)] |}) /\
    m' !! "out" = Some Dir /\ m' !! "out/deep" = None.
Proof.
  destruct (proj1 (X6_output_dir_failure half_made_env "one-piece" "5")
              "out/deep" start eq_refl)
    as (m' & Hrun & _ & _ & Hself & _).
  exists m'. split; [exact Hrun|].
  assert (Hm : m' = fs (download_chapter half_made_env "one-piece" "5"
                          "out/deep" start).2) by (by rewrite Hrun).
  split; [rewrite Hm; by vm_compute|by rewrite Hself].
Defined.

(** The call up to the series document, when the output directory could
    be made and the series endpoint answers without error status: a line
    about the series is refused, or the chapter is looked up. *)
Lemma find_pages_to_series E series_slug chapter_number output_dir w w1 r
    series_data :
  os_makedirs E output_dir w = (Ok tt, w1) ->
  series_answers E series_slug r ->
  is_error_status r = false ->
  json_body r = Ok series_data ->
  (exists f t m w',
      stdout_fault E t m = Some f /\
      find_pages E series_slug chapter_number output_dir w
      = (Raise (print_exn f), w')) \/
  find_pages E series_slug chapter_number output_dir w
  = bind (lift (getitem series_data "chapters"))
      (fun chapters =>
         bind (lift (dict_get chapters chapter_number JNull))
           (fun chapter_data =>
              if negb (truthy chapter_data)
              then bind (print E Stderr ChapterNotFound) (fun _ => ret None)
              else pages_of_chapter E chapter_data))
      (series_fetched series_slug w1).
Proof.
  intros Hmk Hget Hst Hj.
  remember (find_pages E series_slug chapter_number output_dir w) as run
    eqn:Hrun.
  unfold find_pages in Hrun. cbv zeta in Hrun.
  unfold bind at 1 in Hrun. rewrite Hmk in Hrun.
  unfold bind at 1 in Hrun.
  destruct (print E Stdout _ w1) as [r0 w0] eqn:Hp.
  apply print_cases in Hp as [(-> & -> & _)|(f & _ & Hf & -> & ->)];
    [|left; by eauto 6].
  unfold bind at 1 in Hrun. unfold requests_get at 1 in Hrun.
  fold (series_url series_slug) in Hrun. rewrite Hget in Hrun.
  unfold bind at 1 in Hrun. unfold raise_for_status in Hrun.
  rewrite Hst in Hrun. unfold ret at 1 in Hrun.
  unfold bind at 1 in Hrun. unfold response_json in Hrun. rewrite Hj in Hrun.
  unfold lift at 1, ret at 1 in Hrun.
  unfold bind at 1 in Hrun.
  destruct (print E Stdout FetchedSeries _) as [r0 w0] eqn:Hp.
  apply print_cases in Hp as [(-> & -> & _)|(f & _ & Hf & -> & ->)];
    [|left; by eauto 6].
  right. exact Hrun.
Qed.

Lemma download_chapter_of_find_pages E series_slug chapter_number output_dir
    w res w1 :
  find_pages E series_slug chapter_number output_dir w = (res, w1) ->
  (forall x, res <> Ok (Some x)) ->
  download_chapter E series_slug chapter_number output_dir w
  = match res with
    | Raise e =>
        match outer_handler E e with
        | Some k => k w1
        | None => (Raise e, w1)
        end
    | _ => (Ok None, w1)
    end.
Proof.
  intros H Hr. unfold download_chapter, try_except, download_chapter_body, bind.
  rewrite H. destruct res as [[x|]|e]; [by destruct (Hr x)|done|done].
Qed.

Lemma download_chapter_of_raise E series_slug chapter_number output_dir
    w e w1 :
  find_pages E series_slug chapter_number output_dir w = (Raise e, w1) ->
  (download_chapter E series_slug chapter_number output_dir w).1 = Ok None.
Proof.
  intros Hfind.
  by destruct (download_chapter_early _ _ _ _ _ _ _ Hfind)
    as (w' & evs & -> & _).
Qed.

(** X7.  When the series document has no record for the chapter (the
    key is absent, or its record is empty), [download_chapter] returns
    [None]; and when the standard output refuses no line, it says so on
    the error stream, the series request is its only request and making
    the output directory its only filesystem call. *)
Theorem X7_chapter_not_found E series_slug chapter_number output_dir w w1 r
    series_data chapters chapter_data :
  os_makedirs E output_dir w = (Ok tt, w1) ->
  series_answers E series_slug r ->
  is_error_status r = false ->
  json_body r = Ok series_data ->
  getitem series_data "chapters" = Ok chapters ->
  dict_get chapters chapter_number JNull = Ok chapter_data ->
  truthy chapter_data = false ->
  (download_chapter E series_slug chapter_number output_dir w).1 = Ok None /\
  (stdout_ok E ->
   download_chapter E series_slug chapter_number output_dir w
   = (Ok None,
      record (EPrint Stderr ChapterNotFound) (series_fetched series_slug w1))).
Proof.
  intros Hmk Hget Hst Hj Hch Hcd Hfalse.
  destruct (find_pages_to_series E series_slug chapter_number output_dir w w1 r
              series_data Hmk Hget Hst Hj)
    as [(f & t & m & w' & Hf & Hfind)|Hfind].
  { split; [by eapply download_chapter_of_raise|].
    intros Hso. by rewrite Hso in Hf. }
  assert (Hfind' : find_pages E series_slug chapter_number output_dir w
                   = (Ok None,
                      record (EPrint Stderr ChapterNotFound)
                             (series_fetched series_slug w1))).
  { rewrite Hfind.
    unfold bind at 1. rewrite Hch. unfold lift at 1, ret at 1.
    unfold bind at 1. rewrite Hcd. unfold lift at 1, ret at 1.
    rewrite Hfalse. reflexivity. }
  by rewrite (download_chapter_of_find_pages _ _ _ _ _ _ _ Hfind').
Qed.

Lemma X7_witness :
  (download_chapter all_images_env "one-piece" "6" "out" start).1 = Ok None /\
  In (EPrint Stderr ChapterNotFound)
     (trace (download_chapter all_images_env "one-piece" "6" "out" start).2).
Proof.
  destruct (X7_chapter_not_found all_images_env "one-piece" "6" "out" start
              (os_makedirs all_images_env "out" start).2
              (json_response (demo_series "1")) (demo_series "1")
              (JDict [("5", JDict [("groups", JDict [("1", JStr "/read/api/5/")])])])
              JNull)
    as [Hnone Hrun].
  - by vm_compute.
  - intros t. reflexivity.
  - reflexivity.
  - reflexivity.
  - reflexivity.
  - reflexivity.
  - reflexivity.
  - split; [exact Hnone|]. rewrite Hrun; [|intros t m; reflexivity].
    vm_compute. tauto.
Defined.

(** X8.  When the series document is a mapping without the key
    "chapters", or no mapping at all, [download_chapter] returns [None]
    after the series request; and when the standard output refuses no
    line, the KeyError is reported as a data structure error and the
    TypeError as an unexpected error. *)
Theorem X8_malformed_series_document E series_slug chapter_number output_dir
    w w1 r series_data :
  os_makedirs E output_dir w = (Ok tt, w1) ->
  series_answers E series_slug r ->
  is_error_status r = false ->
  json_body r = Ok series_data ->
  (forall d, series_data = JDict d -> assoc "chapters" d = None ->
     (download_chapter E series_slug chapter_number output_dir w).1 = Ok None /\
     (stdout_ok E ->
      download_chapter E series_slug chapter_number output_dir w
      = (Ok None,
         record (EPrint Stderr (DataStructureError (KeyError "chapters")))
                (series_fetched series_slug w1)))) /\
  ((forall d, series_data <> JDict d) ->
     (download_chapter E series_slug chapter_number output_dir w).1 = Ok None /\
     (stdout_ok E ->
      download_chapter E series_slug chapter_number output_dir w
      = (Ok None,
         record (EPrint Stderr (UnexpectedError TypeError))
                (series_fetched series_slug w1)))).
Proof.
  intros Hmk Hget Hst Hj.
  destruct (find_pages_to_series E series_slug chapter_number output_dir w w1 r
              series_data Hmk Hget Hst Hj)
    as [(f & t & m & w' & Hf & Hfind)|Hfind].
  { split; intros; (split; [by eapply download_chapter_of_raise|]);
      intros Hso; by rewrite Hso in Hf. }
  split.
  - intros d -> Hmissing.
    assert (Hfind' : find_pages E series_slug chapter_number output_dir w
                     = (Raise (KeyError "chapters"),
                        series_fetched series_slug w1)).
    { rewrite Hfind. unfold bind at 1. simpl. rewrite Hmissing. reflexivity. }
    by rewrite (download_chapter_of_find_pages _ _ _ _ _ _ _ Hfind').
  - intros Hshape.
    assert (Hfind' : find_pages E series_slug chapter_number output_dir w
                     = (Raise TypeError, series_fetched series_slug w1)).
    { rewrite Hfind. unfold bind at 1.
      destruct series_data; try reflexivity. by destruct (Hshape d). }
    by rewrite (download_chapter_of_find_pages _ _ _ _ _ _ _ Hfind').
Qed.

(** The call up to the series request, when the output directory could
    be made: the line that announces the request is refused, or the
    request is made. *)
Lemma find_pages_to_request E series_slug chapter_number output_dir w w1 :
  os_makedirs E output_dir w = (Ok tt, w1) ->
  (exists f t m,
      stdout_fault E t m = Some f /\
      find_pages E series_slug chapter_number output_dir w
      = (Raise (print_exn f), w1)) \/
  find_pages E series_slug chapter_number output_dir w
  = bind (requests_get E (series_url series_slug) None)
      (fun response =>
         bind (raise_for_status response) (fun _ =>
         bind (response_json response) (fun series_data =>
         bind (print E Stdout FetchedSeries) (fun _ =>
         bind (lift (getitem series_data "chapters")) (fun chapters =>
         bind (lift (dict_get chapters chapter_number JNull))
           (fun chapter_data =>
              if negb (truthy chapter_data)
              then bind (print E Stderr ChapterNotFound) (fun _ => ret None)
              else pages_of_chapter E chapter_data))))))
      (record (EPrint Stdout (FetchingSeries (series_url series_slug))) w1).
Proof.
  intros Hmk.
  remember (find_pages E series_slug chapter_number output_dir w) as run
    eqn:Hrun.
  unfold find_pages in Hrun. cbv zeta in Hrun.
  unfold bind at 1 in Hrun. rewrite Hmk in Hrun.
  unfold bind at 1 in Hrun.
  destruct (print E Stdout _ w1) as [r0 w0] eqn:Hp.
  apply print_cases in Hp as [(-> & -> & _)|(f & _ & Hf & -> & ->)];
    [by right|left; by eauto 6].
Qed.

(** X9.  When the series request raises a request exception [e], or is
    answered with an error status, [download_chapter] returns [None];
    and when the standard output refuses no line, [e], or the HTTPError,
    is reported as a network error and nothing else is asked for. *)
Theorem X9_series_request_fails E series_slug chapter_number output_dir w w1 :
  os_makedirs E output_dir w = (Ok tt, w1) ->
  (forall e,
     (forall t, http_get E t (series_url series_slug) None = Raise e) ->
     isinstance e ClsRequestException = true ->
     (download_chapter E series_slug chapter_number output_dir w).1 = Ok None /\
     (stdout_ok E ->
      download_chapter E series_slug chapter_number output_dir w
      = (Ok None,
         record (EPrint Stderr (NetworkError e))
           (record (EGet (series_url series_slug) None)
              (record (EPrint Stdout (FetchingSeries (series_url series_slug)))
                      w1))))) /\
  (forall r,
     series_answers E series_slug r ->
     is_error_status r = true ->
     (download_chapter E series_slug chapter_number output_dir w).1 = Ok None /\
     (stdout_ok E ->
      download_chapter E series_slug chapter_number output_dir w
      = (Ok None,
         record (EPrint Stderr (NetworkError RequestError))
           (record (EGet (series_url series_slug) None)
              (record (EPrint Stdout (FetchingSeries (series_url series_slug)))
                      w1))))).
Proof.
  intros Hmk.
  destruct (find_pages_to_request E series_slug chapter_number output_dir w w1
              Hmk)
    as [(f & t & m & Hf & Hfind)|Hfind].
  { split; intros; (split; [by eapply download_chapter_of_raise|]);
      intros Hso; by rewrite Hso in Hf. }
  split.
  - intros e Hget He.
    assert (Hfind' : find_pages E series_slug chapter_number output_dir w
                     = (Raise e,
                        record (EGet (series_url series_slug) None)
                          (record (EPrint Stdout
                                     (FetchingSeries (series_url series_slug)))
                                  w1))).
    { rewrite Hfind. unfold bind at 1. unfold requests_get at 1.
      rewrite Hget. reflexivity. }
    rewrite (download_chapter_of_find_pages _ _ _ _ _ _ _ Hfind'); [|done].
    unfold outer_handler. by rewrite He.
  - intros r Hget Hst.
    assert (Hfind' : find_pages E series_slug chapter_number output_dir w
                     = (Raise RequestError,
                        record (EGet (series_url series_slug) None)
                          (record (EPrint Stdout
                                     (FetchingSeries (series_url series_slug)))
                                  w1))).
    { rewrite Hfind. unfold bind at 1. unfold requests_get at 1.
      rewrite Hget. unfold bind at 1. unfold raise_for_status. rewrite Hst.
      reflexivity. }
    by rewrite (download_chapter_of_find_pages _ _ _ _ _ _ _ Hfind').
Qed.

Lemma X8_witness :
  download_chapter no_chapters_env "one-piece" "5" "out" start
  = (Ok None,
     record (EPrint Stderr (DataStructureError (KeyError "chapters")))
            (series_fetched "one-piece"
               (os_makedirs no_chapters_env "out" start).2)).
Proof.
  apply (proj1 (X8_malformed_series_document no_chapters_env "one-piece" "5"
                  "out" start (os_makedirs no_chapters_env "out" start).2
                  (json_response (JDict [("title", JStr "One Piece")]))
                  (JDict [("title", JStr "One Piece")])
                  ltac:(by vm_compute) ltac:(intros t; reflexivity)
                  eq_refl eq_refl)
           [("title", JStr "One Piece")]); try reflexivity.
  intros t m. reflexivity.
Defined.

Lemma X9_witness :
  download_chapter offline_env "one-piece" "5" "out" start
  = (Ok None,
     record (EPrint Stderr (NetworkError RequestError))
       (record (EGet (series_url "one-piece") None)
          (record (EPrint Stdout (FetchingSeries (series_url "one-piece")))
                  (os_makedirs offline_env "out" start).2))).
Proof.
  apply (proj1 (X9_series_request_fails offline_env "one-piece" "5" "out"
                  start (os_makedirs offline_env "out" start).2
                  ltac:(by vm_compute)) RequestError).
  - intros t. reflexivity.
  - reflexivity.
  - intros t m. reflexivity.
Defined.

Lemma fetch_page_list_unexpected E d group_url w :
  stdout_ok E -> page_list_is E d -> is_container d = false ->
  let w2 := record (EGet (FStr "https://cubari.moe" group_url "") None)
              (record (EPrint Stdout
                         (FetchingDetails (FStr "https://cubari.moe" group_url "")))
                      w) in
  fetch_page_list E group_url w = (Raise RequestError, w2) \/
  fetch_page_list E group_url w
  = (Ok None, record (EPrint Stderr UnexpectedType)
                (record (EPrint Stdout FetchedDetails) w2)).
Proof.
  intros Hso Hpl Hd w2.
  remember (fetch_page_list E group_url w) as run eqn:Hrun.
  unfold fetch_page_list in Hrun. cbv zeta in Hrun.
  unfold bind at 1 in Hrun. rewrite (print_total E Stdout _ _ Hso) in Hrun.
  unfold bind at 1 in Hrun. unfold requests_get at 1 in Hrun.
  destruct (Hpl (length (trace (record
              (EPrint Stdout
                 (FetchingDetails (FStr "https://cubari.moe" group_url ""))) w)))
              group_url) as (r & Hr & Hj).
  rewrite Hr in Hrun.
  unfold bind at 1 in Hrun. unfold raise_for_status in Hrun.
  destruct (is_error_status r); [subst run; by left|]. right.
  unfold ret at 1 in Hrun.
  unfold bind at 1 in Hrun. unfold response_json in Hrun. rewrite Hj in Hrun.
  unfold lift at 1, ret at 1 in Hrun.
  unfold bind at 1 in Hrun. rewrite (print_total E Stdout _ _ Hso) in Hrun.
  subst run. by destruct d.
Qed.

(** Whatever the standard output does, such a document never yields a
    page list. *)
Lemma fetch_page_list_never_pages E d group_url w x :
  page_list_is E d -> is_container d = false ->
  (fetch_page_list E group_url w).1 <> Ok (Some x).
Proof.
  intros Hpl Hd.
  change (wp (fetch_page_list E group_url) (fun r _ => r <> Ok (Some x)) w).
  unfold fetch_page_list.
  apply wp_bind, wp_print; [|intros e _ He; done].
  apply wp_bind, wp_requests_get.
  set (w1 := record (EPrint Stdout _) w).
  destruct (Hpl (length (trace w1)) group_url) as (r & Hr & Hj). rewrite Hr.
  apply wp_bind, wp_raise_for_status. destruct (is_error_status r); [done|].
  apply wp_bind. unfold response_json. rewrite Hj. apply wp_lift.
  apply wp_bind, wp_print; [|intros e _ He; done].
  by destruct d.
Qed.

Lemma find_pages_without_pages E series_slug chapter_number output_dir w :
  (forall group_url w0 x, (fetch_page_list E group_url w0).1 <> Ok (Some x)) ->
  forall x,
    (find_pages E series_slug chapter_number output_dir w).1 <> Ok (Some x).
Proof.
  intros Hnone x.
  change (wp (find_pages E series_slug chapter_number output_dir)
             (fun r _ => r <> Ok (Some x)) w).
  apply wp_find_pages. intros r1 w1 _. destruct r1 as [[]|e]; [|done].
  cbv zeta. unfold pages_of_chapter, select_group_url.
  wp_steps; try done; unfold wp; apply Hnone.
Qed.

(** X10.  When the page-list document is neither a list nor a mapping,
    [download_chapter] returns [None] and making the output directory
    stays its only filesystem call; and when the standard output refuses
    no line, the page-list lines end with the report of an unexpected
    type (or with the HTTPError of an error status). *)
Theorem X10_unexpected_page_list_type E d series_slug chapter_number
    output_dir w :
  page_list_is E d -> is_container d = false ->
  (stdout_ok E ->
   forall group_url w0,
     let w2 := record (EGet (FStr "https://cubari.moe" group_url "") None)
                 (record (EPrint Stdout
                            (FetchingDetails
                               (FStr "https://cubari.moe" group_url ""))) w0) in
     fetch_page_list E group_url w0 = (Raise RequestError, w2) \/
     fetch_page_list E group_url w0
     = (Ok None, record (EPrint Stderr UnexpectedType)
                   (record (EPrint Stdout FetchedDetails) w2))) /\
  exists w' evs,
    download_chapter E series_slug chapter_number output_dir w = (Ok None, w') /\
    trace w' = trace w ++ EFs (Makedirs output_dir) :: evs /\
    forallb quiet_event evs = true.
Proof.
  intros Hpl Hd.
  split; [intros Hso; intros; by apply (fetch_page_list_unexpected E d)|].
  destruct (find_pages E series_slug chapter_number output_dir w)
    as [r w1] eqn:Hfind.
  destruct (find_pages_run_effect _ _ _ _ _ _ _ Hfind)
    as [_ (evs1 & Htr1 & Hq1)].
  destruct (download_chapter_early _ _ _ _ _ _ _ Hfind)
    as (w' & evs2 & Hrun & _ & Htr & Hq2).
  { intros x Hx.
    apply (find_pages_without_pages E series_slug chapter_number output_dir w)
      with (x := x); [|by rewrite Hfind].
    intros g w0 y. by apply (fetch_page_list_never_pages E d). }
  exists w', (evs1 ++ evs2). split_and!; [done| |].
  - by rewrite Htr, Htr1, <- app_assoc.
  - by rewrite forallb_app, Hq1, Hq2.
Qed.

Lemma X10_witness :
  exists w',
    download_chapter text_page_list_env "one-piece" "5" "out" start
    = (Ok None, w') /\
    In (EPrint Stderr UnexpectedType) (trace w').
Proof.
  destruct (X10_unexpected_page_list_type text_page_list_env JNull
              "one-piece" "5" "out" start)
    as (_ & w' & evs & Hrun & _).
  - intros t group_url. eexists. split; reflexivity.
  - reflexivity.
  - exists w'. split; [exact Hrun|].
    assert (w' = (download_chapter text_page_list_env "one-piece" "5" "out"
                    start).2) as -> by (by rewrite Hrun).
    vm_compute. tauto.
Defined.

(** X11.  When key '1' of the group mapping is present but its value is
    empty (falsy), line 27 treats it as missing: whatever the
    collaborators do, every request is for the page list of the value of
    the first key of the mapping, whichever key that is (key '1' itself,
    when it comes first) and whatever its value; and when the standard
    output refuses no line and a page list is served there, that page
    list is the one the function goes on with, after the two lines about
    the missing group. *)
Theorem X11_empty_primary_group E chapter_data k u rest v :
  getitem chapter_data "groups" = Ok (JDict ((k, u) :: rest)) ->
  assoc "1" ((k, u) :: rest) = Some v ->
  truthy v = false ->
  (forall w, exists evs,
      trace (pages_of_chapter E chapter_data w).2 = trace w ++ evs /\
      requests_only u evs) /\
  (forall d l w,
      stdout_ok E -> serves E u d -> holds_pages d l -> l <> [] ->
      pages_of_chapter E chapter_data w
      = (Ok (Some (JList l, length l)),
         {| fs := fs w;
            trace := trace w ++
                     [EPrint Stderr GroupOneNotFound;
                      EPrint Stdout (UsingFirstGroup k)] ++
                     page_list_fetched u l |})).
Proof.
  intros Hg Ha Hv.
  apply (pages_of_chapter_first E chapter_data k u rest v Hg); [|done].
  cbn [dict_get]. by rewrite Ha.
Qed.

Lemma X11_witness :
  pages_of_chapter all_images_env
    (JDict [("groups", JDict [("2", JStr "/b"); ("1", JStr "")])]) start
  = (Ok (Some (two_pages, 2)),
     {| fs := ∅;
        trace := [EPrint Stderr GroupOneNotFound;
                  EPrint Stdout (UsingFirstGroup "2")] ++
                 page_list_fetched (JStr "/b")
                   [JStr "https://img/1"; JStr "https://img/2"] |}) /\
  pages_of_chapter all_images_env
    (JDict [("groups", JDict [("1", JStr "")])]) start
  = (Ok (Some (two_pages, 2)),
     {| fs := ∅;
        trace := [EPrint Stderr GroupOneNotFound;
                  EPrint Stdout (UsingFirstGroup "1")] ++
                 page_list_fetched (JStr "")
                   [JStr "https://img/1"; JStr "https://img/2"] |}).
Proof.
  split.
  - apply (proj2 (X11_empty_primary_group all_images_env
                    (JDict [("groups",
                             JDict [("2", JStr "/b"); ("1", JStr "")])])
                    "2" (JStr "/b") [("1", JStr "")] (JStr "")
                    eq_refl eq_refl eq_refl)
             two_pages [JStr "https://img/1"; JStr "https://img/2"] start).
    + intros t m. reflexivity.
    + intros t. eexists. split_and!; reflexivity.
    + by left.
    + done.
  - apply (proj2 (X11_empty_primary_group all_images_env
                    (JDict [("groups", JDict [("1", JStr "")])])
                    "1" (JStr "") [] (JStr "")
                    eq_refl eq_refl eq_refl)
             two_pages [JStr "https://img/1"; JStr "https://img/2"] start).
    + intros t m. reflexivity.
    + intros t. eexists. split_and!; reflexivity.
    + by left.
    + done.
Defined.

(** ** Names and paths *)

Lemma safe_char_not_space c : is_safe_char c = true -> isspace c = false.
Proof.
  destruct c as [[] [] [] [] [] [] [] []]; vm_compute; congruence.
Qed.

Lemma all_chars_filter p s : all_chars p (filter_chars p s) = true.
Proof.
  induction s as [|c s IH]; simpl; [done|].
  destruct (p c) eqn:Hp; simpl; [by rewrite Hp|done].
Qed.

Lemma filter_chars_id p s : all_chars p s = true -> filter_chars p s = s.
Proof.
  induction s as [|c s IH]; simpl; [done|].
  intros [Hc Hs]%andb_true_iff. rewrite Hc. by rewrite IH.
Qed.

Lemma rstrip_safe s : all_chars is_safe_char s = true -> rstrip s = s.
Proof.
  induction s as [|c s IH]; simpl; [done|].
  intros [Hc Hs]%andb_true_iff. rewrite (IH Hs).
  destruct s; [|done]. by rewrite (safe_char_not_space c Hc).
Qed.

(** X12.  For a slug of characters with code points below 256, the
    directory-name part made from it (line 64) consists of alphanumerics
    (as [str.isalnum] has them on these code points, accented letters
    included), underscore and hyphen only; it is the slug with all other
    characters dropped (the final [rstrip] never removes anything, since
    no character that is kept is white space); sanitising is idempotent
    and leaves a clean slug unchanged; and the result is never longer
    than the slug. *)
Theorem X12_safe_slug series_slug :
  all_chars is_safe_char (safe_slug_of series_slug) = true /\
  safe_slug_of series_slug = filter_chars is_safe_char series_slug /\
  safe_slug_of (safe_slug_of series_slug) = safe_slug_of series_slug /\
  (all_chars is_safe_char series_slug = true ->
   safe_slug_of series_slug = series_slug) /\
  String.length (safe_slug_of series_slug) <= String.length series_slug.
Proof.
  assert (Heq : forall s, safe_slug_of s = filter_chars is_safe_char s).
  { intros s. unfold safe_slug_of.
    change (fun c : ascii => isalnum c || Ascii.eqb c "_" || Ascii.eqb c "-")
      with is_safe_char.
    apply rstrip_safe, all_chars_filter. }
  assert (Hclean : forall s, all_chars is_safe_char s = true ->
                             safe_slug_of s = s).
  { intros s Hs. rewrite Heq. by apply filter_chars_id. }
  split_and!.
  - rewrite Heq. apply all_chars_filter.
  - apply Heq.
  - apply Hclean. rewrite Heq. apply all_chars_filter.
  - apply Hclean.
  - rewrite Heq. clear. induction series_slug as [|c s IH]; simpl; [done|].
    destruct (is_safe_char c); simpl; lia.
Qed.

Lemma X12_witness :
  safe_slug_of "one-piece_2" = "one-piece_2" /\
  safe_slug_of "../One Piece!" = "OnePiece" /\
  safe_slug_of ("caf" +:+ String (ascii_of_nat 233) " " +:+ String (ascii_of_nat 160) "")
  = "caf" +:+ String (ascii_of_nat 233) "".
Proof.
  split_and!.
  - apply (proj1 (proj2 (proj2 (proj2 (X12_safe_slug "one-piece_2"))))).
    reflexivity.
  - rewrite (proj1 (proj2 (X12_safe_slug "../One Piece!"))). reflexivity.
  - rewrite (proj1 (proj2 (X12_safe_slug _))). reflexivity.
Defined.

Lemma zeros_length k : String.length (zeros k) = k.
Proof. induction k as [|k IH]; simpl; [done|]. by rewrite IH. Qed.

(** X13.  The page number in a file name (line 91) is padded with zeros
    to three characters, or printed in full when it has more digits: it is
    never cut, reading it back as a decimal number gives the page number,
    and so two pages never share a file path, whatever their
    extensions. *)
Theorem X13_page_file_names dir :
  (forall page,
      3 <= String.length (format_03d page) /\
      (String.length (format_03d page) = 3 \/
       format_03d page = NilEmpty.string_of_uint (Nat.to_uint page)) /\
      option_map Nat.of_uint (NilEmpty.uint_of_string (format_03d page))
      = Some page) /\
  (forall page page' ext ext',
      path_join dir ("page_" +:+ format_03d page +:+ "." +:+ ext)
      = path_join dir ("page_" +:+ format_03d page' +:+ "." +:+ ext') ->
      page = page').
Proof.
  split.
  - intros page. split_and!.
    + unfold format_03d. rewrite str_length_app, zeros_length. lia.
    + unfold format_03d.
      destruct (3 - String.length (NilEmpty.string_of_uint (Nat.to_uint page)))
        as [|k] eqn:Hk.
      * right. done.
      * left. rewrite str_length_app, zeros_length. lia.
    + rewrite parse_format_03d. simpl.
      by rewrite of_uint_zeros, Unsigned.of_to.
  - intros page page' ext ext'. apply page_path_inj.
Qed.

Lemma X13_witness :
  format_03d 7 = "007" /\ format_03d 1234 = "1234" /\
  (path_join "out" ("page_" +:+ format_03d 1 +:+ "." +:+ "png")
   = path_join "out" ("page_" +:+ format_03d 10 +:+ "." +:+ "jpg") -> False).
Proof.
  split; [reflexivity|]. split; [reflexivity|].
  intros H. apply (proj2 (X13_page_file_names "out")) in H. discriminate.
Defined.

Lemma str_prefix_app_r a b c :
  String.prefix a b = true -> String.prefix a (b +:+ c) = true.
Proof.
  intros [r ->]%str_prefix_inv. rewrite str_app_assoc. apply str_prefix_app.
Qed.

Lemma dir_prefix_extends d : exists r, dir_prefix d = d +:+ r.
Proof.
  unfold dir_prefix. destruct (_ || _); [|by exists "/"].
  exists "". clear. induction d as [|c d IH]; [done|].
  rewrite str_app_cons. by rewrite <- IH.
Qed.

Lemma under_trans a b q : under a b = true -> under b q = true -> under a q = true.
Proof.
  unfold under. intros [Hp1 Hl1]%andb_true_iff [Hp2 Hl2]%andb_true_iff.
  apply Nat.ltb_lt in Hl1, Hl2. apply andb_true_iff. split.
  - apply str_prefix_inv in Hp2 as [r ->].
    destruct (dir_prefix_extends b) as [r' ->].
    rewrite !str_app_assoc. by apply str_prefix_app_r.
  - apply Nat.ltb_lt. pose proof (length_dir_prefix b). lia.
Qed.

Lemma chapter_dir_under series_slug chapter_number output_dir :
  under output_dir (chapter_dir_of series_slug chapter_number output_dir) = true.
Proof.
  rewrite chapter_dir_of_eq. unfold under.
  rewrite str_prefix_app, str_length_app. simpl. apply Nat.ltb_lt.
  pose proof (chapter_dir_name_length series_slug chapter_number). lia.
Qed.

(** X14.  Whatever the slug and the chapter number are, the path of the
    chapter directory is the output directory, a separator and a
    non-empty rest: the join of line 65 never drops the output directory,
    since the directory name never starts with a separator.  Every
    filesystem call of [download_chapter] is given the output directory
    or a path that extends it in this way.  Paths are compared as text:
    a [..] component that the chapter number may carry is not resolved. *)
Theorem X14_stays_below_output_dir E series_slug chapter_number output_dir w :
  under output_dir (chapter_dir_of series_slug chapter_number output_dir) = true /\
  exists evs,
    trace (download_chapter E series_slug chapter_number output_dir w).2
    = trace w ++ evs /\
    forall op, In (EFs op) evs ->
      op_path op = output_dir \/ under output_dir (op_path op) = true.
Proof.
  split; [apply chapter_dir_under|].
  destruct (download_chapter_events E series_slug chapter_number output_dir w)
    as (evs & Htr & Hall).
  exists evs. split; [done|]. intros op Hin.
  rewrite Forall_forall in Hall. apply list_elem_of_In, Hall in Hin.
  pose proof (chapter_dir_under series_slug chapter_number output_dir) as Hdir.
  destruct op as [p|p|p]; simpl in *.
  - destruct Hin as [-> | ->]; auto.
  - destruct Hin as (page & ext & _ & _ & ->). right.
    eapply under_trans; [exact Hdir|apply page_path_under].
  - subst p. auto.
Qed.

Lemma X14_witness :
  under "out" "out/etc_Chapter_5" = true /\
  exists evs,
    trace (download_chapter all_images_env "/etc" "5" "out" start).2
    = trace start ++ evs /\
    forall op, In (EFs op) evs ->
      op_path op = "out" \/ under "out" (op_path op) = true.
Proof.
  exact (X14_stays_below_output_dir all_images_env "/etc" "5" "out" start).
Defined.

(** ** The entry point and the clean-up *)



Lemma has_entry_under_true (m : gmap string node) d q n :
  m !! q = Some n -> under d q = true -> has_entry_under m d = true.
Proof.
  intros Hq Hu. unfold has_entry_under. apply existsb_exists.
  exists (q, n). split; [|done].
  by apply list_elem_of_In, elem_of_map_to_list.
Qed.

Lemma download_into_keeps_busy_dir E series_slug chapter_number output_dir
    image_urls total_pages w res w' q n :
  let dir := chapter_dir_of series_slug chapter_number output_dir in
  download_into E series_slug chapter_number output_dir image_urls
    total_pages w = (res, w') ->
  fs w !! dir = Some Dir ->
  fs w !! q = Some n ->
  under dir q = true ->
  fs w' !! dir = Some Dir /\ fs w' !! q <> None.
Proof.
  intros dir Hrun Hd Hq Hu. apply download_into_cases in Hrun.
  fold dir in Hrun.
  destruct Hrun as [(_ & Heff & _)
                   |(Hway & _ & [(e & _ & _ & ->)|[(t & f & _ & _ & ->)|Hrun]])].
  - rewrite (makedirs_effect_kept _ _ _ _ _ Heff Hd).
    by rewrite (makedirs_effect_kept _ _ _ _ _ Heff Hq).
  - simpl. rewrite made_dirs_self. split; [done|].
    by rewrite (made_dirs_kept _ _ _ _ Hway Hq).
  - simpl. rewrite made_dirs_self. split; [done|].
    by rewrite (made_dirs_kept _ _ _ _ Hway Hq).
  - destruct Hrun as (pages & lres & w2 & _ & Hloop & Hend).
    destruct (download_pages_facts _ _ _ _ _ _ _ _ _ Hloop)
      as (evs2 & _ & _ & _ & _ & _ & _ & _ & H7 & H8).
    assert (Hd2 : fs w2 !! dir = Some Dir).
    { apply H8. simpl. apply made_dirs_self. }
    assert (Hq1 : fs (opened dir w) !! q = Some n).
    { simpl. by apply made_dirs_kept. }
    assert (Hq2 : fs w2 !! q <> None).
    { destruct n as [|c].
      - apply H8 in Hq1. by rewrite Hq1.
      - apply is_file_lookup, H7. unfold is_file. by rewrite Hq1. }
    assert (Hkept : forall r0 w0,
              remove_empty_dir E dir (record (EPrint Stderr FailedAllPages) w2)
              = (r0, w0) ->
              fs w0 !! dir = Some Dir /\ fs w0 !! q <> None).
    { intros r0 w0 Hrm.
      apply remove_empty_dir_fs in Hrm as [->|(_ & Hempty & _)]; [done|].
      simpl in Hempty. destruct (fs w2 !! q) as [n2|] eqn:Hl; [|done].
      by rewrite (has_entry_under_true _ _ _ _ Hl Hu) in Hempty. }
    destruct Hend as [(e & _ & _ & ->)
                     |[(files & _ & _ & _ & ->)
                      |[(_ & _ & Hrm)
                       |[(files & t & f & _ & _ & _ & _ & ->)
                        |(e & _ & _ & Hrm)]]]];
      try done; by eapply Hkept.
Qed.

(** X16.  The clean-up never removes a chapter directory that held
    something before the call: whatever the collaborators do, when the
    chapter directory existed with an entry below it, the directory is
    still there after the call, and so is an entry at that path. *)
Theorem X16_busy_chapter_dir_survives E series_slug chapter_number output_dir
    w q n :
  let dir := chapter_dir_of series_slug chapter_number output_dir in
  let run := download_chapter E series_slug chapter_number output_dir w in
  fs w !! dir = Some Dir ->
  fs w !! q = Some n ->
  under dir q = true ->
  fs run.2 !! dir = Some Dir /\ fs run.2 !! q <> None.
Proof.
  intros dir run Hd Hq Hu. subst run.
  change (wp (download_chapter E series_slug chapter_number output_dir)
             (fun _ w' => fs w' !! dir = Some Dir /\ fs w' !! q <> None) w).
  apply wp_download_chapter.
  eapply wp_mono; [|apply find_pages_keeps].
  intros r w1 H1.
  assert (Hd1 : fs w1 !! dir = Some Dir) by (by apply H1).
  assert (Hq1 : fs w1 !! q = Some n) by (by apply H1).
  destruct r as [[[image_urls k]|]|e].
  - apply wp_of_run. intros r' w2 Hrun.
    pose proof (download_into_keeps_busy_dir _ _ _ _ _ _ _ _ _ _ _
                  Hrun Hd1 Hq1 Hu) as H2.
    by destruct r'.
  - by rewrite Hd1, Hq1.
  - intros m _. simpl. by rewrite Hd1, Hq1.
Qed.

Lemma X16_witness :
  fs (download_chapter no_image_env "one-piece" "5" "out"
        {| fs := {["out/one-piece_Chapter_5" := Dir;
                   "out/one-piece_Chapter_5/page_001.png" := File png_bytes]};
           trace := [] |}).2
  !! "out/one-piece_Chapter_5" = Some Dir.
Proof.
  apply (X16_busy_chapter_dir_survives no_image_env "one-piece" "5" "out" _
           "out/one-piece_Chapter_5/page_001.png" (File png_bytes)).
  - by vm_compute.
  - by vm_compute.
  - by vm_compute.
Defined.

(** X17.  Inside the loop a timeout is reported as a timeout, any other
    request exception and an error status as a failed download of that
    page; in all three cases the page is skipped: the list of downloaded
    files and the filesystem stay as they were. *)
Theorem X17_page_failure_reports E dir page proxy_url acc w :
  let w1 := record (EGet (Val proxy_url) (Some 30%Z)) w in
  (http_get E (length (trace w)) (Val proxy_url) (Some 30%Z) = Raise Timeout ->
   page_step E dir page proxy_url acc w
   = (Ok acc, record (EPrint Stderr (TimeoutPage page)) w1)) /\
  (forall e,
     http_get E (length (trace w)) (Val proxy_url) (Some 30%Z) = Raise e ->
     isinstance e ClsRequestException = true -> e <> Timeout ->
     page_step E dir page proxy_url acc w
     = (Ok acc, record (EPrint Stderr (FailedPage page e)) w1)) /\
  (forall r,
     http_get E (length (trace w)) (Val proxy_url) (Some 30%Z) = Ok r ->
     is_error_status r = true ->
     page_step E dir page proxy_url acc w
     = (Ok acc, record (EPrint Stderr (FailedPage page RequestError)) w1)).
Proof.
  intros w1. unfold page_step, try_except, save_page, bind, requests_get,
    raise_for_status, page_handler. split_and!.
  - intros ->. reflexivity.
  - intros e -> He Hne. destruct e; try done.
  - intros r -> ->. reflexivity.
Qed.

Lemma X17_witness :
  page_step one_timeout_env "out" 1 (JStr "https://img/1") [] start
  = (Ok [],
     record (EPrint Stderr (TimeoutPage 1))
            (record (EGet (Val (JStr "https://img/1")) (Some 30%Z)) start)).
Proof.
  apply (proj1 (X17_page_failure_reports one_timeout_env "out" 1
                  (JStr "https://img/1") [] start)).
  reflexivity.
Defined.

(** ** The final report *)

Lemma download_pages_outcomes E dir total image_urls :
  forall page acc w files w' evs,
    download_pages E dir total page image_urls acc w = (Ok files, w') ->
    trace w' = trace w ++ evs ->
    page_outcomes evs = seq page (length image_urls) /\
    length (saved_pages evs) <= length image_urls.
Proof.
  induction image_urls as [|proxy_url rest IH];
    intros page acc w files w' evs Hrun Htr.
  - inversion Hrun; subst.
    assert (evs = []) as ->.
    { apply (app_inv_head (trace w')). by rewrite app_nil_r. }
    done.
  - apply download_pages_step in Hrun
      as [(f & _ & Hres & _)|(_ & r1 & w1 & Hstep & Hrun)]; [done|].
    set (w0 := record _ w) in Hstep.
    apply page_step_cases in Hstep
      as [(r & _ & _ & _ & -> & _ & Htr1)
         |[(-> & _ & _ & m & Hm & Htr1)
          |(e & -> & _)]]; [| |by destruct Hrun].
    + destruct (download_pages_facts _ _ _ _ _ _ _ _ _ Hrun)
        as (evs2 & Htr2 & _).
      destruct (IH (S page) _ _ _ _ evs2 Hrun Htr2) as [Hout Hlen].
      assert (evs = [EPrint Stdout (DownloadingPage page total proxy_url);
                     EGet (Val proxy_url) (Some 30%Z);
                     EFs (OpenWrite (page_path dir page r));
                     EPrint Stdout (SavedPage page (page_path dir page r))]
                    ++ evs2) as ->.
      { apply (app_inv_head (trace w)). rewrite <- Htr, Htr2, Htr1.
        unfold w0. simpl. by rewrite <- !app_assoc. }
      simpl. rewrite Hout. split; [done|lia].
    + destruct (download_pages_facts _ _ _ _ _ _ _ _ _ Hrun)
        as (evs2 & Htr2 & _).
      destruct (IH (S page) _ _ _ _ evs2 Hrun Htr2) as [Hout Hlen].
      assert (evs = [EPrint Stdout (DownloadingPage page total proxy_url);
                     EGet (Val proxy_url) (Some 30%Z);
                     EPrint Stderr m] ++ evs2) as ->.
      { apply (app_inv_head (trace w)). rewrite <- Htr, Htr2, Htr1.
        unfold w0. simpl. by rewrite <- !app_assoc. }
      destruct Hm as [e [-> | ->]]; simpl; rewrite Hout; split; (done || lia).
Qed.

(** X18.  When a call that found the page list [pages] returns a path,
    its last line is the success report: it counts exactly the pages
    reported as saved, at least one and at most all, out of the length of
    the page list.  Before it, every page of the list got exactly one
    outcome, saved, timed out or failed, in the order of the list. *)
Theorem X18_success_report E series_slug chapter_number output_dir w
    image_urls total_pages w1 pages p :
  let dir := chapter_dir_of series_slug chapter_number output_dir in
  let run := download_chapter E series_slug chapter_number output_dir w in
  find_pages E series_slug chapter_number output_dir w
  = (Ok (Some (image_urls, total_pages)), w1) ->
  py_iter image_urls = Ok pages ->
  run.1 = Ok (Some p) ->
  exists evs,
    trace run.2
    = trace w1 ++ evs ++
      [EPrint Stdout
         (Downloaded (length (saved_pages evs)) (length pages) dir)] /\
    page_outcomes evs = seq 1 (length pages) /\
    1 <= length (saved_pages evs) <= length pages.
Proof.
  intros dir run Hfind Hiter Hp. subst run.
  destruct (find_pages_run_total _ _ _ _ _ _ _ _ Hfind)
    as (pages' & Hiter' & Hlen & _).
  assert (pages' = pages) as -> by congruence.
  rewrite (download_chapter_found _ _ _ _ _ _ _ _ Hfind) in *.
  unfold try_except in *.
  destruct (download_into E series_slug chapter_number output_dir image_urls
              total_pages w1) as [res w'] eqn:Hrun.
  apply download_into_cases in Hrun. fold dir in Hrun.
  destruct Hrun as [(-> & _)
                   |(_ & _ & [(e & He & _)|[(t & f & _ & -> & _)|Hrun]])];
    [done|congruence| |].
  { by destruct (outer_handler_catches E (print_exn f)) as (m & Hm & Hh);
      rewrite Hh in Hp. }
  destruct Hrun as (pages' & lres & w2 & Hiter2 & Hloop & Hend).
  assert (pages' = pages) as -> by congruence.
  destruct (download_pages_facts _ _ _ _ _ _ _ _ _ Hloop)
    as (evs2 & Htr2 & Hfiles & _).
  destruct Hend as [(e & -> & -> & ->)
                   |[(files & -> & Hne & -> & ->)
                    |[(-> & -> & _)
                     |[(files & t & f & _ & _ & _ & -> & _)
                      |(e & _ & -> & _)]]]]; [| |done| |].
  { by destruct (outer_handler_catches E e) as (m & Hm & Hh); rewrite Hh in Hp. }
  2: { by destruct (outer_handler_catches E (print_exn f)) as (m & Hm & Hh);
         rewrite Hh in Hp. }
  2: { by destruct (outer_handler_catches E e) as (m & Hm & Hh);
         rewrite Hh in Hp. }
  destruct (download_pages_outcomes _ _ _ _ _ _ _ _ _ _ Hloop Htr2)
    as [Hout Hle].
  specialize (Hfiles files eq_refl). simpl in Hfiles.
  assert (Hcount : length files = length (saved_pages evs2))
    by (by rewrite Hfiles, length_map).
  exists ([EFs (Makedirs dir); EPrint Stdout (OutputDirectory dir)] ++ evs2).
  simpl. rewrite Htr2, Hcount, Hlen. simpl. split_and!.
  - by rewrite <- !app_assoc.
  - by rewrite <- Hlen.
  - destruct files; [done|]. simpl in Hcount. lia.
  - by rewrite <- Hlen.
Qed.

Lemma X18_witness :
  exists evs,
    trace (download_chapter one_timeout_env "one-piece" "5" "out" start).2
    = trace (find_pages one_timeout_env "one-piece" "5" "out" start).2 ++ evs ++
      [EPrint Stdout
         (Downloaded (length (saved_pages evs)) 2 "out/one-piece_Chapter_5")] /\
    page_outcomes evs = [1; 2] /\
    1 <= length (saved_pages evs) <= 2.
Proof.
  apply (X18_success_report one_timeout_env "one-piece" "5" "out" start
           two_pages 2
           (find_pages one_timeout_env "one-piece" "5" "out" start).2
           [JStr "https://img/1"; JStr "https://img/2"]
           "out/one-piece_Chapter_5").
  - by vm_compute.
  - reflexivity.
  - by vm_compute.
Defined.
